(** * Diagonessis frontend: a model of the auth form, the chat view and the
      API client, with the properties of the specification.

    Sources modelled:
    - [src/Pages/SignInUp.tsx]                       (module [SignInUp])
    - [src/Pages/Chat.tsx]                           (module [ChatPage])
    - the other chat view, [unnamed/part_001]        (module [ChatPageAlt])
    - [services/apiService], in [unnamed/part_002]   (module [ApiService])
    - [src/types/api.ts]                             (module [Api])

    JavaScript strings are sequences of UTF-16 code units; they are modelled
    as lists of code units, so that [length], [slice] and the regular
    expression classes count what the browser counts. *)

From Stdlib Require Import List ZArith NArith String Ascii Bool Lia QArith.
Import ListNotations.
Set Warnings "-register-all".

(* ================================================================== *)
(** * Part I. The model                                                *)
(* ================================================================== *)

(** ** JavaScript strings and the built-ins the code calls *)

Module JS.

Definition char16 := N.
Definition jsstring := list char16.

(** A literal: the code units of an ASCII string. *)
Definition str (s : string) : jsstring :=
  map N_of_ascii (list_ascii_of_string s).

(** [a === b] on strings. *)
Fixpoint streq (a b : jsstring) : bool :=
  match a, b with
  | [], [] => true
  | x :: a', y :: b' => N.eqb x y && streq a' b'
  | _, _ => false
  end.

(** Truthiness of a string: every string but the empty one. *)
Definition truthy (s : jsstring) : bool :=
  match s with [] => false | _ :: _ => true end.

(** Truthiness of [string | null | undefined]. *)
Definition truthy_opt (s : option jsstring) : bool :=
  match s with Some s => truthy s | None => false end.

(** [a || d] where [a] may be undefined. *)
Definition or_else (a : option jsstring) (d : jsstring) : jsstring :=
  match a with
  | Some s => if truthy s then s else d
  | None => d
  end.

(** ECMAScript WhiteSpace and LineTerminator code units, what [trim] strips. *)
Definition isWhiteSpace (c : char16) : bool :=
  ((9 <=? c) && (c <=? 13) || (c =? 32) || (c =? 160) || (c =? 5760)
   || (8192 <=? c) && (c <=? 8202) || (c =? 8232) || (c =? 8233)
   || (c =? 8239) || (c =? 8287) || (c =? 12288) || (c =? 65279))%N.

Fixpoint trimStart (s : jsstring) : jsstring :=
  match s with
  | [] => []
  | c :: r => if isWhiteSpace c then trimStart r else s
  end.

Definition trimEnd (s : jsstring) : jsstring := rev (trimStart (rev s)).

Definition trim (s : jsstring) : jsstring := trimEnd (trimStart s).

(** [s.slice(b, e)] for non-negative [b] and [e]. *)
Definition slice (s : jsstring) (b e : nat) : jsstring :=
  firstn (e - b) (skipn b s).

(** The class [\d] of a regular expression without the unicode flag. *)
Definition isDigit (c : char16) : bool := ((48 <=? c) && (c <=? 57))%N.

(** [s.replace(/\D/g, '')] *)
Definition replace_nondigits (s : jsstring) : jsstring := filter isDigit s.

(** [/^\d+$/.test(s)] *)
Definition test_digits (s : jsstring) : bool := truthy s && forallb isDigit s.

(** [s.split('.')]: the pieces between the separators, at least one piece. *)
Fixpoint split_on (sep : char16) (s : jsstring) : list jsstring :=
  match s with
  | [] => [[]]
  | c :: r =>
      if N.eqb c sep then [] :: split_on sep r
      else match split_on sep r with
           | piece :: rest => (c :: piece) :: rest
           | [] => [[c]]
           end
  end.

End JS.

(** ** Results of asynchronous calls *)

(** What the handlers read of a rejected request:
    [error.response?.data?.message] and [error.message]. *)
Record ApiError := {
  response_message : option JS.jsstring;
  error_message : option JS.jsstring
}.

Inductive Result (A : Type) : Type :=
| Resolved (a : A)
| Rejected (e : ApiError).
Arguments Resolved {A} a.
Arguments Rejected {A} e.

(** ** [types/api.ts] *)

Module Api.

Module VerifyOtpRequest.
Record t := { email : JS.jsstring; otp : JS.jsstring; otpId : JS.jsstring }.
End VerifyOtpRequest.

Module VerifyOtpResponse.
Record t := {
  success : bool;
  message : option JS.jsstring;
  verificationToken : option JS.jsstring
}.
End VerifyOtpResponse.

(** [MessageResponse] and [MessageData] of [types/api.ts] have the same
    fields. *)
Module MessageResponse.
Record t := {
  id : JS.jsstring;
  content : JS.jsstring;
  role : JS.jsstring;
  createdAt : JS.jsstring
}.
End MessageResponse.

Module SendMessageRequest.
Record t := { chatId : JS.jsstring; message : JS.jsstring }.
End SendMessageRequest.

(** The [data] of a [SendMessageResponse]. *)
Module SendMessageData.
Record t := {
  userMessage : MessageResponse.t;
  aiMessage : MessageResponse.t
}.
End SendMessageData.

(** The [data] of a [CreateChatResponse]. *)
Module CreateChatData.
Record t := {
  id : JS.jsstring;
  title : JS.jsstring;
  createdAt : JS.jsstring
}.
End CreateChatData.

End Api.

(** ** [src/Pages/SignInUp.tsx] *)

Module SignInUp.
Import JS.

Inductive AuthMode := signin | signup | forgot.

Record FormState := {
  email : jsstring;
  otp : jsstring;
  password : jsstring;
  newPassword : jsstring;
  mode : AuthMode;
  otpSent : bool;
  otpId : jsstring;
  verificationToken : jsstring;
  loading : bool;
  error : jsstring;
  success : jsstring;
  showSnackbar : bool
}.

Definition initialFormState : FormState := {|
  email := [];
  otp := [];
  password := [];
  newPassword := [];
  mode := signin;
  otpSent := false;
  otpId := [];
  verificationToken := [];
  loading := false;
  error := [];
  success := [];
  showSnackbar := false
|}.

(** One key of a [Partial<FormState>] object literal. *)
Inductive Update :=
| Email (v : jsstring)
| Otp (v : jsstring)
| Password (v : jsstring)
| NewPassword (v : jsstring)
| Mode (v : AuthMode)
| OtpSent (v : bool)
| OtpId (v : jsstring)
| VerificationToken (v : jsstring)
| Loading (v : bool)
| Error (v : jsstring)
| Success (v : jsstring)
| ShowSnackbar (v : bool).

Definition assign (s : FormState) (u : Update) : FormState :=
  let '(Build_FormState e o p np m os oi vt l er su sn) := s in
  match u with
  | Email v => Build_FormState v o p np m os oi vt l er su sn
  | Otp v => Build_FormState e v p np m os oi vt l er su sn
  | Password v => Build_FormState e o v np m os oi vt l er su sn
  | NewPassword v => Build_FormState e o p v m os oi vt l er su sn
  | Mode v => Build_FormState e o p np v os oi vt l er su sn
  | OtpSent v => Build_FormState e o p np m v oi vt l er su sn
  | OtpId v => Build_FormState e o p np m os v vt l er su sn
  | VerificationToken v => Build_FormState e o p np m os oi v l er su sn
  | Loading v => Build_FormState e o p np m os oi vt v er su sn
  | Error v => Build_FormState e o p np m os oi vt l v su sn
  | Success v => Build_FormState e o p np m os oi vt l er v sn
  | ShowSnackbar v => Build_FormState e o p np m os oi vt l er su v
  end.

(** [{ ...prev, ...updates }] *)
Definition spread (prev : FormState) (updates : list Update) : FormState :=
  fold_left assign updates prev.

Definition updateFormState (updates : list Update) (prev : FormState)
  : FormState :=
  spread prev updates.

Definition validators_password (password : jsstring) : bool :=
  (6 <=? List.length password)%nat.

Definition validators_otp (otp : jsstring) : bool :=
  (List.length otp =? 6)%nat && test_digits otp.

Definition handleError (error : ApiError) : FormState -> FormState :=
  let message :=
    or_else (response_message error)
      (or_else (error_message error) (str "An unexpected error occurred")) in
  updateFormState
    [Error message; Success []; ShowSnackbar true; Loading false].

Definition showSuccess (message : jsstring) : FormState -> FormState :=
  updateFormState
    [Success message; Error []; ShowSnackbar true; Loading false].

(** What a run of [handleVerifyOtp] leaves behind: the value it resolves
    to, the form state, and the requests it sent to [/auth/verify-otp]. *)
Record Verified := {
  returned : bool;
  state : FormState;
  requests : list Api.VerifyOtpRequest.t
}.

Definition handleVerifyOtp
  (verifyOtp : Api.VerifyOtpRequest.t -> Result Api.VerifyOtpResponse.t)
  (formState : FormState) : Verified :=
  if negb (validators_otp (otp formState)) then
    {| returned := false;
       state := updateFormState
                  [Error (str "Please enter a valid 6-digit OTP");
                   ShowSnackbar true] formState;
       requests := [] |}
  else
    let s1 := updateFormState [Loading true; Error []; Success []] formState in
    let verifyRequest :=
      {| Api.VerifyOtpRequest.email := email formState;
         Api.VerifyOtpRequest.otp := otp formState;
         Api.VerifyOtpRequest.otpId := otpId formState |} in
    match verifyOtp verifyRequest with
    | Resolved response =>
        if Api.VerifyOtpResponse.success response then
          let s2 :=
            updateFormState
              [VerificationToken
                 (or_else (Api.VerifyOtpResponse.verificationToken response) [])]
              s1 in
          {| returned := true;
             state := showSuccess (str "OTP verified successfully") s2;
             requests := [verifyRequest] |}
        else
          {| returned := false;
             state := updateFormState
                        [Error (or_else (Api.VerifyOtpResponse.message response)
                                  (str "Invalid OTP"));
                         ShowSnackbar true; Loading false] s1;
             requests := [verifyRequest] |}
    | Rejected error =>
        {| returned := false;
           state := handleError error s1;
           requests := [verifyRequest] |}
    end.

(** The [onChange] of the OTP text field. *)
Definition otp_onChange (value : jsstring) : FormState -> FormState :=
  updateFormState [Otp (slice (replace_nondigits value) 0 6)].

Definition resetForm (formState : FormState) : FormState :=
  spread initialFormState [Mode (mode formState)].

Definition handleModeToggle (formState : FormState) : FormState :=
  let newMode :=
    match mode formState with signin => signup | _ => signin end in
  spread initialFormState [Mode newMode].

Definition handleForgotPassword (formState : FormState) : FormState :=
  spread initialFormState [Mode forgot].

End SignInUp.

(** ** [src/Pages/Chat.tsx] *)

Module ChatPage.
Import JS.

(** The local interfaces of the chat view. A [Date] is its time value. *)
Module MessageData.
Record t := {
  id : jsstring;
  text : jsstring;
  isUser : bool;
  timestamp : Z
}.
End MessageData.

Module Chat.
Record t := {
  id : jsstring;
  title : jsstring;
  messages : list MessageData.t;
  lastMessage : Z;
  messageCount : Z
}.
End Chat.

(** The methods of [apiService] the chat view calls, as the answers of the
    backend. *)
Module apiService.
Record t := {
  getMessages : jsstring -> Result (list Api.MessageResponse.t);
  sendMessage : Api.SendMessageRequest.t -> Result Api.SendMessageData.t;
  deleteChat : jsstring -> Result unit;
  createChat : jsstring -> Result Api.CreateChatData.t
}.
End apiService.

(** The [useState] cells of [ChatApp] that the handlers below read or
    write ([user] and [loading] belong to the initial load only). *)
Record State := {
  isMobileSidebarOpen : bool;
  isSidebarCollapsed : bool;
  chats : list Chat.t;
  activeChat : jsstring;
  message : jsstring;
  isTyping : bool;
  error : option jsstring;
  deleteDialogOpen : bool;
  chatToDelete : option jsstring;
  isNewUser : bool
}.

(** A request the view sent through [apiService]. *)
Inductive ApiCall :=
| GetMessages (chatId : jsstring)
| SendMessage (request : Api.SendMessageRequest.t)
| DeleteChat (chatId : jsstring)
| CreateChat (title : jsstring).

(** A callback handed to [setTimeout], with its delay in milliseconds. *)
Inductive Callback := CreateNewChat | FocusInput.

Record Timer := { delay : Z; callback : Callback }.

(** The component state together with what the handlers did to the outside:
    the requests sent, oldest first, and the timers set. *)
Record World := {
  ui : State;
  calls : list ApiCall;
  timers : list Timer
}.

Definition update (f : State -> State) (w : World) : World :=
  {| ui := f (ui w); calls := calls w; timers := timers w |}.

Definition call (c : ApiCall) (w : World) : World :=
  {| ui := ui w; calls := calls w ++ [c]; timers := timers w |}.

Definition setTimeout (cb : Callback) (ms : Z) (w : World) : World :=
  {| ui := ui w; calls := calls w;
     timers := timers w ++ [{| delay := ms; callback := cb |}] |}.

Definition setMobileSidebarOpen (v : bool) : World -> World :=
  update (fun s =>
    let '(Build_State _ sc cs ac m ty er dd cd nu) := s in
    Build_State v sc cs ac m ty er dd cd nu).

(** [setChats(prev => f(prev))]; [setChats(v)] is [setChats (fun _ => v)]. *)
Definition setChats (f : list Chat.t -> list Chat.t) : World -> World :=
  update (fun s =>
    let '(Build_State mo sc cs ac m ty er dd cd nu) := s in
    Build_State mo sc (f cs) ac m ty er dd cd nu).

Definition setActiveChat (v : jsstring) : World -> World :=
  update (fun s =>
    let '(Build_State mo sc cs _ m ty er dd cd nu) := s in
    Build_State mo sc cs v m ty er dd cd nu).

Definition setMessage (v : jsstring) : World -> World :=
  update (fun s =>
    let '(Build_State mo sc cs ac _ ty er dd cd nu) := s in
    Build_State mo sc cs ac v ty er dd cd nu).

Definition setIsTyping (v : bool) : World -> World :=
  update (fun s =>
    let '(Build_State mo sc cs ac m _ er dd cd nu) := s in
    Build_State mo sc cs ac m v er dd cd nu).

Definition setError (v : option jsstring) : World -> World :=
  update (fun s =>
    let '(Build_State mo sc cs ac m ty _ dd cd nu) := s in
    Build_State mo sc cs ac m ty v dd cd nu).

Definition setDeleteDialogOpen (v : bool) : World -> World :=
  update (fun s =>
    let '(Build_State mo sc cs ac m ty er _ cd nu) := s in
    Build_State mo sc cs ac m ty er v cd nu).

Definition setChatToDelete (v : option jsstring) : World -> World :=
  update (fun s =>
    let '(Build_State mo sc cs ac m ty er dd _ nu) := s in
    Build_State mo sc cs ac m ty er dd v nu).

Section Handlers.

(** The backend behind [apiService], [new Date(s)] as a time value, and
    the media query [isLargeScreen]. *)
Variable api : apiService.t.
Variable parseDate : jsstring -> Z.
Variable isLargeScreen : bool.

Definition formatMessage (msg : Api.MessageResponse.t) : MessageData.t :=
  {| MessageData.id := Api.MessageResponse.id msg;
     MessageData.text := Api.MessageResponse.content msg;
     MessageData.isUser := streq (Api.MessageResponse.role msg) (str "user");
     MessageData.timestamp := parseDate (Api.MessageResponse.createdAt msg) |}.

Definition loadMessages (chatId : jsstring) (w : World) : World :=
  let w := call (GetMessages chatId) w in
  match apiService.getMessages api chatId with
  | Resolved response =>
      let formattedMessages := map formatMessage response in
      setChats (map (fun chat =>
        if streq (Chat.id chat) chatId
        then {| Chat.id := Chat.id chat;
                Chat.title := Chat.title chat;
                Chat.messages := formattedMessages;
                Chat.lastMessage := Chat.lastMessage chat;
                Chat.messageCount := Chat.messageCount chat |}
        else chat)) w
  | Rejected error =>
      setError (Some (or_else (response_message error)
                        (str "Failed to load messages"))) w
  end.

Definition createNewChat (w : World) : World :=
  let w := call (CreateChat (str "New Chat")) w in
  match apiService.createChat api (str "New Chat") with
  | Resolved data =>
      let newChat :=
        {| Chat.id := Api.CreateChatData.id data;
           Chat.title := Api.CreateChatData.title data;
           Chat.messages := [];
           Chat.lastMessage := parseDate (Api.CreateChatData.createdAt data);
           Chat.messageCount := 0 |} in
      let w := setChats (fun prev => newChat :: prev) w in
      let w := setActiveChat (Chat.id newChat) w in
      let w := if negb isLargeScreen then setMobileSidebarOpen false w else w in
      setTimeout FocusInput 100 w
  | Rejected error =>
      setError (Some (or_else (response_message error)
                        (str "Failed to create chat"))) w
  end.

Definition confirmDeleteChat (chatId : jsstring) (w : World) : World :=
  setDeleteDialogOpen true (setChatToDelete (Some chatId) w).

Definition deleteChat (w : World) : World :=
  let chats := chats (ui w) in
  let activeChat := activeChat (ui w) in
  match chatToDelete (ui w) with
  | None => w
  | Some chatToDelete =>
    if negb (truthy chatToDelete) then w else
    let w := call (DeleteChat chatToDelete) w in
    let w :=
      match apiService.deleteChat api chatToDelete with
      | Resolved _ =>
          let updatedChats :=
            filter (fun chat => negb (streq (Chat.id chat) chatToDelete)) chats in
          let w := setChats (fun _ => updatedChats) w in
          if streq activeChat chatToDelete then
            match updatedChats with
            | first :: _ =>
                loadMessages (Chat.id first) (setActiveChat (Chat.id first) w)
            | [] =>
                setTimeout CreateNewChat 500 (setActiveChat [] w)
            end
          else w
      | Rejected error =>
          setError (Some (or_else (response_message error)
                            (str "Failed to delete chat"))) w
      end in
    setChatToDelete None (setDeleteDialogOpen false w)
  end.

(** The title a chat without messages takes from the text of the input. *)
Definition titleFrom (message : jsstring) : jsstring :=
  slice message 0 30
    ++ (if (30 <? List.length message)%nat then str "..." else []).

(** The two messages of a resolved send, as the view keeps them. *)
Definition userMessageOf (data : Api.SendMessageData.t) : MessageData.t :=
  let fromUser := Api.SendMessageData.userMessage data in
  {| MessageData.id := Api.MessageResponse.id fromUser;
     MessageData.text := Api.MessageResponse.content fromUser;
     MessageData.isUser := true;
     MessageData.timestamp :=
       parseDate (Api.MessageResponse.createdAt fromUser) |}.

Definition aiMessageOf (data : Api.SendMessageData.t) : MessageData.t :=
  let fromAi := Api.SendMessageData.aiMessage data in
  {| MessageData.id := Api.MessageResponse.id fromAi;
     MessageData.text := Api.MessageResponse.content fromAi;
     MessageData.isUser := false;
     MessageData.timestamp :=
       parseDate (Api.MessageResponse.createdAt fromAi) |}.

(** The function [sendMessage] maps over the chats, inside [setChats]. *)
Definition withSent (activeChat message : jsstring)
  (userMessage aiMessage : MessageData.t) (now : Z) (chat : Chat.t)
  : Chat.t :=
  if streq (Chat.id chat) activeChat
  then {| Chat.id := Chat.id chat;
          Chat.messages := Chat.messages chat ++ [userMessage; aiMessage];
          Chat.title :=
            if (List.length (Chat.messages chat) =? 0)%nat
            then titleFrom message
            else Chat.title chat;
          Chat.lastMessage := now;
          Chat.messageCount := Chat.messageCount chat + 2 |}
  else chat.

(** [now] is the time value of [new Date()] at the state update. *)
Definition sendMessage (now : Z) (w : World) : World :=
  let message := message (ui w) in
  let activeChat := activeChat (ui w) in
  if negb (truthy (trim message)) || negb (truthy activeChat) then w else
  let w := setIsTyping true w in
  let request :=
    {| Api.SendMessageRequest.chatId := activeChat;
       Api.SendMessageRequest.message := trim message |} in
  let w := call (SendMessage request) w in
  let w :=
    match apiService.sendMessage api request with
    | Resolved data =>
        let userMessage := userMessageOf data in
        let aiMessage := aiMessageOf data in
        let w :=
          setChats
            (map (withSent activeChat message userMessage aiMessage now)) w in
        setMessage [] w
    | Rejected error =>
        setError (Some (or_else (response_message error)
                          (str "Failed to send message"))) w
    end in
  setIsTyping false w.

(** A session at the input: each text is typed (the [onChange] of the
    field is [setMessage]) and sent, in turn. *)
Fixpoint sendEach (inputs : list (jsstring * Z)) (w : World) : World :=
  match inputs with
  | [] => w
  | (text, now) :: rest => sendEach rest (sendMessage now (setMessage text w))
  end.

Definition handleChatSelect (chatId : jsstring) (w : World) : World :=
  let chats := chats (ui w) in
  let w := setActiveChat chatId w in
  let w := if negb isLargeScreen then setMobileSidebarOpen false w else w in
  match find (fun c => streq (Chat.id c) chatId) chats with
  | Some chat =>
      if (List.length (Chat.messages chat) =? 0)%nat
         && (0 <? Chat.messageCount chat)%Z
      then loadMessages chatId w
      else w
  | None => w
  end.

End Handlers.

End ChatPage.

(** ** The other chat view ([unnamed/part_001])

    Its state, [loadMessages], [sendMessage] and [handleChatSelect] read as
    in [src/Pages/Chat.tsx] (it has no [isNewUser] cell, and nothing below
    writes one); [deleteChat] differs. *)

Module ChatPageAlt.
Import JS.
Import ChatPage.

Section Handlers.

Variable api : apiService.t.
Variable parseDate : jsstring -> Z.

Definition deleteChat (w : World) : World :=
  let chats := chats (ui w) in
  let activeChat := activeChat (ui w) in
  match chatToDelete (ui w) with
  | None => w
  | Some chatToDelete =>
    if negb (truthy chatToDelete) then w else
    let w := call (DeleteChat chatToDelete) w in
    let w :=
      match apiService.deleteChat api chatToDelete with
      | Resolved _ =>
          let w :=
            setChats
              (filter (fun chat => negb (streq (Chat.id chat) chatToDelete))) w in
          if streq activeChat chatToDelete then
            let remainingChats :=
              filter (fun chat => negb (streq (Chat.id chat) chatToDelete))
                chats in
            match remainingChats with
            | first :: _ =>
                loadMessages api parseDate (Chat.id first)
                  (setActiveChat (Chat.id first) w)
            | [] => setActiveChat [] w
            end
          else w
      | Rejected error =>
          setError (Some (or_else (response_message error)
                            (str "Failed to delete chat"))) w
      end in
    setChatToDelete None (setDeleteDialogOpen false w)
  end.

End Handlers.

End ChatPageAlt.

(** ** [services/apiService]: the axios client, its interceptors, the
       token store *)

Module ApiService.
Import JS.

(** The three keys of [localStorage] the service uses. *)
Module localStorage.
Record t := {
  accessToken : option jsstring;
  refreshToken : option jsstring;
  user : option jsstring
}.
End localStorage.

(** The body of a request: only the refresh request's is ever read back. *)
Inductive RequestData :=
| NoData
| RefreshTokenRequest (refreshToken : jsstring)
| OtherData (json : jsstring).

(** An axios request config, with the marker the response interceptor
    sets on it. *)
Record Config := {
  url : jsstring;
  data : RequestData;
  Authorization : option jsstring;
  _retry : bool
}.

(** The [data] object of an [AuthResponse]. *)
Record AuthData := { token : jsstring; newRefreshToken : jsstring }.

(** An HTTP response: its status and, of its body, the [data] object when
    there is one. *)
Record Response := { status : Z; auth : option AuthData }.

(** What comes back for a request: a response, or none (network failure,
    timeout). *)
Inductive Wire := Answer (r : Response) | NoAnswer.

(** The backend: its answer to a request, given the requests it has seen
    before, oldest first. *)
Definition Server := list Config -> Config -> Wire.

Record AxiosError := { config : Config; response : option Response }.

(** The state of a promise once the client is done with it; [Pending] is a
    promise that has not settled within the depth explored. *)
Inductive Promise (A : Type) : Type :=
| Fulfilled (a : A)
| Failed (e : AxiosError)
| Pending.
Arguments Fulfilled {A} a.
Arguments Failed {A} e.
Arguments Pending {A}.

(** A call whose promise nobody awaits: it runs after the caller went on. *)
Inductive Floating := Logout.

Record World := {
  storage : localStorage.t;
  href : jsstring;
  sent : list Config;
  floating : list Floating
}.

Definition getToken (w : World) : option jsstring :=
  localStorage.accessToken (storage w).

Definition getRefreshToken (w : World) : option jsstring :=
  localStorage.refreshToken (storage w).

Definition setToken (token : jsstring) (w : World) : World :=
  {| storage :=
       {| localStorage.accessToken := Some token;
          localStorage.refreshToken := localStorage.refreshToken (storage w);
          localStorage.user := localStorage.user (storage w) |};
     href := href w; sent := sent w; floating := floating w |}.

Definition setRefreshToken (token : jsstring) (w : World) : World :=
  {| storage :=
       {| localStorage.accessToken := localStorage.accessToken (storage w);
          localStorage.refreshToken := Some token;
          localStorage.user := localStorage.user (storage w) |};
     href := href w; sent := sent w; floating := floating w |}.

Definition clearTokens (w : World) : World :=
  {| storage :=
       {| localStorage.accessToken := None;
          localStorage.refreshToken := None;
          localStorage.user := None |};
     href := href w; sent := sent w; floating := floating w |}.

(** [window.location.href = target] *)
Definition redirect (target : jsstring) (w : World) : World :=
  {| storage := storage w; href := target; sent := sent w;
     floating := floating w |}.

(** A call started and not awaited. *)
Definition start (f : Floating) (w : World) : World :=
  {| storage := storage w; href := href w; sent := sent w;
     floating := floating w ++ [f] |}.

(** The request leaves for the backend. *)
Definition transmit (c : Config) (w : World) : World :=
  {| storage := storage w; href := href w; sent := sent w ++ [c];
     floating := floating w |}.

Definition Bearer (token : jsstring) : jsstring := str "Bearer " ++ token.

Definition withAuthorization (v : jsstring) (c : Config) : Config :=
  {| url := url c; data := data c; Authorization := Some v;
     _retry := _retry c |}.

Definition markRetried (c : Config) : Config :=
  {| url := url c; data := data c; Authorization := Authorization c;
     _retry := true |}.

(** The request interceptor. *)
Definition onRequest (config : Config) (w : World) : Config :=
  match getToken w with
  | Some token =>
      if truthy token then withAuthorization (Bearer token) config else config
  | None => config
  end.

(** axios resolves a response with a 2xx status and rejects any other. *)
Definition validateStatus (s : Z) : bool := ((200 <=? s) && (s <? 300))%Z.

Definition is401 (error : AxiosError) : bool :=
  match response error with
  | Some r => (status r =? 401)%Z
  | None => false
  end.

Section Client.

Variable server : Server.

Section Interceptor.

(** [this.api], the client the interceptor itself calls. *)
Variable self : Config -> World -> Promise Response * World.

Definition post (path : jsstring) (d : RequestData)
  : World -> Promise Response * World :=
  self {| url := path; data := d; Authorization := None; _retry := false |}.

Definition refreshToken (rt : jsstring) : World -> Promise Response * World :=
  post (str "/auth/refresh-token") (RefreshTokenRequest rt).

(** The rejection handler of the response interceptor. [error.config] is
    the request object itself: setting [_retry] on it shows in the error
    that is rejected at the end. *)
Definition onResponseError (error : AxiosError) (w : World)
  : Promise Response * World :=
  let originalRequest := config error in
  if is401 error && negb (_retry originalRequest) then
    let originalRequest := markRetried originalRequest in
    let error := {| config := originalRequest; response := response error |} in
    match getRefreshToken w with
    | Some rt =>
        if truthy rt then
          match refreshToken rt w with
          | (Fulfilled r, w) =>
              match auth r with
              | Some d =>
                  let w := setToken (token d) w in
                  let w := setRefreshToken (newRefreshToken d) w in
                  self (withAuthorization (Bearer (token d)) originalRequest) w
              | None =>
                  (* reading [response.data.token] throws: the catch block *)
                  (Failed error, redirect (str "/") (start Logout w))
              end
          | (Failed _, w) =>
              (Failed error, redirect (str "/") (start Logout w))
          | (Pending, w) => (Pending, w)
          end
        else (Failed error, w)
    | None => (Failed error, w)
    end
  else (Failed error, w).

End Interceptor.

(** [this.api(config)]: the request interceptor, the exchange with the
    backend, the response interceptor. [depth] bounds how many requests may
    be nested inside one another. *)
Fixpoint api (depth : nat) (config : Config) (w : World)
  : Promise Response * World :=
  match depth with
  | O => (Pending, w)
  | S depth =>
      let config := onRequest config w in
      let seen := sent w in
      let w := transmit config w in
      match server seen config with
      | Answer r =>
          if validateStatus (status r) then (Fulfilled r, w)
          else onResponseError (api depth)
                 {| config := config; response := Some r |} w
      | NoAnswer =>
          onResponseError (api depth)
            {| config := config; response := None |} w
      end
  end.

(** [logout()]: whatever the request comes to, the tokens are cleared once
    it has settled; [None] while it has not. *)
Definition logout (depth : nat) (w : World) : option World :=
  match post (api depth) (str "/auth/logout") NoData w with
  | (Pending, _) => None
  | (_, w) => Some (clearTokens w)
  end.

End Client.

(** *** [isAuthenticated] *)

(** A JavaScript number. *)
Inductive number := NaN | Finite (q : Q) | PosInfinity | NegInfinity.

(** A value [JSON.parse] returns. *)
Inductive Value :=
| Null
| Bool (b : bool)
| Number (n : number)
| String (s : jsstring)
| Array (elements : list Value)
| Object (properties : list (jsstring * Value)).

Fixpoint lookup (key : jsstring) (properties : list (jsstring * Value))
  : option Value :=
  match properties with
  | [] => None
  | (k, v) :: rest => if streq k key then Some v else lookup key rest
  end.

(** The result of an expression that may throw. *)
Inductive Completion (A : Type) : Type :=
| Normal (a : A)
| Throw.
Arguments Normal {A} a.
Arguments Throw {A}.

(** [payload.exp]: reading a property of [null] throws, a value without the
    property gives [undefined] (here [None]). *)
Definition get_exp (payload : Value) : Completion (option Value) :=
  match payload with
  | Null => Throw
  | Object properties => Normal (lookup (str "exp") properties)
  | _ => Normal None
  end.

(** [x > y] on numbers. *)
Definition number_gt (x : number) (y : Q) : bool :=
  match x with
  | NaN => false
  | Finite q => negb (Qle_bool q y)
  | PosInfinity => true
  | NegInfinity => false
  end.

Section Auth.

(** The platform: [atob] and [JSON.parse], which throw on input they do
    not accept, the conversion of a string to a number, and
    [Array.prototype.toString]. *)
Variable atob : jsstring -> Completion jsstring.
Variable JSON_parse : jsstring -> Completion Value.
Variable StringToNumber : jsstring -> number.
Variable Array_toString : list Value -> jsstring.

Definition ToNumber (v : option Value) : number :=
  match v with
  | None => NaN
  | Some Null => Finite 0
  | Some (Bool b) => Finite (if b then 1 else 0)
  | Some (Number n) => n
  | Some (String s) => StringToNumber s
  | Some (Array elements) => StringToNumber (Array_toString elements)
  | Some (Object _) => StringToNumber (str "[object Object]")
  end.

(** [token.split('.')[1]] as [atob] receives it: a missing second piece is
    [undefined], which [atob] reads as the string "undefined". *)
Definition payloadSegment (token : jsstring) : jsstring :=
  nth 1 (split_on 46%N token) (str "undefined").

(** [currentTime] is the value of [Date.now() / 1000]. *)
Definition isAuthenticated (currentTime : Q) (w : World) : bool :=
  match getToken w with
  | None => false
  | Some token =>
      if negb (truthy token) then false else
      match atob (payloadSegment token) with
      | Throw => false
      | Normal decoded =>
          match JSON_parse decoded with
          | Throw => false
          | Normal payload =>
              match get_exp payload with
              | Throw => false
              | Normal exp => number_gt (ToNumber exp) currentTime
              end
          end
      end
  end.

End Auth.

End ApiService.

(** ** Vocabulary of the properties *)

Module Vocabulary.
Import JS.

(** Every character of the string is a decimal digit. *)
Definition digitsOnly (s : jsstring) : Prop :=
  Forall (fun c => isDigit c = true) s.

(** Every field of the auth form but [mode] has its initial value. *)
Definition fieldsReset (s : SignInUp.FormState) : Prop :=
  SignInUp.email s = SignInUp.email SignInUp.initialFormState
  /\ SignInUp.otp s = SignInUp.otp SignInUp.initialFormState
  /\ SignInUp.password s = SignInUp.password SignInUp.initialFormState
  /\ SignInUp.newPassword s = SignInUp.newPassword SignInUp.initialFormState
  /\ SignInUp.otpSent s = SignInUp.otpSent SignInUp.initialFormState
  /\ SignInUp.otpId s = SignInUp.otpId SignInUp.initialFormState
  /\ SignInUp.verificationToken s
     = SignInUp.verificationToken SignInUp.initialFormState
  /\ SignInUp.loading s = SignInUp.loading SignInUp.initialFormState
  /\ SignInUp.error s = SignInUp.error SignInUp.initialFormState
  /\ SignInUp.success s = SignInUp.success SignInUp.initialFormState
  /\ SignInUp.showSnackbar s = SignInUp.showSnackbar SignInUp.initialFormState.

(** The request a send makes from the state it starts in. *)
Definition requestOf (w : ChatPage.World) : Api.SendMessageRequest.t :=
  {| Api.SendMessageRequest.chatId := ChatPage.activeChat (ChatPage.ui w);
     Api.SendMessageRequest.message :=
       trim (ChatPage.message (ChatPage.ui w)) |}.

(** The chat at position [i] has the id [a] of the active chat, has
    messages, and is titled [t]. *)
Definition titled (a : jsstring) (i : nat) (t : jsstring)
  (w : ChatPage.World) : Prop :=
  ChatPage.activeChat (ChatPage.ui w) = a
  /\ exists chat,
       nth_error (ChatPage.chats (ChatPage.ui w)) i = Some chat
       /\ ChatPage.Chat.id chat = a
       /\ ChatPage.Chat.messages chat <> []
       /\ ChatPage.Chat.title chat = t.

(** The chats left once the chat [chatId] is deleted. *)
Definition remaining (chatId : jsstring) (chats : list ChatPage.Chat.t)
  : list ChatPage.Chat.t :=
  filter (fun chat => negb (streq (ChatPage.Chat.id chat) chatId)) chats.

(** A backend that answers 401 to every request. *)
Definition always401 : ApiService.Server :=
  fun _ _ =>
    ApiService.Answer {| ApiService.status := 401; ApiService.auth := None |}.

(** The refresh request as it leaves, after the request interceptor. *)
Definition refreshRequest (rt : jsstring) (w : ApiService.World)
  : ApiService.Config :=
  ApiService.onRequest
    {| ApiService.url := str "/auth/refresh-token";
       ApiService.data := ApiService.RefreshTokenRequest rt;
       ApiService.Authorization := None;
       ApiService._retry := false |} w.

(** The world after some more requests have left. *)
Definition afterSending (l : list ApiService.Config) (w : ApiService.World)
  : ApiService.World :=
  {| ApiService.storage := ApiService.storage w;
     ApiService.href := ApiService.href w;
     ApiService.sent := ApiService.sent w ++ l;
     ApiService.floating := ApiService.floating w |}.

(** Nothing is left under the three keys of the token store. *)
Definition tokensCleared (w : ApiService.World) : Prop :=
  ApiService.storage w
  = {| ApiService.localStorage.accessToken := None;
       ApiService.localStorage.refreshToken := None;
       ApiService.localStorage.user := None |}.

End Vocabulary.

(** ** Sample data, for the concrete runs of Part II *)

Module Samples.
Import JS.

Definition reply (i c r : string) : Api.MessageResponse.t :=
  {| Api.MessageResponse.id := str i;
     Api.MessageResponse.content := str c;
     Api.MessageResponse.role := str r;
     Api.MessageResponse.createdAt := str "2025-01-01T00:00:00Z" |}.

(** A backend that answers every call of the chat view. *)
Definition backend : ChatPage.apiService.t :=
  {| ChatPage.apiService.getMessages := fun _ =>
       Resolved [reply "m1" "Earlier question" "user";
                 reply "m2" "Earlier answer" "assistant"];
     ChatPage.apiService.sendMessage := fun request =>
       Resolved
         {| Api.SendMessageData.userMessage :=
              {| Api.MessageResponse.id := str "u1";
                 Api.MessageResponse.content :=
                   Api.SendMessageRequest.message request;
                 Api.MessageResponse.role := str "user";
                 Api.MessageResponse.createdAt := str "2025-01-01T00:00:01Z" |};
            Api.SendMessageData.aiMessage := reply "a1" "Hi there" "assistant" |};
     ChatPage.apiService.deleteChat := fun _ => Resolved tt;
     ChatPage.apiService.createChat := fun title =>
       Resolved {| Api.CreateChatData.id := str "c9";
                   Api.CreateChatData.title := title;
                   Api.CreateChatData.createdAt := str "2025-01-01T00:00:02Z" |} |}.

Definition parseDate (s : jsstring) : Z := Z.of_nat (List.length s).

(** A chat just created, and an older one whose messages are not loaded. *)
Definition newChat : ChatPage.Chat.t :=
  {| ChatPage.Chat.id := str "c1";
     ChatPage.Chat.title := str "New Chat";
     ChatPage.Chat.messages := [];
     ChatPage.Chat.lastMessage := 0;
     ChatPage.Chat.messageCount := 0 |}.

Definition olderChat : ChatPage.Chat.t :=
  {| ChatPage.Chat.id := str "c2";
     ChatPage.Chat.title := str "Headache";
     ChatPage.Chat.messages := [];
     ChatPage.Chat.lastMessage := 0;
     ChatPage.Chat.messageCount := 2 |}.

(** The chat view with [chats] in the sidebar, [active] selected, [text] in
    the input and [doomed] awaiting the confirmation of its deletion. *)
Definition view (chats : list ChatPage.Chat.t) (active text : jsstring)
  (doomed : option jsstring) : ChatPage.World :=
  {| ChatPage.ui :=
       {| ChatPage.isMobileSidebarOpen := false;
          ChatPage.isSidebarCollapsed := false;
          ChatPage.chats := chats;
          ChatPage.activeChat := active;
          ChatPage.message := text;
          ChatPage.isTyping := false;
          ChatPage.error := None;
          ChatPage.deleteDialogOpen :=
            match doomed with Some _ => true | None => false end;
          ChatPage.chatToDelete := doomed;
          ChatPage.isNewUser := false |};
     ChatPage.calls := [];
     ChatPage.timers := [] |}.

(** The browser on the chat page, with what the token store holds. *)
Definition browser (access refresh : option jsstring) : ApiService.World :=
  {| ApiService.storage :=
       {| ApiService.localStorage.accessToken := access;
          ApiService.localStorage.refreshToken := refresh;
          ApiService.localStorage.user := None |};
     ApiService.href := str "/home";
     ApiService.sent := [];
     ApiService.floating := [] |}.

Definition listChats : ApiService.Config :=
  {| ApiService.url := str "/chats/list";
     ApiService.data := ApiService.OtherData (str "{}");
     ApiService.Authorization := None;
     ApiService._retry := false |}.

Definition unauthorized : ApiService.Response :=
  {| ApiService.status := 401; ApiService.auth := None |}.

(** A backend whose refresh endpoint is down (500) and that answers 401 to
    everything else. *)
Definition refreshDown : ApiService.Server :=
  fun _ c =>
    if streq (ApiService.url c) (str "/auth/refresh-token")
    then ApiService.Answer
           {| ApiService.status := 500; ApiService.auth := None |}
    else ApiService.Answer unauthorized.

(** A backend that renews the tokens and still answers 401 to everything
    else. *)
Definition renewsOnly : ApiService.Server :=
  fun _ c =>
    if streq (ApiService.url c) (str "/auth/refresh-token")
    then ApiService.Answer
           {| ApiService.status := 200;
              ApiService.auth :=
                Some {| ApiService.token := str "t2";
                        ApiService.newRefreshToken := str "r2" |} |}
    else ApiService.Answer unauthorized.

(** Worlds of the concrete runs. *)
Definition greeting : ChatPage.World :=
  view [newChat; olderChat] (str "c1") (str "Hello") None.

Definition paddedGreeting : ChatPage.World :=
  view [newChat; olderChat] (str "c1") (str "Hello ") None.

Definition blankInput : ChatPage.World :=
  view [newChat; olderChat] (str "c1") (str "   ") None.

Definition emptyInput : ChatPage.World :=
  view [newChat; olderChat] (str "c1") [] None.

Definition deletingActive : ChatPage.World :=
  view [newChat; olderChat] (str "c1") [] (Some (str "c1")).

Definition signedIn : ApiService.World :=
  browser (Some (str "t1")) (Some (str "r1")).

Definition withoutRefreshToken : ApiService.World :=
  browser (Some (str "t1")) None.

(** A stand-in for the platform: a token whose payload segment is "live"
    decodes to a payload that expires at second 2000; no other segment
    decodes. *)
Definition atob (s : jsstring) : ApiService.Completion jsstring :=
  if streq s (str "live") then ApiService.Normal (str "{exp:2000}")
  else ApiService.Throw.

Definition JSON_parse (s : jsstring) : ApiService.Completion ApiService.Value :=
  if streq s (str "{exp:2000}")
  then ApiService.Normal
         (ApiService.Object
            [(str "exp", ApiService.Number (ApiService.Finite 2000))])
  else ApiService.Throw.

Definition StringToNumber (s : jsstring) : ApiService.number :=
  ApiService.NaN.

Definition Array_toString (l : list ApiService.Value) : jsstring := [].

End Samples.

(** ** Regular expressions, for [validators.email] *)

Module RegExp.
Import JS.

(** The patterns the form uses: character classes, sequence, repetition;
    [Void] and [Alt] come in with the derivatives. *)
Inductive t :=
| Void
| Eps
| Class (p : char16 -> bool)
| Seq (r1 r2 : t)
| Alt (r1 r2 : t)
| Star (r : t).

(** [r+] *)
Definition Plus (r : t) : t := Seq r (Star r).

(** The strings a pattern stands for. *)
Inductive matches : t -> jsstring -> Prop :=
| M_eps : matches Eps []
| M_class p c : p c = true -> matches (Class p) [c]
| M_seq r1 r2 s1 s2 :
    matches r1 s1 -> matches r2 s2 -> matches (Seq r1 r2) (s1 ++ s2)
| M_alt_l r1 r2 s : matches r1 s -> matches (Alt r1 r2) s
| M_alt_r r1 r2 s : matches r2 s -> matches (Alt r1 r2) s
| M_star_nil r : matches (Star r) []
| M_star_more r s1 s2 :
    matches r s1 -> matches (Star r) s2 -> matches (Star r) (s1 ++ s2).

Fixpoint nullable (r : t) : bool :=
  match r with
  | Void => false
  | Eps => true
  | Class _ => false
  | Seq r1 r2 => nullable r1 && nullable r2
  | Alt r1 r2 => nullable r1 || nullable r2
  | Star _ => true
  end.

(** What is left of the pattern once the character [c] is read. *)
Fixpoint after (c : char16) (r : t) : t :=
  match r with
  | Void => Void
  | Eps => Void
  | Class p => if p c then Eps else Void
  | Seq r1 r2 =>
      if nullable r1
      then Alt (Seq (after c r1) r2) (after c r2)
      else Seq (after c r1) r2
  | Alt r1 r2 => Alt (after c r1) (after c r2)
  | Star r1 => Seq (after c r1) (Star r1)
  end.

(** [/^r$/.test(s)] *)
Definition test (r : t) (s : jsstring) : bool :=
  nullable (fold_left (fun r c => after c r) s r).

End RegExp.

(** ** [src/Pages/SignInUp.tsx], the handlers of the form *)

Module SignInUpForm.
Import JS.
Import SignInUp.

(** [[^\s@]]: the class [\s] of a regular expression is the white space
    and the line terminators. *)
Definition notSpaceNorAt (c : char16) : bool :=
  negb (isWhiteSpace c || (c =? 64)%N).

(** [/^[^\s@]+@[^\s@]+\.[^\s@]+$/] *)
Definition emailRegex : RegExp.t :=
  RegExp.Seq (RegExp.Plus (RegExp.Class notSpaceNorAt))
    (RegExp.Seq (RegExp.Class (fun c => (c =? 64)%N))
       (RegExp.Seq (RegExp.Plus (RegExp.Class notSpaceNorAt))
          (RegExp.Seq (RegExp.Class (fun c => (c =? 46)%N))
             (RegExp.Plus (RegExp.Class notSpaceNorAt))))).

Definition validators_email (email : jsstring) : bool :=
  RegExp.test emailRegex email.

(** The answers of [apiService] the form reads: [success], [message], and
    for the OTP request [otpId]. *)
Record SendOtpResponse := {
  otp_success : bool;
  otp_message : option jsstring;
  otp_otpId : option jsstring
}.

Record ApiResponse := {
  success : bool;
  message : option jsstring
}.

Record LoginRequest := {
  login_email : jsstring;
  login_password : jsstring
}.

Record SignupRequest := {
  signup_email : jsstring;
  signup_password : jsstring;
  signup_verificationToken : jsstring
}.

Record ForgotPasswordRequest := {
  forgot_email : jsstring;
  forgot_newPassword : jsstring;
  forgot_verificationToken : jsstring
}.

(** The methods of [apiService] the form calls, as the answers of the
    backend. *)
Record apiService := {
  sendOtp : jsstring -> Result SendOtpResponse;
  verifyOtp : Api.VerifyOtpRequest.t -> Result Api.VerifyOtpResponse.t;
  login : LoginRequest -> Result ApiResponse;
  register : SignupRequest -> Result ApiResponse;
  forgotPassword : ForgotPasswordRequest -> Result ApiResponse
}.

(** A request the form sent. *)
Inductive Request :=
| SendOtp (email : jsstring)
| VerifyOtp (request : Api.VerifyOtpRequest.t)
| Login (request : LoginRequest)
| Signup (request : SignupRequest)
| ForgotPassword (request : ForgotPasswordRequest).

(** A callback handed to [setTimeout]: a navigation, or the return to the
    sign-in form after a password reset, which closes over the form state
    of the render that set the timer. *)
Inductive Callback :=
| Navigate (path : jsstring)
| ResetToSignIn (formState : FormState).

Record Timer := { delay : Z; callback : Callback }.

(** The form with what its handlers did to the outside: the requests
    sent, oldest first, and the timers set. *)
Record Page := {
  form : FormState;
  sent : list Request;
  timers : list Timer
}.

Definition setForm (f : FormState -> FormState) (p : Page) : Page :=
  {| form := f (form p); sent := sent p; timers := timers p |}.

Definition send (r : Request) (p : Page) : Page :=
  {| form := form p; sent := sent p ++ [r]; timers := timers p |}.

Definition setTimeout (cb : Callback) (ms : Z) (p : Page) : Page :=
  {| form := form p; sent := sent p;
     timers := timers p ++ [{| delay := ms; callback := cb |}] |}.

Section Handlers.

Variable api : apiService.

Definition handleSendOtp (p : Page) : Page :=
  let formState := form p in
  if negb (validators_email (email formState)) then
    setForm (updateFormState
               [Error (str "Please enter a valid email address");
                ShowSnackbar true]) p
  else
    let p := setForm (updateFormState [Loading true; Error []; Success []]) p in
    let p := send (SendOtp (email formState)) p in
    match sendOtp api (email formState) with
    | Resolved response =>
        if otp_success response then
          let p := setForm (updateFormState
                              [OtpId (or_else (otp_otpId response) []);
                               OtpSent true]) p in
          setForm (showSuccess (str "OTP sent successfully to your email")) p
        else
          setForm (updateFormState
                     [Error (or_else (otp_message response)
                               (str "Failed to send OTP"));
                      ShowSnackbar true; Loading false]) p
    | Rejected error => setForm (handleError error) p
    end.

(** [handleVerifyOtp] of the form, on the page: its requests join the
    requests of the page. *)
Definition handleVerifyOtpOn (p : Page) : bool * Page :=
  let v := handleVerifyOtp (verifyOtp api) (form p) in
  (returned v,
   {| form := state v;
      sent := sent p ++ map VerifyOtp (requests v);
      timers := timers p |}).

Definition handleSignIn (p : Page) : Page :=
  let formState := form p in
  if negb (validators_email (email formState)) then
    setForm (updateFormState
               [Error (str "Please enter a valid email address");
                ShowSnackbar true]) p
  else if negb (validators_password (password formState)) then
    setForm (updateFormState
               [Error (str "Password must be at least 6 characters long");
                ShowSnackbar true]) p
  else
    let p := setForm (updateFormState [Loading true; Error []; Success []]) p in
    let loginRequest :=
      {| login_email := email formState;
         login_password := password formState |} in
    let p := send (Login loginRequest) p in
    match login api loginRequest with
    | Resolved response =>
        if success response then
          let p := setForm (showSuccess (str "Sign in successful")) p in
          setTimeout (Navigate (str "/home")) 1500 p
        else
          setForm (updateFormState
                     [Error (or_else (message response) (str "Sign in failed"));
                      ShowSnackbar true; Loading false]) p
    | Rejected error => setForm (handleError error) p
    end.

Definition handleSignUp (p : Page) : Page :=
  let formState := form p in
  if negb (validators_password (newPassword formState)) then
    setForm (updateFormState
               [Error (str "Password must be at least 6 characters long");
                ShowSnackbar true]) p
  else if negb (truthy (verificationToken formState)) then
    setForm (updateFormState
               [Error (str "Please verify your email first");
                ShowSnackbar true]) p
  else
    let p := setForm (updateFormState [Loading true; Error []; Success []]) p in
    let signupRequest :=
      {| signup_email := email formState;
         signup_password := newPassword formState;
         signup_verificationToken := verificationToken formState |} in
    let p := send (Signup signupRequest) p in
    match register api signupRequest with
    | Resolved response =>
        if success response then
          let p := setForm (showSuccess (str "Account created successfully")) p in
          setTimeout (Navigate (str "/user-info")) 1500 p
        else
          setForm (updateFormState
                     [Error (or_else (message response) (str "Sign up failed"));
                      ShowSnackbar true; Loading false]) p
    | Rejected error => setForm (handleError error) p
    end.

Definition handleForgotPasswordSubmit (p : Page) : Page :=
  let formState := form p in
  if negb (validators_password (newPassword formState)) then
    setForm (updateFormState
               [Error (str "Password must be at least 6 characters long");
                ShowSnackbar true]) p
  else if negb (truthy (verificationToken formState)) then
    setForm (updateFormState
               [Error (str "Please verify your email first");
                ShowSnackbar true]) p
  else
    let p := setForm (updateFormState [Loading true; Error []; Success []]) p in
    let forgotPasswordRequest :=
      {| forgot_email := email formState;
         forgot_newPassword := newPassword formState;
         forgot_verificationToken := verificationToken formState |} in
    let p := send (ForgotPassword forgotPasswordRequest) p in
    match forgotPassword api forgotPasswordRequest with
    | Resolved response =>
        if success response then
          let p := setForm (showSuccess (str "Password reset successfully")) p in
          setTimeout (ResetToSignIn formState) 2000 p
        else
          setForm (updateFormState
                     [Error (or_else (message response)
                               (str "Password reset failed"));
                      ShowSnackbar true; Loading false]) p
    | Rejected error => setForm (handleError error) p
    end.

Definition handleSubmit (p : Page) : Page :=
  let formState := form p in
  match mode formState with
  | signin => handleSignIn p
  | signup =>
      if negb (otpSent formState) then handleSendOtp p
      else if negb (truthy (verificationToken formState))
      then snd (handleVerifyOtpOn p)
      else handleSignUp p
  | forgot =>
      if negb (otpSent formState) then handleSendOtp p
      else if negb (truthy (verificationToken formState))
      then snd (handleVerifyOtpOn p)
      else handleForgotPasswordSubmit p
  end.

End Handlers.

(** The timer fires: [navigate] leaves the form alone; the return to
    sign-in is [resetForm()], with the mode of the closure, and then the
    update of [mode]. *)
Definition fire (cb : Callback) (current : FormState) : FormState :=
  match cb with
  | Navigate _ => current
  | ResetToSignIn formState =>
      updateFormState [Mode signin] (resetForm formState)
  end.

Definition getSubmitButtonText (formState : FormState) : jsstring :=
  if loading formState then [] else
  match mode formState with
  | signin => str "Sign In"
  | signup =>
      if negb (otpSent formState) then str "Send OTP"
      else if negb (truthy (verificationToken formState)) then str "Verify OTP"
      else str "Create Account"
  | forgot =>
      if negb (otpSent formState) then str "Send Reset OTP"
      else if negb (truthy (verificationToken formState)) then str "Verify OTP"
      else str "Reset Password"
  end.

Definition isSubmitDisabled (formState : FormState) : bool :=
  if loading formState then true else
  match mode formState with
  | signin => negb (truthy (email formState))
              || negb (truthy (password formState))
  | signup | forgot =>
      if negb (otpSent formState) then negb (truthy (email formState))
      else if negb (truthy (verificationToken formState))
      then negb (truthy (otp formState))
      else negb (truthy (newPassword formState))
  end.

(** The [onChange] of the email and of the two password fields. *)
Definition email_onChange (value : jsstring) : FormState -> FormState :=
  updateFormState [Email value].

Definition password_onChange (value : jsstring) : FormState -> FormState :=
  updateFormState [Password value].

Definition newPassword_onChange (value : jsstring) : FormState -> FormState :=
  updateFormState [NewPassword value].


End SignInUpForm.

(** ** Vocabulary of the properties, the auth form *)

Module FormVocabulary.
Import JS SignInUp SignInUpForm.

(** A piece of an address: not empty, without white space and without
    an at sign. *)
Definition addressPart (s : jsstring) : Prop :=
  s <> [] /\ Forall (fun c => isWhiteSpace c = false /\ c <> 64%N) s.

(** What the form must hold for a request to be one [handleSubmit] may
    send. *)
Definition allowed (fs : FormState) (r : Request) : Prop :=
  match r with
  | Login q =>
      mode fs = signin
      /\ q = {| login_email := email fs; login_password := password fs |}
      /\ validators_email (email fs) = true
      /\ (6 <= List.length (password fs))%nat
  | SendOtp e =>
      mode fs <> signin /\ otpSent fs = false
      /\ e = email fs /\ validators_email e = true
  | VerifyOtp q =>
      mode fs <> signin /\ otpSent fs = true /\ verificationToken fs = []
      /\ q = {| Api.VerifyOtpRequest.email := email fs;
                Api.VerifyOtpRequest.otp := otp fs;
                Api.VerifyOtpRequest.otpId := otpId fs |}
      /\ List.length (otp fs) = 6%nat
      /\ Vocabulary.digitsOnly (otp fs)
  | Signup q =>
      mode fs = signup /\ otpSent fs = true /\ verificationToken fs <> []
      /\ q = {| signup_email := email fs;
                signup_password := newPassword fs;
                signup_verificationToken := verificationToken fs |}
      /\ (6 <= List.length (newPassword fs))%nat
  | ForgotPassword q =>
      mode fs = forgot /\ otpSent fs = true /\ verificationToken fs <> []
      /\ q = {| forgot_email := email fs;
                forgot_newPassword := newPassword fs;
                forgot_verificationToken := verificationToken fs |}
      /\ (6 <= List.length (newPassword fs))%nat
  end.

(** The label the submit button shows for the step that sends [r]. *)
Definition labelOf (m : AuthMode) (r : Request) : jsstring :=
  match r with
  | Login _ => str "Sign In"
  | SendOtp _ =>
      match m with forgot => str "Send Reset OTP" | _ => str "Send OTP" end
  | VerifyOtp _ => str "Verify OTP"
  | Signup _ => str "Create Account"
  | ForgotPassword _ => str "Reset Password"
  end.

(** [after] is [before] with an error message put up and nothing else
    changed. *)
Definition onlyErrorShown (before after : FormState) : Prop :=
  email after = email before
  /\ otp after = otp before
  /\ password after = password before
  /\ newPassword after = newPassword before
  /\ mode after = mode before
  /\ otpSent after = otpSent before
  /\ otpId after = otpId before
  /\ verificationToken after = verificationToken before
  /\ loading after = loading before
  /\ SignInUp.success after = SignInUp.success before
  /\ error after <> []
  /\ showSnackbar after = true.

End FormVocabulary.

(** ** [src/Pages/Chat.tsx], the rest of the view: the sidebar toggle, the
       current thread, the initial load and the first chat of a new user *)

Module ChatPageLoad.
Import JS.
Import ChatPage.

Definition setSidebarCollapsed (v : bool) : World -> World :=
  update (fun s =>
    let '(Build_State mo _ cs ac m ty er dd cd nu) := s in
    Build_State mo v cs ac m ty er dd cd nu).

Definition setIsNewUser (v : bool) : World -> World :=
  update (fun s =>
    let '(Build_State mo sc cs ac m ty er dd cd _) := s in
    Build_State mo sc cs ac m ty er dd cd v).

Definition handleSidebarToggle (isLargeScreen : bool) (w : World) : World :=
  if isLargeScreen
  then setSidebarCollapsed (negb (isSidebarCollapsed (ui w))) w
  else setMobileSidebarOpen (negb (isMobileSidebarOpen (ui w))) w.

Definition getCurrentChat (w : World) : option Chat.t :=
  find (fun chat => streq (Chat.id chat) (activeChat (ui w))) (chats (ui w)).

(** [getCurrentChat()?.messages || []] *)
Definition currentMessages (w : World) : list MessageData.t :=
  match getCurrentChat w with
  | Some chat => Chat.messages chat
  | None => []
  end.

(** The fields of the profile the initial load looks at; each may be
    missing. *)
Record User := {
  name : option jsstring;
  age : option Z;
  profession : option jsstring;
  address : option jsstring
}.

(** A chat as the list request returns it ([ChatData] of [types/api.ts]),
    with the fields [loadChats] reads. *)
Record ChatData := {
  id : jsstring;
  title : jsstring;
  updatedAt : jsstring;
  messageCount : Z
}.

(** What the initial load asks of [apiService]: whether the session is
    authenticated, the [data] of the profile response when it has one, the
    chats of the list response. *)
Record Services := {
  isAuthenticated : bool;
  getUserProfile : Result (option User);
  getChats : Result (list ChatData)
}.

(** What left for the backend during the load, in order: the two requests
    of the load itself and the requests of the handlers of the view. *)
Inductive Event :=
| ProfileRequested
| ChatsRequested
| ViewRequested (c : ApiCall).

(** The view while it loads: its state, the [loading] and [user] cells,
    the location once it was assigned, and the requests so far. *)
Record Loader := {
  page : World;
  loading : bool;
  user : option User;
  href : option jsstring;
  events : list Event
}.

(** A handler of the view runs: the requests it sends join the events. *)
Definition onPage (f : World -> World) (l : Loader) : Loader :=
  {| page := f (page l);
     loading := loading l;
     user := user l;
     href := href l;
     events :=
       events l
         ++ map ViewRequested
              (skipn (List.length (calls (page l))) (calls (f (page l)))) |}.

Definition request (e : Event) (l : Loader) : Loader :=
  {| page := page l; loading := loading l; user := user l; href := href l;
     events := events l ++ [e] |}.

Definition setLoading (v : bool) (l : Loader) : Loader :=
  {| page := page l; loading := v; user := user l; href := href l;
     events := events l |}.

Definition setUser (v : option User) (l : Loader) : Loader :=
  {| page := page l; loading := loading l; user := v; href := href l;
     events := events l |}.

(** [window.location.href = target] *)
Definition redirect (target : jsstring) (l : Loader) : Loader :=
  {| page := page l; loading := loading l; user := user l;
     href := Some target; events := events l |}.

(** Truthiness of a number that may be missing. *)
Definition truthy_number (n : option Z) : bool :=
  match n with Some v => negb (v =? 0)%Z | None => false end.

(** [!data?.name || !data?.age || !data?.profession || !data?.address] *)
Definition incomplete (data : option User) : bool :=
  match data with
  | None => true
  | Some u =>
      negb (truthy_opt (name u)) || negb (truthy_number (age u))
      || negb (truthy_opt (profession u)) || negb (truthy_opt (address u))
  end.

Section Loading.

Variable services : Services.
Variable api : apiService.t.
Variable parseDate : jsstring -> Z.
Variable isLargeScreen : bool.

Definition formatChat (chat : ChatData) : Chat.t :=
  {| Chat.id := id chat;
     Chat.title := title chat;
     Chat.messages := [];
     Chat.lastMessage := parseDate (updatedAt chat);
     Chat.messageCount := messageCount chat |}.

(** [loadChats], with the chats it returns. *)
Definition loadChats (l : Loader) : list Chat.t * Loader :=
  let activeChat := activeChat (ui (page l)) in
  let l := request ChatsRequested l in
  match getChats services with
  | Resolved response =>
      let formattedChats := map formatChat response in
      let l := onPage (setChats (fun _ => formattedChats)) l in
      let l :=
        if negb (truthy activeChat) then
          match formattedChats with
          | first :: _ =>
              onPage (loadMessages api parseDate (Chat.id first))
                (onPage (setActiveChat (Chat.id first)) l)
          | [] => l
          end
        else l in
      (formattedChats, l)
  | Rejected error =>
      ([], onPage (setError (Some (or_else (response_message error)
                                     (str "Failed to load chats")))) l)
  end.

Definition loadInitialData (l : Loader) : Loader :=
  let l := setLoading true l in
  let l :=
    if negb (isAuthenticated services) then redirect (str "/") l
    else
      let l := request ProfileRequested l in
      match getUserProfile services with
      | Resolved data =>
          if incomplete data then redirect (str "/user-info") l
          else
            let l := setUser data l in
            let (chatsData, l) := loadChats l in
            if (List.length chatsData =? 0)%nat
            then onPage (setIsNewUser true) l
            else l
      | Rejected error =>
          onPage (setError (Some (or_else (response_message error)
                                    (str "Failed to load data")))) l
      end in
  setLoading false l.

(** The effect that gives a new user a first chat. *)
Definition newUserEffect (l : Loader) : Loader :=
  if isNewUser (ui (page l))
     && (List.length (chats (ui (page l))) =? 0)%nat
     && negb (loading l)
  then onPage (setIsNewUser false)
         (onPage (createNewChat api parseDate isLargeScreen) l)
  else l.

End Loading.

(** The view as it is mounted. *)
Definition mounted : Loader :=
  {| page :=
       {| ui :=
            {| isMobileSidebarOpen := false;
               isSidebarCollapsed := false;
               chats := [];
               activeChat := [];
               message := [];
               isTyping := false;
               error := None;
               deleteDialogOpen := false;
               chatToDelete := None;
               isNewUser := false |};
          calls := [];
          timers := [] |};
     loading := true;
     user := None;
     href := None;
     events := [] |}.

End ChatPageLoad.

(** ** [services/apiService], the user of the stored token, and the
       logout of the chat view *)

Module ApiServiceSession.
Import JS.
Import ApiService.

(** The URL the refresh request goes to. *)
Definition refreshUrl : jsstring := str "/auth/refresh-token".

(** The requests that left between the world [before] and the world
    [after]. *)
Definition sentSince (before after : World) : list Config :=
  skipn (List.length (sent before)) (sent after).

(** A request that settles with the request itself: the outcome does not
    depend on the depth, it is not pending, one request left. *)
Definition settlesAtOnce (server : Server) (c : Config) (w : World) : Prop :=
  (forall depth, api server (S depth) c w = api server 1 c w)
  /\ fst (api server 1 c w) <> Pending
  /\ sent (snd (api server 1 c w)) = sent w ++ [onRequest c w]
  /\ storage (snd (api server 1 c w)) = storage w.

Section Session.

Variable atob : jsstring -> Completion jsstring.
Variable JSON_parse : jsstring -> Completion Value.

(** [getCurrentUser()]: the payload of the stored token, or [null]. *)
Definition getCurrentUser (w : World) : Value :=
  match getToken w with
  | None => Null
  | Some token =>
      if negb (truthy token) then Null else
      match atob (payloadSegment token) with
      | Throw => Null
      | Normal decoded =>
          match JSON_parse decoded with
          | Throw => Null
          | Normal payload => payload
          end
      end
  end.

End Session.

(** [handleLogout] of the chat view: the logout is awaited, then the
    location is set to "/"; [None] while the logout has not settled. *)
Definition handleLogout (server : Server) (depth : nat) (w : World)
  : option World :=
  match logout server depth w with
  | Some w => Some (redirect (str "/") w)
  | None => None
  end.

End ApiServiceSession.

(** ** Sample data for the concrete runs of the further properties *)

Module MoreSamples.
Import JS.

(** A backend that accepts whatever the form sends. *)
Definition accepting : SignInUpForm.apiService :=
  {| SignInUpForm.sendOtp := fun _ =>
       Resolved {| SignInUpForm.otp_success := true;
                   SignInUpForm.otp_message := None;
                   SignInUpForm.otp_otpId := Some (str "otp-1") |};
     SignInUpForm.verifyOtp := fun _ =>
       Resolved {| Api.VerifyOtpResponse.success := true;
                   Api.VerifyOtpResponse.message := None;
                   Api.VerifyOtpResponse.verificationToken :=
                     Some (str "vt-1") |};
     SignInUpForm.login := fun _ =>
       Resolved {| SignInUpForm.success := true;
                   SignInUpForm.message := None |};
     SignInUpForm.register := fun _ =>
       Resolved {| SignInUpForm.success := true;
                   SignInUpForm.message := None |};
     SignInUpForm.forgotPassword := fun _ =>
       Resolved {| SignInUpForm.success := true;
                   SignInUpForm.message := None |} |}.

(** A backend that refuses the sign-in and verifies without a token. *)
Definition grudging : SignInUpForm.apiService :=
  {| SignInUpForm.sendOtp := fun _ =>
       Rejected {| response_message := None; error_message := None |};
     SignInUpForm.verifyOtp := fun _ =>
       Resolved {| Api.VerifyOtpResponse.success := true;
                   Api.VerifyOtpResponse.message := None;
                   Api.VerifyOtpResponse.verificationToken := None |};
     SignInUpForm.login := fun _ =>
       Resolved {| SignInUpForm.success := false;
                   SignInUpForm.message := Some (str "Invalid credentials") |};
     SignInUpForm.register := fun _ =>
       Rejected {| response_message := None; error_message := None |};
     SignInUpForm.forgotPassword := fun _ =>
       Rejected {| response_message := None; error_message := None |} |}.

(** The form in a mode, with what was typed and how far the OTP steps
    went. *)
Definition formWith (m : SignInUp.AuthMode) (email otp password newPassword
  : string) (otpSent : bool) (token : string) : SignInUpForm.Page :=
  {| SignInUpForm.form :=
       {| SignInUp.email := str email;
          SignInUp.otp := str otp;
          SignInUp.password := str password;
          SignInUp.newPassword := str newPassword;
          SignInUp.mode := m;
          SignInUp.otpSent := otpSent;
          SignInUp.otpId := str "otp-1";
          SignInUp.verificationToken := str token;
          SignInUp.loading := false;
          SignInUp.error := [];
          SignInUp.success := [];
          SignInUp.showSnackbar := false |};
     SignInUpForm.sent := [];
     SignInUpForm.timers := [] |}.

Definition signingIn : SignInUpForm.Page :=
  formWith SignInUp.signin "ann@example.org" "" "secret1" "" false "".

Definition badAddress : SignInUpForm.Page :=
  formWith SignInUp.signin "ann.example.org" "" "secret1" "" false "".

Definition signingUp : SignInUpForm.Page :=
  formWith SignInUp.signup "ann@example.org" "" "" "" false "".

Definition verifying : SignInUpForm.Page :=
  formWith SignInUp.signup "ann@example.org" "123456" "" "" true "".

Definition resetting : SignInUpForm.Page :=
  formWith SignInUp.forgot "ann@example.org" "123456" "" "secret2" true "vt-1".

(** A backend of the chat view that rejects every call. *)
Definition failing : ChatPage.apiService.t :=
  {| ChatPage.apiService.getMessages := fun _ =>
       Rejected {| response_message := None; error_message := None |};
     ChatPage.apiService.sendMessage := fun _ =>
       Rejected {| response_message := Some (str "Server busy");
                   error_message := None |};
     ChatPage.apiService.deleteChat := fun _ =>
       Rejected {| response_message := None; error_message := None |};
     ChatPage.apiService.createChat := fun _ =>
       Rejected {| response_message := None; error_message := None |} |}.

(** An authenticated session with a complete profile and no chat yet. *)
Definition newcomer : ChatPageLoad.Services :=
  {| ChatPageLoad.isAuthenticated := true;
     ChatPageLoad.getUserProfile :=
       Resolved (Some {| ChatPageLoad.name := Some (str "Ann");
                         ChatPageLoad.age := Some 30%Z;
                         ChatPageLoad.profession := Some (str "Nurse");
                         ChatPageLoad.address := Some (str "Main Street") |});
     ChatPageLoad.getChats := Resolved [] |}.

(** The chat after the sample greeting was sent. *)
Definition greeted : ChatPage.World :=
  ChatPage.sendMessage Samples.backend Samples.parseDate 7 Samples.greeting.

(** A browser whose stored token the stand-in platform decodes. *)
Definition liveSession : ApiService.World :=
  Samples.browser (Some (str "head.live.sig")) (Some (str "r1")).

End MoreSamples.

(* ================================================================== *)
(** * Part II. Properties                                              *)
(* ================================================================== *)

Module JSFacts.
Import JS.

Lemma streq_spec (a b : jsstring) : streq a b = true <-> a = b.
Proof.
  revert b; induction a as [|x a IH]; intros [|y b]; simpl;
    try (split; [discriminate | discriminate]); try tauto.
  rewrite andb_true_iff, N.eqb_eq, IH.
  split; [intros [-> ->]; reflexivity | intros H; inversion H; auto].
Qed.

Lemma streq_refl (a : jsstring) : streq a a = true.
Proof. apply streq_spec; reflexivity. Qed.

Lemma streq_neq (a b : jsstring) : streq a b = false <-> a <> b.
Proof.
  rewrite <- streq_spec. destruct (streq a b); split; congruence.
Qed.

Lemma truthy_spec (s : jsstring) : truthy s = true <-> s <> [].
Proof. destruct s; simpl; split; congruence. Qed.

Lemma truthy_false (s : jsstring) : truthy s = false <-> s = [].
Proof. destruct s; simpl; split; congruence. Qed.

Lemma slice_from_start (s : jsstring) (n : nat) : slice s 0 n = firstn n s.
Proof. unfold slice. rewrite Nat.sub_0_r. reflexivity. Qed.

Lemma Forall_firstn {A} (P : A -> Prop) (n : nat) (l : list A) :
  Forall P l -> Forall P (firstn n l).
Proof.
  intros H; revert n; induction H; intros [|n]; simpl; constructor; auto.
Qed.

Lemma replace_nondigits_digits (s : jsstring) :
  Vocabulary.digitsOnly (replace_nondigits s).
Proof.
  unfold Vocabulary.digitsOnly, replace_nondigits.
  apply Forall_forall. intros c Hc. apply filter_In in Hc. tauto.
Qed.

Lemma test_digits_spec (s : jsstring) :
  test_digits s = true <-> s <> [] /\ Vocabulary.digitsOnly s.
Proof.
  unfold test_digits, Vocabulary.digitsOnly.
  rewrite andb_true_iff, truthy_spec, forallb_forall, Forall_forall.
  tauto.
Qed.

End JSFacts.

(** ** The auth form *)

Module SignInUpFacts.
Import JS JSFacts Vocabulary SignInUp.

Lemma validators_otp_spec (s : jsstring) :
  validators_otp s = true <-> List.length s = 6%nat /\ digitsOnly s.
Proof.
  unfold validators_otp.
  rewrite andb_true_iff, Nat.eqb_eq, test_digits_spec.
  split; [tauto|]. intros [Hl Hd]. repeat split; auto.
  intros ->. discriminate.
Qed.

Lemma handleVerifyOtp_gate verifyOtp (st : FormState) :
  requests (handleVerifyOtp verifyOtp st) <> []
  <-> validators_otp (otp st) = true.
Proof.
  unfold handleVerifyOtp.
  destruct (validators_otp (otp st)); simpl.
  - split; [reflexivity|]. intros _.
    destruct (verifyOtp _) as [r|e]; [destruct (Api.VerifyOtpResponse.success r)|];
      simpl; discriminate.
  - split; [intros H; now elim H | discriminate].
Qed.

(** C7. Whatever is typed into the OTP field, the stored OTP is the first
    six characters of the input with every non-digit removed; it holds
    digits only and at most six of them; and [handleVerifyOtp] sends the
    verification request exactly when the stored OTP is six digits. *)
Theorem otp_field_keeps_six_digits :
  forall (value : jsstring) (fs : FormState),
    otp (otp_onChange value fs) = firstn 6 (filter isDigit value)
    /\ digitsOnly (otp (otp_onChange value fs))
    /\ (List.length (otp (otp_onChange value fs)) <= 6)%nat
    /\ (forall verifyOtp (st : FormState),
          requests (handleVerifyOtp verifyOtp st) <> []
          <-> List.length (otp st) = 6%nat /\ digitsOnly (otp st)).
Proof.
  intros value fs.
  assert (E : otp (otp_onChange value fs) = firstn 6 (filter isDigit value)).
  { destruct fs; reflexivity. }
  rewrite E. split; [reflexivity|]. split; [|split].
  - apply Forall_firstn. apply replace_nondigits_digits.
  - rewrite length_firstn. apply Nat.le_min_l.
  - intros verifyOtp st.
    rewrite handleVerifyOtp_gate. apply validators_otp_spec.
Qed.

(** C8. Every way of switching the mode gives every field but [mode] its
    initial value and sets [mode] to the mode switched to: the toggle link
    leads from sign-in to sign-up and from the other two modes to sign-in,
    the forgot link leads to the forgot mode, and the return to sign-in
    after a password reset ([resetForm] and then the update of [mode])
    leads to sign-in. *)
Theorem mode_switch_resets_fields :
  forall fs : FormState,
    fieldsReset (handleModeToggle fs)
    /\ mode (handleModeToggle fs)
       = match mode fs with signin => signup | signup | forgot => signin end
    /\ fieldsReset (handleForgotPassword fs)
    /\ mode (handleForgotPassword fs) = forgot
    /\ fieldsReset (updateFormState [Mode signin] (resetForm fs))
    /\ mode (updateFormState [Mode signin] (resetForm fs)) = signin.
Proof.
  intros fs. unfold fieldsReset.
  destruct fs as [e o p np m os oi vt l er su sn]; destruct m; cbn;
    repeat split; reflexivity.
Qed.

End SignInUpFacts.

(** ** The chat view *)

Module ChatPageFacts.
Import JS JSFacts Vocabulary ChatPage.

Lemma app_one_neq {A} (l : list A) (x : A) : l ++ [x] <> l.
Proof.
  intros H. apply (f_equal (@List.length A)) in H.
  rewrite length_app in H. simpl in H. lia.
Qed.

Lemma length_zero_eqb {A} (l : list A) :
  (List.length l =? 0)%nat = true <-> l = [].
Proof. destruct l; simpl; split; congruence. Qed.

Section Sending.

Variable api : apiService.t.
Variable parseDate : jsstring -> Z.

Lemma sendMessage_blocked (now : Z) (w : World) :
  trim (message (ui w)) = [] \/ activeChat (ui w) = [] ->
  sendMessage api parseDate now w = w.
Proof.
  intros H. unfold sendMessage.
  destruct H as [H|H]; rewrite H; simpl; [reflexivity|].
  rewrite orb_true_r. reflexivity.
Qed.

Lemma sendMessage_resolved (now : Z) (w : World) data :
  trim (message (ui w)) <> [] ->
  activeChat (ui w) <> [] ->
  apiService.sendMessage api (requestOf w) = Resolved data ->
  sendMessage api parseDate now w
  = setIsTyping false
      (setMessage []
         (setChats
            (map (withSent (activeChat (ui w)) (message (ui w))
                    (userMessageOf parseDate data)
                    (aiMessageOf parseDate data) now))
            (call (SendMessage (requestOf w)) (setIsTyping true w)))).
Proof.
  intros Ht Ha Hr. unfold sendMessage.
  apply truthy_spec in Ht. apply truthy_spec in Ha.
  rewrite Ht, Ha. simpl negb. simpl orb. cbv iota.
  destruct w as [[mo sc cs ac m ty er dd cd nu] cl tm].
  unfold requestOf in *. simpl in *. rewrite Hr. reflexivity.
Qed.

Lemma sendMessage_rejected (now : Z) (w : World) e :
  trim (message (ui w)) <> [] ->
  activeChat (ui w) <> [] ->
  apiService.sendMessage api (requestOf w) = Rejected e ->
  sendMessage api parseDate now w
  = setIsTyping false
      (setError (Some (or_else (response_message e)
                         (str "Failed to send message")))
         (call (SendMessage (requestOf w)) (setIsTyping true w))).
Proof.
  intros Ht Ha Hr. unfold sendMessage.
  apply truthy_spec in Ht. apply truthy_spec in Ha.
  rewrite Ht, Ha. simpl negb. simpl orb. cbv iota.
  destruct w as [[mo sc cs ac m ty er dd cd nu] cl tm].
  unfold requestOf in *. simpl in *. rewrite Hr. reflexivity.
Qed.

(** A send never changes which chat is active. *)
Lemma sendMessage_activeChat (now : Z) (w : World) :
  activeChat (ui (sendMessage api parseDate now w)) = activeChat (ui w).
Proof.
  destruct (list_eq_dec N.eq_dec (trim (message (ui w))) []) as [Ht|Ht].
  { rewrite sendMessage_blocked by auto. reflexivity. }
  destruct (list_eq_dec N.eq_dec (activeChat (ui w)) []) as [Ha|Ha].
  { rewrite sendMessage_blocked by auto. reflexivity. }
  destruct (apiService.sendMessage api (requestOf w)) as [data|e] eqn:Hr.
  - rewrite (sendMessage_resolved now w data Ht Ha Hr).
    destruct w as [[mo sc cs ac m ty er dd cd nu] cl tm]. reflexivity.
  - rewrite (sendMessage_rejected now w e Ht Ha Hr).
    destruct w as [[mo sc cs ac m ty er dd cd nu] cl tm]. reflexivity.
Qed.

(** What a send does to the list of chats: nothing, or one [map]. *)
Lemma sendMessage_chats (now : Z) (w : World) :
  chats (ui (sendMessage api parseDate now w)) = chats (ui w)
  \/ exists um am,
       chats (ui (sendMessage api parseDate now w))
       = map (withSent (activeChat (ui w)) (message (ui w)) um am now)
           (chats (ui w)).
Proof.
  destruct (list_eq_dec N.eq_dec (trim (message (ui w))) []) as [Ht|Ht].
  { left. rewrite sendMessage_blocked by auto. reflexivity. }
  destruct (list_eq_dec N.eq_dec (activeChat (ui w)) []) as [Ha|Ha].
  { left. rewrite sendMessage_blocked by auto. reflexivity. }
  destruct (apiService.sendMessage api (requestOf w)) as [data|e] eqn:Hr.
  - right. exists (userMessageOf parseDate data), (aiMessageOf parseDate data).
    rewrite (sendMessage_resolved now w data Ht Ha Hr).
    destruct w as [[mo sc cs ac m ty er dd cd nu] cl tm]. reflexivity.
  - left. rewrite (sendMessage_rejected now w e Ht Ha Hr).
    destruct w as [[mo sc cs ac m ty er dd cd nu] cl tm]. reflexivity.
Qed.

Lemma withSent_id a m um am now chat :
  Chat.id (withSent a m um am now chat) = Chat.id chat.
Proof. unfold withSent. destruct (streq _ _); reflexivity. Qed.

Lemma withSent_other a m um am now chat :
  Chat.id chat <> a -> withSent a m um am now chat = chat.
Proof.
  intros H. unfold withSent. apply streq_neq in H. rewrite H. reflexivity.
Qed.

Lemma withSent_active a m um am now chat :
  Chat.id chat = a ->
  withSent a m um am now chat
  = {| Chat.id := Chat.id chat;
       Chat.messages := Chat.messages chat ++ [um; am];
       Chat.title := if (List.length (Chat.messages chat) =? 0)%nat
                     then titleFrom m else Chat.title chat;
       Chat.lastMessage := now;
       Chat.messageCount := Chat.messageCount chat + 2 |}.
Proof.
  intros H. unfold withSent. apply streq_spec in H. rewrite H. reflexivity.
Qed.

(** C10. With an input that is empty once trimmed, or with no active chat,
    [sendMessage] returns at once: the state, the requests sent and the
    timers are what they were. *)
Theorem blank_input_or_no_chat_sends_nothing :
  forall (now : Z) (w : World),
    trim (message (ui w)) = [] \/ activeChat (ui w) = [] ->
    sendMessage api parseDate now w = w
    /\ calls (sendMessage api parseDate now w) = calls w
    /\ ui (sendMessage api parseDate now w) = ui w.
Proof.
  intros now w H. rewrite (sendMessage_blocked now w H). auto.
Qed.

(** C3. A send that the backend resolves changes the chats by one update
    of the state: the list keeps its length and order, every chat with the
    active id gets the user message and then the assistant message at the
    end of its messages, two more in [messageCount] and [now] as
    [lastMessage], every other chat is the same; one request was sent. *)
Theorem send_appends_pair_to_active_chat :
  forall (now : Z) (w : World) (data : Api.SendMessageData.t),
    trim (message (ui w)) <> [] ->
    activeChat (ui w) <> [] ->
    apiService.sendMessage api
      {| Api.SendMessageRequest.chatId := activeChat (ui w);
         Api.SendMessageRequest.message := trim (message (ui w)) |}
    = Resolved data ->
    List.length (chats (ui (sendMessage api parseDate now w)))
    = List.length (chats (ui w))
    /\ (forall (i : nat) (chat : Chat.t),
          nth_error (chats (ui w)) i = Some chat ->
          exists chat',
            nth_error (chats (ui (sendMessage api parseDate now w))) i
            = Some chat'
            /\ Chat.id chat' = Chat.id chat
            /\ (Chat.id chat = activeChat (ui w) ->
                  Chat.messages chat'
                  = Chat.messages chat
                      ++ [userMessageOf parseDate data;
                          aiMessageOf parseDate data]
                  /\ Chat.messageCount chat' = (Chat.messageCount chat + 2)%Z
                  /\ Chat.lastMessage chat' = now)
            /\ (Chat.id chat <> activeChat (ui w) -> chat' = chat))
    /\ calls (sendMessage api parseDate now w)
       = calls w
           ++ [SendMessage
                 {| Api.SendMessageRequest.chatId := activeChat (ui w);
                    Api.SendMessageRequest.message := trim (message (ui w)) |}]
    /\ activeChat (ui (sendMessage api parseDate now w)) = activeChat (ui w).
Proof.
  intros now w data Ht Ha Hr.
  rewrite (sendMessage_resolved now w data Ht Ha Hr).
  destruct w as [[mo sc cs ac m ty er dd cd nu] cl tm]; simpl in *.
  split; [apply length_map|]. split; [|split; reflexivity].
  intros i chat Hi. rewrite nth_error_map, Hi. simpl.
  eexists; split; [reflexivity|]. split; [apply withSent_id|]. split.
  - intros E. rewrite (withSent_active _ _ _ _ _ _ E). simpl. auto.
  - apply withSent_other.
Qed.

End Sending.

Section Titles.

Variable api : apiService.t.
Variable parseDate : jsstring -> Z.

Lemma titleFrom_short (text : jsstring) :
  (List.length text <= 30)%nat -> titleFrom text = text.
Proof.
  intros H. unfold titleFrom.
  rewrite slice_from_start, firstn_all2 by exact H.
  replace (30 <? List.length text)%nat with false
    by (symmetry; apply Nat.ltb_ge; exact H).
  apply app_nil_r.
Qed.

Lemma titleFrom_long (text : jsstring) :
  (30 < List.length text)%nat ->
  titleFrom text = firstn 30 text ++ str "...".
Proof.
  intros H. unfold titleFrom. rewrite slice_from_start.
  apply Nat.ltb_lt in H. rewrite H. reflexivity.
Qed.

(** Typing leaves the chats and the selection alone. *)
Lemma setMessage_frame (text : jsstring) (w : World) :
  chats (ui (setMessage text w)) = chats (ui w)
  /\ activeChat (ui (setMessage text w)) = activeChat (ui w)
  /\ message (ui (setMessage text w)) = text.
Proof. destruct w as [[mo sc cs ac m ty er dd cd nu] cl tm]. auto. Qed.

(** A chat of the active id that has messages keeps its title through a
    send, whatever is typed and whatever the backend answers. *)
Lemma titled_step a i t (text : jsstring) (now : Z) (w : World) :
  titled a i t w ->
  titled a i t (sendMessage api parseDate now (setMessage text w)).
Proof.
  intros [Ha (chat & Hi & Hid & Hm & Ht)].
  destruct (setMessage_frame text w) as (Ec & Ea & Em).
  split; [rewrite sendMessage_activeChat; congruence|].
  destruct (sendMessage_chats api parseDate now (setMessage text w))
    as [E|(um & am & E)]; rewrite E, ?Ec, ?Ea, ?Em.
  - exists chat; auto.
  - rewrite nth_error_map, Hi. cbn [option_map].
    eexists; split; [reflexivity|].
    rewrite withSent_active by congruence. cbn [Chat.id Chat.messages Chat.title].
    split; [assumption|]. split.
    + destruct (Chat.messages chat); [congruence | discriminate].
    + destruct (Chat.messages chat); [congruence | assumption].
Qed.

Lemma titled_session a i t (later : list (jsstring * Z)) :
  forall w, titled a i t w -> titled a i t (sendEach api parseDate later w).
Proof.
  induction later as [|[text now] later IH]; intros w H; simpl; [exact H|].
  apply IH. apply titled_step. exact H.
Qed.

(** The first resolved send into a chat without messages titles it. *)
Lemma first_send_titles (text : jsstring) (now : Z) (w : World) i chat data :
  trim text <> [] ->
  activeChat (ui w) <> [] ->
  apiService.sendMessage api
    {| Api.SendMessageRequest.chatId := activeChat (ui w);
       Api.SendMessageRequest.message := trim text |}
  = Resolved data ->
  nth_error (chats (ui w)) i = Some chat ->
  Chat.id chat = activeChat (ui w) ->
  Chat.messages chat = [] ->
  titled (activeChat (ui w)) i (titleFrom text)
    (sendMessage api parseDate now (setMessage text w)).
Proof.
  intros Ht Ha Hr Hi Hid Hm.
  destruct (setMessage_frame text w) as (Ec & Ea & Em).
  assert (Hr' : apiService.sendMessage api (requestOf (setMessage text w))
                = Resolved data).
  { unfold requestOf. rewrite Ea, Em. exact Hr. }
  split; [rewrite sendMessage_activeChat; exact Ea|].
  rewrite (sendMessage_resolved api parseDate now (setMessage text w) data)
    by (rewrite ?Ea, ?Em; assumption).
  rewrite Ea, Em.
  destruct w as [[mo sc cs ac m ty er dd cd nu] cl tm]; simpl in *.
  rewrite nth_error_map, Hi. simpl. eexists; split; [reflexivity|].
  rewrite withSent_active by assumption. simpl. rewrite Hm. simpl.
  repeat split; auto. discriminate.
Qed.

(** A chat whose messages are held in the list keeps its title through a
    send, whether it is the active chat or not, whatever is typed and
    whatever the backend answers. *)
Lemma send_keeps_title_of_loaded_chat (text : jsstring) (now : Z) (w : World)
      (j : nat) (loaded : Chat.t) :
  nth_error (chats (ui w)) j = Some loaded ->
  Chat.messages loaded <> [] ->
  exists loaded',
    nth_error (chats (ui (sendMessage api parseDate now (setMessage text w)))) j
    = Some loaded'
    /\ Chat.id loaded' = Chat.id loaded
    /\ Chat.title loaded' = Chat.title loaded
    /\ Chat.messages loaded' <> [].
Proof.
  intros Hj Hm.
  destruct (setMessage_frame text w) as (Ec & Ea & Em).
  destruct (sendMessage_chats api parseDate now (setMessage text w))
    as [E|(um & am & E)]; rewrite E, ?Ec, ?Ea, ?Em.
  - exists loaded; auto.
  - rewrite nth_error_map, Hj. cbn [option_map].
    eexists; split; [reflexivity|].
    destruct (list_eq_dec N.eq_dec (Chat.id loaded) (activeChat (ui w)))
      as [Hid|Hid].
    + rewrite withSent_active by exact Hid.
      cbn [Chat.id Chat.messages Chat.title].
      split; [reflexivity|]. split.
      * destruct (Chat.messages loaded); [congruence | reflexivity].
      * destruct (Chat.messages loaded); [congruence | discriminate].
    + rewrite withSent_other by exact Hid. auto.
Qed.

(** C4, within what the code does by design. A chat that has no message
    yet (its count of messages is 0 and its list of messages is empty, as
    for a chat just created) is titled by the first resolved send into it
    from the text as typed: the text itself when it has at most 30
    characters, its first 30 characters and three dots otherwise; the
    sends that follow in the same run of sends leave that title as it is,
    and so does any send, in any state of the page, into a list of chats
    where the chat's messages are held (its list is not empty). Typing
    "Hello" gives the title "Hello". A chat counted as having messages
    whose list is empty is not covered. *)
Theorem title_comes_from_first_typed_text :
  forall (text : jsstring) (now : Z) (later : list (jsstring * Z))
         (w : World) (i : nat) (chat : Chat.t) (data : Api.SendMessageData.t),
    trim text <> [] ->
    activeChat (ui w) <> [] ->
    apiService.sendMessage api
      {| Api.SendMessageRequest.chatId := activeChat (ui w);
         Api.SendMessageRequest.message := trim text |}
    = Resolved data ->
    nth_error (chats (ui w)) i = Some chat ->
    Chat.id chat = activeChat (ui w) ->
    Chat.messageCount chat = 0%Z ->
    Chat.messages chat = [] ->
    (exists chat',
        nth_error
          (chats (ui (sendEach api parseDate ((text, now) :: later) w))) i
        = Some chat'
        /\ Chat.id chat' = Chat.id chat
        /\ Chat.title chat' = titleFrom text
        /\ Chat.messages chat' <> [])
    /\ (forall (w' : World) (j : nat) (loaded : Chat.t)
               (text' : jsstring) (now' : Z),
          nth_error (chats (ui w')) j = Some loaded ->
          Chat.messages loaded <> [] ->
          exists loaded',
            nth_error
              (chats (ui (sendMessage api parseDate now'
                            (setMessage text' w')))) j
            = Some loaded'
            /\ Chat.id loaded' = Chat.id loaded
            /\ Chat.title loaded' = Chat.title loaded
            /\ Chat.messages loaded' <> [])
    /\ ((List.length text <= 30)%nat -> titleFrom text = text)
    /\ ((30 < List.length text)%nat ->
        titleFrom text = firstn 30 text ++ str "...")
    /\ titleFrom (str "Hello") = str "Hello".
Proof.
  intros text now later w i chat data Ht Ha Hr Hi Hid Hc Hm.
  split; [|split; [|split; [apply titleFrom_short
                           |split; [apply titleFrom_long|]]]].
  - pose proof (first_send_titles text now w i chat data Ht Ha Hr Hi Hid Hm)
      as H1.
    apply (titled_session _ _ _ later) in H1.
    destruct H1 as [_ (chat' & Hi' & Hid' & Hm' & Ht')].
    exists chat'. simpl. repeat split; congruence.
  - intros w' j loaded text' now' Hj Hl.
    apply send_keeps_title_of_loaded_chat; assumption.
  - reflexivity.
Qed.

End Titles.

Section Selecting.

Variable api : apiService.t.
Variable parseDate : jsstring -> Z.
Variable isLargeScreen : bool.

Lemma loadMessages_calls (chatId : jsstring) (w : World) :
  calls (loadMessages api parseDate chatId w) = calls w ++ [GetMessages chatId].
Proof.
  unfold loadMessages.
  destruct w as [[mo sc cs ac m ty er dd cd nu] cl tm].
  destruct (apiService.getMessages api chatId); reflexivity.
Qed.

Lemma loadMessages_activeChat (chatId : jsstring) (w : World) :
  activeChat (ui (loadMessages api parseDate chatId w)) = activeChat (ui w).
Proof.
  unfold loadMessages.
  destruct w as [[mo sc cs ac m ty er dd cd nu] cl tm].
  destruct (apiService.getMessages api chatId); reflexivity.
Qed.

Lemma loadMessages_timers (chatId : jsstring) (w : World) :
  timers (loadMessages api parseDate chatId w) = timers w.
Proof.
  unfold loadMessages.
  destruct w as [[mo sc cs ac m ty er dd cd nu] cl tm].
  destruct (apiService.getMessages api chatId); reflexivity.
Qed.

(** When the fetch is resolved, the chats of that id hold the fetched
    messages and nothing else changes in the list. *)
Lemma loadMessages_resolved (chatId : jsstring) (w : World) response :
  apiService.getMessages api chatId = Resolved response ->
  chats (ui (loadMessages api parseDate chatId w))
  = map (fun chat =>
           if streq (Chat.id chat) chatId
           then {| Chat.id := Chat.id chat;
                   Chat.title := Chat.title chat;
                   Chat.messages := map (formatMessage parseDate) response;
                   Chat.lastMessage := Chat.lastMessage chat;
                   Chat.messageCount := Chat.messageCount chat |}
           else chat) (chats (ui w)).
Proof.
  intros H. unfold loadMessages. rewrite H.
  destruct w as [[mo sc cs ac m ty er dd cd nu] cl tm]. reflexivity.
Qed.

(** The part of [handleChatSelect] before the lookup. *)
Lemma handleChatSelect_cases (chatId : jsstring) (w : World) (chat : Chat.t) :
  find (fun c => streq (Chat.id c) chatId) (chats (ui w)) = Some chat ->
  exists w0,
    calls w0 = calls w /\ chats (ui w0) = chats (ui w)
    /\ activeChat (ui w0) = chatId
    /\ handleChatSelect api parseDate isLargeScreen chatId w
       = if (List.length (Chat.messages chat) =? 0)%nat
            && (0 <? Chat.messageCount chat)%Z
         then loadMessages api parseDate chatId w0 else w0.
Proof.
  intros Hf. unfold handleChatSelect. rewrite Hf.
  eexists; split; [|split; [|split; [|reflexivity]]];
    destruct w as [[mo sc cs ac m ty er dd cd nu] cl tm];
    destruct isLargeScreen; reflexivity.
Qed.

(** C5. Selecting a chat of the list sends the request for its messages
    exactly when its local list of messages is empty and its
    [messageCount] is positive; otherwise nothing is sent. Selecting a chat
    whose messages are loaded sends nothing and leaves every chat as it
    was. The chat becomes the active one in all cases. *)
Theorem select_fetches_iff_unloaded :
  forall (chatId : jsstring) (w : World) (chat : Chat.t),
    find (fun c => streq (Chat.id c) chatId) (chats (ui w)) = Some chat ->
    (calls (handleChatSelect api parseDate isLargeScreen chatId w)
     = calls w ++ [GetMessages chatId]
     <-> Chat.messages chat = [] /\ (0 < Chat.messageCount chat)%Z)
    /\ (calls (handleChatSelect api parseDate isLargeScreen chatId w) = calls w
        <-> ~ (Chat.messages chat = [] /\ (0 < Chat.messageCount chat)%Z))
    /\ (Chat.messages chat <> [] ->
        calls (handleChatSelect api parseDate isLargeScreen chatId w) = calls w
        /\ chats (ui (handleChatSelect api parseDate isLargeScreen chatId w))
           = chats (ui w))
    /\ activeChat (ui (handleChatSelect api parseDate isLargeScreen chatId w))
       = chatId.
Proof.
  intros chatId w chat Hf.
  destruct (handleChatSelect_cases chatId w chat Hf) as (w0 & Hc & Hs & Ha & E).
  rewrite E. clear E.
  destruct (List.length (Chat.messages chat) =? 0)%nat eqn:Hl;
    [destruct (0 <? Chat.messageCount chat)%Z eqn:Hm|]; simpl andb; cbv iota.
  - apply length_zero_eqb in Hl. apply Z.ltb_lt in Hm.
    rewrite loadMessages_calls, loadMessages_activeChat, Hc.
    split; [tauto|]. split; [|split; [congruence|assumption]].
    split; [intros H; exfalso; exact (app_one_neq _ _ H) | tauto].
  - apply Z.ltb_ge in Hm. rewrite Hc, Hs.
    split; [|split; [|split; [auto|assumption]]].
    + split; [intros H; symmetry in H; exfalso; exact (app_one_neq _ _ H)|].
      intros [_ H]. lia.
    + split; [intros _ [_ H]; lia | reflexivity].
  - assert (Hn : Chat.messages chat <> []).
    { intros H. apply length_zero_eqb in H. congruence. }
    rewrite Hc, Hs.
    split; [|split; [|split; [auto|assumption]]].
    + split; [intros H; symmetry in H; exfalso; exact (app_one_neq _ _ H)|].
      intros [H _]. contradiction.
    + split; [intros _ [H _]; contradiction | reflexivity].
Qed.

End Selecting.

Section Deleting.

Variable api : apiService.t.
Variable parseDate : jsstring -> Z.

(** Closing the dialog, the [finally] of [deleteChat], touches neither the
    chats nor the selection nor the outside. *)
Lemma closeDialog_frame (w : World) :
  chats (ui (setChatToDelete None (setDeleteDialogOpen false w)))
  = chats (ui w)
  /\ activeChat (ui (setChatToDelete None (setDeleteDialogOpen false w)))
     = activeChat (ui w)
  /\ calls (setChatToDelete None (setDeleteDialogOpen false w)) = calls w
  /\ timers (setChatToDelete None (setDeleteDialogOpen false w)) = timers w.
Proof. destruct w as [[mo sc cs ac m ty er dd cd nu] cl tm]. auto. Qed.

(** The state in which both views look at the selection: the request was
    sent and the chat is gone from the list. *)
Lemma deleteChat_resolved (w : World) (id : jsstring) (u : unit) :
  chatToDelete (ui w) = Some id ->
  id <> [] ->
  apiService.deleteChat api id = Resolved u ->
  ChatPage.deleteChat api parseDate w
  = setChatToDelete None (setDeleteDialogOpen false
      (if streq (activeChat (ui w)) id
       then match remaining id (chats (ui w)) with
            | first :: _ =>
                loadMessages api parseDate (Chat.id first)
                  (setActiveChat (Chat.id first)
                     (setChats (fun _ => remaining id (chats (ui w)))
                        (call (DeleteChat id) w)))
            | [] =>
                setTimeout CreateNewChat 500
                  (setActiveChat []
                     (setChats (fun _ => remaining id (chats (ui w)))
                        (call (DeleteChat id) w)))
            end
       else setChats (fun _ => remaining id (chats (ui w)))
              (call (DeleteChat id) w))).
Proof.
  intros Hd Hid Hr. unfold ChatPage.deleteChat. rewrite Hd.
  apply truthy_spec in Hid. rewrite Hid. simpl negb. cbv iota.
  rewrite Hr. reflexivity.
Qed.

Lemma deleteChat_alt_resolved (w : World) (id : jsstring) (u : unit) :
  chatToDelete (ui w) = Some id ->
  id <> [] ->
  apiService.deleteChat api id = Resolved u ->
  ChatPageAlt.deleteChat api parseDate w
  = setChatToDelete None (setDeleteDialogOpen false
      (if streq (activeChat (ui w)) id
       then match remaining id (chats (ui w)) with
            | first :: _ =>
                loadMessages api parseDate (Chat.id first)
                  (setActiveChat (Chat.id first)
                     (setChats (remaining id) (call (DeleteChat id) w)))
            | [] =>
                setActiveChat []
                  (setChats (remaining id) (call (DeleteChat id) w))
            end
       else setChats (remaining id) (call (DeleteChat id) w))).
Proof.
  intros Hd Hid Hr. unfold ChatPageAlt.deleteChat. rewrite Hd.
  apply truthy_spec in Hid. rewrite Hid. simpl negb. cbv iota.
  rewrite Hr. reflexivity.
Qed.

(** Both ways of dropping the chat from the list give the same list. *)
Lemma removed_frame (w : World) (id : jsstring) f :
  f (chats (ui w)) = remaining id (chats (ui w)) ->
  chats (ui (setChats f (call (DeleteChat id) w)))
  = remaining id (chats (ui w))
  /\ activeChat (ui (setChats f (call (DeleteChat id) w))) = activeChat (ui w)
  /\ calls (setChats f (call (DeleteChat id) w)) = calls w ++ [DeleteChat id]
  /\ timers (setChats f (call (DeleteChat id) w)) = timers w.
Proof.
  destruct w as [[mo sc cs ac m ty er dd cd nu] cl tm]. simpl. auto.
Qed.

Lemma setActiveChat_frame (v : jsstring) (w : World) :
  chats (ui (setActiveChat v w)) = chats (ui w)
  /\ activeChat (ui (setActiveChat v w)) = v
  /\ calls (setActiveChat v w) = calls w
  /\ timers (setActiveChat v w) = timers w.
Proof. destruct w as [[mo sc cs ac m ty er dd cd nu] cl tm]. auto. Qed.

Lemma setTimeout_frame (cb : Callback) (ms : Z) (w : World) :
  chats (ui (setTimeout cb ms w)) = chats (ui w)
  /\ activeChat (ui (setTimeout cb ms w)) = activeChat (ui w)
  /\ calls (setTimeout cb ms w) = calls w
  /\ timers (setTimeout cb ms w)
     = timers w ++ [{| delay := ms; callback := cb |}].
Proof. destruct w as [[mo sc cs ac m ty er dd cd nu] cl tm]. auto. Qed.

(** What either view shows after the deleted chat was the active one and
    others remain: [w1] is the state with the chat dropped from the list. *)
Lemma select_first_remaining (w w1 : World) (id : jsstring) first rest :
  chats (ui w1) = first :: rest ->
  calls w1 = calls w ++ [DeleteChat id] ->
  timers w1 = timers w ->
  forall w',
    w' = setChatToDelete None (setDeleteDialogOpen false
           (loadMessages api parseDate (Chat.id first)
              (setActiveChat (Chat.id first) w1))) ->
    activeChat (ui w') = Chat.id first
    /\ calls w' = calls w ++ [DeleteChat id; GetMessages (Chat.id first)]
    /\ timers w' = timers w
    /\ (forall response,
          apiService.getMessages api (Chat.id first) = Resolved response ->
          exists first' rest',
            chats (ui w') = first' :: rest'
            /\ Chat.id first' = Chat.id first
            /\ Chat.messages first' = map (formatMessage parseDate) response).
Proof.
  intros Hc Hk Ht w' ->.
  destruct (closeDialog_frame
              (loadMessages api parseDate (Chat.id first)
                 (setActiveChat (Chat.id first) w1))) as (Ec & Ea & Ek & Et).
  destruct (setActiveChat_frame (Chat.id first) w1) as (Fc & Fa & Fk & Ft).
  rewrite Ea, Ek, Et, Ec.
  rewrite loadMessages_activeChat, loadMessages_calls, loadMessages_timers.
  rewrite Fa, Fk, Ft, Hk, Ht, <- app_assoc.
  repeat split; auto.
  intros response Hr. rewrite (loadMessages_resolved _ _ _ _ _ Hr), Fc, Hc.
  simpl. rewrite streq_refl. eexists _, _. split; [reflexivity|]. auto.
Qed.

(** C6. A delete the backend resolves, in both chat views. If the deleted
    chat was the active one and chats remain, the first of them becomes
    active and the request for its messages is sent; when that request is
    resolved it holds the fetched messages. If none remains the selection
    is cleared, and [src/Pages/Chat.tsx] alone sets a timer of 500 ms that
    creates a new chat. If another chat was active the selection stays. *)
Theorem delete_moves_the_selection :
  forall (w : World) (id : jsstring) (u : unit),
    chatToDelete (ui w) = Some id ->
    id <> [] ->
    apiService.deleteChat api id = Resolved u ->
    (forall first rest,
        activeChat (ui w) = id ->
        remaining id (chats (ui w)) = first :: rest ->
        forall w',
          w' = ChatPage.deleteChat api parseDate w
          \/ w' = ChatPageAlt.deleteChat api parseDate w ->
          activeChat (ui w') = Chat.id first
          /\ calls w' = calls w ++ [DeleteChat id; GetMessages (Chat.id first)]
          /\ timers w' = timers w
          /\ (forall response,
                apiService.getMessages api (Chat.id first) = Resolved response ->
                exists first' rest',
                  chats (ui w') = first' :: rest'
                  /\ Chat.id first' = Chat.id first
                  /\ Chat.messages first'
                     = map (formatMessage parseDate) response))
    /\ (activeChat (ui w) = id ->
        remaining id (chats (ui w)) = [] ->
        (activeChat (ui (ChatPage.deleteChat api parseDate w)) = []
         /\ chats (ui (ChatPage.deleteChat api parseDate w)) = []
         /\ calls (ChatPage.deleteChat api parseDate w)
            = calls w ++ [DeleteChat id]
         /\ timers (ChatPage.deleteChat api parseDate w)
            = timers w ++ [{| delay := 500; callback := CreateNewChat |}])
        /\ (activeChat (ui (ChatPageAlt.deleteChat api parseDate w)) = []
            /\ chats (ui (ChatPageAlt.deleteChat api parseDate w)) = []
            /\ calls (ChatPageAlt.deleteChat api parseDate w)
               = calls w ++ [DeleteChat id]
            /\ timers (ChatPageAlt.deleteChat api parseDate w) = timers w))
    /\ (activeChat (ui w) <> id ->
        forall w',
          w' = ChatPage.deleteChat api parseDate w
          \/ w' = ChatPageAlt.deleteChat api parseDate w ->
          activeChat (ui w') = activeChat (ui w)
          /\ chats (ui w') = remaining id (chats (ui w))
          /\ calls w' = calls w ++ [DeleteChat id]
          /\ timers w' = timers w).
Proof.
  intros w id u Hd Hid Hr.
  pose proof (deleteChat_resolved w id u Hd Hid Hr) as E1.
  pose proof (deleteChat_alt_resolved w id u Hd Hid Hr) as E2.
  destruct (removed_frame w id (fun _ => remaining id (chats (ui w))) eq_refl)
    as (Ac & Aa & Ak & At).
  destruct (removed_frame w id (remaining id) eq_refl) as (Bc & Ba & Bk & Bt).
  split; [|split].
  - intros first rest Ha Hrem w' Hw'.
    apply streq_spec in Ha. rewrite Ha, Hrem in E1, E2.
    rewrite Hrem in Ac, Bc.
    destruct Hw' as [-> | ->].
    + apply (select_first_remaining w _ id first rest Ac Ak At _ E1).
    + apply (select_first_remaining w _ id first rest Bc Bk Bt _ E2).
  - intros Ha Hrem. apply streq_spec in Ha. rewrite Ha, Hrem in E1, E2.
    rewrite Hrem in Ac, Ak, At, Bc. rewrite E1, E2. split.
    + destruct (closeDialog_frame
                  (setTimeout CreateNewChat 500
                     (setActiveChat []
                        (setChats (fun _ => []) (call (DeleteChat id) w)))))
        as (Ec & Ea & Ek & Et).
      rewrite Ec, Ea, Ek, Et.
      destruct (setTimeout_frame CreateNewChat 500
                  (setActiveChat []
                     (setChats (fun _ => []) (call (DeleteChat id) w))))
        as (Gc & Ga & Gk & Gt).
      rewrite Gc, Ga, Gk, Gt.
      destruct (setActiveChat_frame []
                  (setChats (fun _ => []) (call (DeleteChat id) w)))
        as (Fc & Fa & Fk & Ft).
      rewrite Fc, Fa, Fk, Ft, Ac, Ak, At. auto.
    + destruct (closeDialog_frame
                  (setActiveChat []
                     (setChats (remaining id) (call (DeleteChat id) w))))
        as (Ec & Ea & Ek & Et).
      rewrite Ec, Ea, Ek, Et.
      destruct (setActiveChat_frame []
                  (setChats (remaining id) (call (DeleteChat id) w)))
        as (Fc & Fa & Fk & Ft).
      rewrite Fc, Fa, Fk, Ft, Bc, Bk, Bt. auto.
  - intros Ha w' Hw'. apply streq_neq in Ha. rewrite Ha in E1, E2.
    destruct Hw' as [-> | ->]; [rewrite E1 | rewrite E2].
    + destruct (closeDialog_frame
                  (setChats (fun _ => remaining id (chats (ui w)))
                     (call (DeleteChat id) w))) as (Ec & Ea & Ek & Et).
      rewrite Ec, Ea, Ek, Et. auto.
    + destruct (closeDialog_frame
                  (setChats (remaining id) (call (DeleteChat id) w)))
        as (Ec & Ea & Ek & Et).
      rewrite Ec, Ea, Ek, Et. auto.
Qed.

End Deleting.

End ChatPageFacts.

(** ** The API client *)

Module ApiServiceFacts.
Import JS JSFacts Vocabulary ApiService.

Lemma onRequest_retry (c : Config) (w : World) :
  _retry (onRequest c w) = _retry c.
Proof.
  unfold onRequest. destruct (getToken w) as [t|]; [|reflexivity].
  destruct (truthy t); reflexivity.
Qed.

(** The request interceptor reads the token store only. *)
Lemma onRequest_storage (c : Config) (w w' : World) :
  storage w' = storage w -> onRequest c w' = onRequest c w.
Proof. intros H. unfold onRequest, getToken. rewrite H. reflexivity. Qed.

Lemma afterSending_nil (w : World) : afterSending [] w = w.
Proof. destruct w; unfold afterSending; simpl. rewrite app_nil_r. auto. Qed.

Lemma afterSending_transmit (c : Config) (l : list Config) (w : World) :
  afterSending l (transmit c w) = afterSending (c :: l) w.
Proof.
  unfold afterSending, transmit; simpl. rewrite <- app_assoc. reflexivity.
Qed.

Section Client.

Variable server : Server.

(** One exchange: what [api] does once the answer of the backend is known
    to be a rejection. *)
Lemma api_rejected (depth : nat) (c : Config) (w : World) (r : Response) :
  server (sent w) (onRequest c w) = Answer r ->
  validateStatus (status r) = false ->
  api server (S depth) c w
  = onResponseError (api server depth)
      {| config := onRequest c w; response := Some r |}
      (transmit (onRequest c w) w).
Proof. intros Hs Hv. simpl. rewrite Hs, Hv. reflexivity. Qed.

Lemma api_resolved (depth : nat) (c : Config) (w : World) (r : Response) :
  server (sent w) (onRequest c w) = Answer r ->
  validateStatus (status r) = true ->
  api server (S depth) c w = (Fulfilled r, transmit (onRequest c w) w).
Proof. intros Hs Hv. simpl. rewrite Hs, Hv. reflexivity. Qed.

(** A request that carries the marker is never refreshed for: whatever
    rejection comes back, a 401 included, is handed on, and the only
    request that left is the request itself. *)
Lemma retried_request_is_handed_on (depth : nat) (c : Config) (w : World)
  (r : Response) :
  _retry c = true ->
  server (sent w) (onRequest c w) = Answer r ->
  validateStatus (status r) = false ->
  api server (S depth) c w
  = (Failed {| config := onRequest c w; response := Some r |},
     transmit (onRequest c w) w).
Proof.
  intros Hm Hs Hv. rewrite (api_rejected depth c w r Hs Hv).
  unfold onResponseError. simpl config.
  rewrite onRequest_retry, Hm, andb_false_r. reflexivity.
Qed.

(** A 401 on a request without the marker, with no refresh token in the
    store. *)
Lemma unauthorized_without_refresh_token (depth : nat) (c : Config)
  (w : World) (r : Response) :
  _retry c = false ->
  server (sent w) (onRequest c w) = Answer r ->
  status r = 401%Z ->
  truthy_opt (getRefreshToken w) = false ->
  api server (S depth) c w
  = (Failed {| config := markRetried (onRequest c w); response := Some r |},
     transmit (onRequest c w) w).
Proof.
  intros Hm Hs H401 Hrt.
  rewrite (api_rejected depth c w r Hs) by (rewrite H401; reflexivity).
  unfold onResponseError, is401. simpl config. simpl response.
  rewrite onRequest_retry, Hm, H401. simpl.
  change (getRefreshToken (transmit (onRequest c w) w))
    with (getRefreshToken w).
  destruct (getRefreshToken w) as [rt|]; [|reflexivity].
  simpl in Hrt. rewrite Hrt. reflexivity.
Qed.

(** A 401 on a request without the marker, with a refresh token in the
    store, when the refresh call fails: it is rejected, or what it
    resolves to has no [data] to read the token from. *)
Lemma unauthorized_refresh_fails (depth : nat) (c : Config) (w w2 : World)
  (r : Response) (rt : jsstring) :
  _retry c = false ->
  server (sent w) (onRequest c w) = Answer r ->
  status r = 401%Z ->
  getRefreshToken w = Some rt ->
  rt <> [] ->
  ((exists e,
       refreshToken (api server depth) rt (transmit (onRequest c w) w)
       = (Failed e, w2))
   \/ (exists r2,
         refreshToken (api server depth) rt (transmit (onRequest c w) w)
         = (Fulfilled r2, w2) /\ auth r2 = None)) ->
  api server (S depth) c w
  = (Failed {| config := markRetried (onRequest c w); response := Some r |},
     redirect (str "/") (start Logout w2)).
Proof.
  intros Hm Hs H401 Hrt Hne Hfail.
  rewrite (api_rejected depth c w r Hs) by (rewrite H401; reflexivity).
  unfold onResponseError, is401. simpl config. simpl response.
  rewrite onRequest_retry, Hm, H401. simpl.
  change (getRefreshToken (transmit (onRequest c w) w))
    with (getRefreshToken w).
  rewrite Hrt. apply truthy_spec in Hne. rewrite Hne.
  destruct Hfail as [[e He] | (r2 & He & Ha)]; rewrite He; [reflexivity|].
  rewrite Ha. reflexivity.
Qed.

(** Once the request of [logout] has settled the token store is empty. *)
Lemma logout_clears (depth : nat) (w w' : World) :
  logout server depth w = Some w' ->
  tokensCleared w'.
Proof.
  unfold logout. destruct (post _ _ _ _) as [[r|e|] w1]; intros H;
    inversion H; reflexivity.
Qed.

End Client.

Section Unauthorized.

(** With a refresh token in the store and a backend that answers 401 to
    everything, the refresh request is itself answered 401, goes through
    the same response interceptor as a request without the marker, and
    starts the next refresh request. *)
Lemma refresh_chain (rt : jsstring) :
  rt <> [] ->
  forall (depth : nat) (c : Config) (w : World),
    getRefreshToken w = Some rt ->
    _retry c = false ->
    api always401 (S depth) c w
    = (Pending,
       afterSending (onRequest c w :: repeat (refreshRequest rt w) depth) w).
Proof.
  intros Hne. apply truthy_spec in Hne.
  induction depth as [|depth IH]; intros c w Hrt Hm.
  - rewrite (api_rejected always401 0 c w
               {| status := 401; auth := None |} eq_refl eq_refl).
    unfold onResponseError, is401. simpl config. simpl response.
    rewrite onRequest_retry, Hm. simpl status. simpl andb. cbv iota.
    change (getRefreshToken (transmit (onRequest c w) w))
      with (getRefreshToken w).
    rewrite Hrt, Hne. reflexivity.
  - rewrite (api_rejected always401 (S depth) c w
               {| status := 401; auth := None |} eq_refl eq_refl).
    unfold onResponseError, is401. simpl config. simpl response.
    rewrite onRequest_retry, Hm. simpl status. simpl andb. cbv iota.
    change (getRefreshToken (transmit (onRequest c w) w))
      with (getRefreshToken w).
    rewrite Hrt, Hne. unfold refreshToken, post.
    rewrite IH by auto. cbv iota.
    rewrite afterSending_transmit. reflexivity.
Qed.

(** C1, where the code departs from it. The refresh request is sent
    through the intercepted client. With a refresh token in the store and
    a backend that answers 401 to every request, the 401 of one request is
    never settled: however deep the exchange is followed the promise is
    pending, and the requests that left are the request itself and then one
    refresh request, without the marker, for each level explored. *)
Theorem refresh_of_a_refresh_never_ends :
  forall (rt : jsstring) (depth : nat) (c : Config) (w : World),
    getRefreshToken w = Some rt ->
    rt <> [] ->
    _retry c = false ->
    fst (api always401 (S depth) c w) = Pending
    /\ sent (snd (api always401 (S depth) c w))
       = sent w ++ onRequest c w :: repeat (refreshRequest rt w) depth
    /\ url (refreshRequest rt w) = str "/auth/refresh-token"
    /\ data (refreshRequest rt w) = RefreshTokenRequest rt
    /\ _retry (refreshRequest rt w) = false.
Proof.
  intros rt depth c w Hrt Hne Hm.
  rewrite (refresh_chain rt Hne depth c w Hrt Hm). simpl.
  split; [reflexivity|]. split; [reflexivity|].
  unfold refreshRequest, onRequest.
  destruct (getToken w) as [t|]; [destruct (truthy t)|]; auto.
Qed.

Variable server : Server.

(** C2, as the code has it. A request without the marker is answered 401.
    With no refresh token in the store the failure is handed on and that
    is all: no refresh request leaves, the store and the location are what
    they were, no logout is started. With a refresh token, when the refresh
    call fails, the failure of the request is handed on, [logout()] is
    started without being awaited and the location is set to "/"; the
    store is emptied when the request of that logout has settled. *)
Theorem unauthorized_logs_out_only_after_failed_refresh :
  forall (depth : nat) (c : Config) (w : World) (r : Response),
    _retry c = false ->
    server (sent w) (onRequest c w) = Answer r ->
    status r = 401%Z ->
    (truthy_opt (getRefreshToken w) = false ->
     fst (api server (S depth) c w)
     = Failed {| config := markRetried (onRequest c w); response := Some r |}
     /\ storage (snd (api server (S depth) c w)) = storage w
     /\ href (snd (api server (S depth) c w)) = href w
     /\ floating (snd (api server (S depth) c w)) = floating w
     /\ sent (snd (api server (S depth) c w)) = sent w ++ [onRequest c w])
    /\ (forall (rt : jsstring) (w2 : World),
          getRefreshToken w = Some rt ->
          rt <> [] ->
          ((exists e,
               refreshToken (api server depth) rt (transmit (onRequest c w) w)
               = (Failed e, w2))
           \/ (exists r2,
                 refreshToken (api server depth) rt
                   (transmit (onRequest c w) w)
                 = (Fulfilled r2, w2) /\ auth r2 = None)) ->
          fst (api server (S depth) c w)
          = Failed {| config := markRetried (onRequest c w);
                      response := Some r |}
          /\ href (snd (api server (S depth) c w)) = str "/"
          /\ floating (snd (api server (S depth) c w))
             = floating w2 ++ [Logout]
          /\ storage (snd (api server (S depth) c w)) = storage w2
          /\ sent (snd (api server (S depth) c w)) = sent w2)
    /\ (forall (d : nat) (w3 w4 : World),
          logout server d w3 = Some w4 -> tokensCleared w4).
Proof.
  intros depth c w r Hm Hs H401. split; [|split].
  - intros Hrt.
    rewrite (unauthorized_without_refresh_token server depth c w r
               Hm Hs H401 Hrt).
    simpl. auto.
  - intros rt w2 Hrt Hne Hfail.
    rewrite (unauthorized_refresh_fails server depth c w w2 r rt
               Hm Hs H401 Hrt Hne Hfail).
    simpl. auto.
  - intros d w3 w4. apply logout_clears.
Qed.

End Unauthorized.

Section Authenticated.

Variable atob : jsstring -> Completion jsstring.
Variable JSON_parse : jsstring -> Completion Value.
Variable StringToNumber : jsstring -> number.
Variable Array_toString : list Value -> jsstring.

Lemma number_gt_finite (q now : Q) :
  number_gt (Finite q) now = true <-> (now < q)%Q.
Proof.
  simpl. rewrite negb_true_iff. split.
  - intros H. apply Qnot_le_lt. intros Hle.
    apply Qle_bool_iff in Hle. congruence.
  - intros H. destruct (Qle_bool q now) eqn:E; [|reflexivity].
    apply Qle_bool_iff in E. exfalso. exact (Qlt_not_le _ _ H E).
Qed.

(** [s.split('.')] cuts at every dot: the piece before the first dot
    comes first, and a text without a dot is one piece. *)
Lemma split_on_before_separator (sep : char16) (piece r : jsstring) :
  ~ In sep piece ->
  split_on sep (piece ++ sep :: r) = piece :: split_on sep r.
Proof.
  induction piece as [|c piece IH]; intros H; simpl.
  - rewrite N.eqb_refl. reflexivity.
  - destruct (N.eqb c sep) eqn:E.
    + apply N.eqb_eq in E. exfalso. apply H. left. exact E.
    + rewrite IH; [reflexivity|]. intros Hin. apply H. right. exact Hin.
Qed.

Lemma split_on_no_separator (sep : char16) (piece : jsstring) :
  ~ In sep piece -> split_on sep piece = [piece].
Proof.
  induction piece as [|c piece IH]; intros H; simpl; [reflexivity|].
  destruct (N.eqb c sep) eqn:E.
  - apply N.eqb_eq in E. exfalso. apply H. left. exact E.
  - rewrite IH; [reflexivity|]. intros Hin. apply H. right. exact Hin.
Qed.

(** The payload segment is the text between the first dot and the next. *)
Lemma payloadSegment_second (header segment rest : jsstring) :
  ~ In 46%N header ->
  ~ In 46%N segment ->
  (rest = [] \/ exists signature, rest = 46%N :: signature) ->
  payloadSegment (header ++ 46%N :: segment ++ rest) = segment.
Proof.
  intros Hh Hs Hr. unfold payloadSegment.
  rewrite split_on_before_separator by exact Hh. cbn [nth].
  destruct Hr as [->|[signature ->]].
  - rewrite app_nil_r, split_on_no_separator by exact Hs. reflexivity.
  - rewrite split_on_before_separator by exact Hs. reflexivity.
Qed.

Lemma payloadSegment_missing (token : jsstring) :
  ~ In 46%N token -> payloadSegment token = str "undefined".
Proof.
  intros H. unfold payloadSegment.
  rewrite split_on_no_separator by exact H. reflexivity.
Qed.

Lemma truthy_with_dot (header r : jsstring) :
  truthy (header ++ 46%N :: r) = true.
Proof. apply truthy_spec. destruct header; discriminate. Qed.

(** Reading a property gives the value of the first entry of that name. *)
Lemma lookup_first (key : jsstring) before (v : Value) after :
  (forall k v', In (k, v') before -> k <> key) ->
  lookup key (before ++ (key, v) :: after) = Some v.
Proof.
  induction before as [|[k v'] before IH]; intros H; simpl.
  - rewrite streq_refl. reflexivity.
  - assert (E : streq k key = false).
    { apply streq_neq. apply (H k v'). left. reflexivity. }
    rewrite E. apply IH. intros k0 v0 Hin. apply (H k0 v0). right. exact Hin.
Qed.

Lemma lookup_absent (key : jsstring) (properties : list (jsstring * Value)) :
  (forall k v, In (k, v) properties -> k <> key) ->
  lookup key properties = None.
Proof.
  induction properties as [|[k v'] properties IH]; intros H; simpl.
  - reflexivity.
  - assert (E : streq k key = false).
    { apply streq_neq. apply (H k v'). left. reflexivity. }
    rewrite E. apply IH. intros k0 v0 Hin. apply (H k0 v0). right. exact Hin.
Qed.

(** C9. [isAuthenticated] is a total function to the booleans: whatever
    [atob], [JSON.parse] or the property read throw is answered [false].
    It answers [true] exactly when a non-empty access token is stored, its
    payload segment decodes, the decoded text parses, and the [exp] of the
    parsed payload is greater than the current time in seconds, which for
    a numeric [exp] is the strict order of the numbers. It answers [false]
    without a token, with a segment that does not decode, with a text that
    does not parse, and with a numeric [exp] that is not in the future.
    Spelled out on the token itself: the segment decoded is the text
    between the first dot of the token and the next one (or the end of the
    token); when that segment decodes to a text that parses to an object
    with one [exp], the number [q], the answer is [true] exactly when the
    current time is less than [q]; when the payload parsed is [null], is
    not an object or has no [exp], when the segment does not decode, when
    the token has no dot (and [atob] refuses "undefined") and when the
    token stored is the empty string, the answer is [false]. *)
Theorem isAuthenticated_iff_unexpired_token :
  forall (currentTime : Q) (w : World),
    (isAuthenticated atob JSON_parse StringToNumber Array_toString
       currentTime w = true
     <-> exists token decoded payload exp,
           getToken w = Some token
           /\ token <> []
           /\ atob (payloadSegment token) = Normal decoded
           /\ JSON_parse decoded = Normal payload
           /\ get_exp payload = Normal exp
           /\ number_gt (ToNumber StringToNumber Array_toString exp)
                currentTime = true)
    /\ (forall q : Q,
          number_gt (ToNumber StringToNumber Array_toString
                       (Some (Number (Finite q)))) currentTime = true
          <-> (currentTime < q)%Q)
    /\ (getToken w = None ->
        isAuthenticated atob JSON_parse StringToNumber Array_toString
          currentTime w = false)
    /\ (forall token,
          getToken w = Some token ->
          atob (payloadSegment token) = Throw ->
          isAuthenticated atob JSON_parse StringToNumber Array_toString
            currentTime w = false)
    /\ (forall token decoded,
          getToken w = Some token ->
          atob (payloadSegment token) = Normal decoded ->
          JSON_parse decoded = Throw ->
          isAuthenticated atob JSON_parse StringToNumber Array_toString
            currentTime w = false)
    /\ (forall token decoded properties q,
          getToken w = Some token ->
          atob (payloadSegment token) = Normal decoded ->
          JSON_parse decoded = Normal (Object properties) ->
          lookup (str "exp") properties = Some (Number (Finite q)) ->
          (q <= currentTime)%Q ->
          isAuthenticated atob JSON_parse StringToNumber Array_toString
            currentTime w = false)
    /\ (forall (header segment rest decoded : jsstring) before after q,
          getToken w = Some (header ++ 46%N :: segment ++ rest) ->
          ~ In 46%N header ->
          ~ In 46%N segment ->
          (rest = [] \/ exists signature, rest = 46%N :: signature) ->
          atob segment = Normal decoded ->
          JSON_parse decoded
          = Normal (Object (before ++ (str "exp", Number (Finite q)) :: after)) ->
          (forall k v, In (k, v) (before ++ after) -> k <> str "exp") ->
          (isAuthenticated atob JSON_parse StringToNumber Array_toString
             currentTime w = true
           <-> (currentTime < q)%Q))
    /\ (forall (header segment rest decoded : jsstring) payload,
          getToken w = Some (header ++ 46%N :: segment ++ rest) ->
          ~ In 46%N header ->
          ~ In 46%N segment ->
          (rest = [] \/ exists signature, rest = 46%N :: signature) ->
          atob segment = Normal decoded ->
          JSON_parse decoded = Normal payload ->
          match payload with
          | Object properties =>
              forall k v, In (k, v) properties -> k <> str "exp"
          | Null | Bool _ | Number _ | String _ | Array _ => True
          end ->
          isAuthenticated atob JSON_parse StringToNumber Array_toString
            currentTime w = false)
    /\ (forall header segment rest : jsstring,
          getToken w = Some (header ++ 46%N :: segment ++ rest) ->
          ~ In 46%N header ->
          ~ In 46%N segment ->
          (rest = [] \/ exists signature, rest = 46%N :: signature) ->
          atob segment = Throw ->
          isAuthenticated atob JSON_parse StringToNumber Array_toString
            currentTime w = false)
    /\ (forall token : jsstring,
          getToken w = Some token ->
          ~ In 46%N token ->
          atob (str "undefined") = Throw ->
          isAuthenticated atob JSON_parse StringToNumber Array_toString
            currentTime w = false)
    /\ (getToken w = Some [] ->
        isAuthenticated atob JSON_parse StringToNumber Array_toString
          currentTime w = false).
Proof.
  intros currentTime w.
  split; [|split; [|split; [|split; [|split; [|split; [|split;
    [|split; [|split; [|split]]]]]]]]]; unfold isAuthenticated.
  - split.
    + destruct (getToken w) as [token|]; [|discriminate].
      destruct (truthy token) eqn:Ht; [|discriminate]. simpl negb. cbv iota.
      destruct (atob (payloadSegment token)) as [decoded|] eqn:Ha;
        [|discriminate].
      destruct (JSON_parse decoded) as [payload|] eqn:Hp; [|discriminate].
      destruct (get_exp payload) as [exp|] eqn:He; [|discriminate].
      intros H. exists token, decoded, payload, exp.
      apply truthy_spec in Ht. auto 10.
    + intros (token & decoded & payload & exp & Hg & Ht & Ha & Hp & He & H).
      apply truthy_spec in Ht. rewrite Hg, Ht, Ha, Hp, He. exact H.
  - intros q. apply number_gt_finite.
  - intros ->. reflexivity.
  - intros token -> Ha. rewrite Ha. destruct (truthy token); reflexivity.
  - intros token decoded -> Ha Hp. rewrite Ha, Hp.
    destruct (truthy token); reflexivity.
  - intros token decoded properties q -> Ha Hp Hl Hq. rewrite Ha, Hp.
    destruct (truthy token); [|reflexivity]. simpl. rewrite Hl. simpl.
    apply negb_false_iff. apply Qle_bool_iff. exact Hq.
  - intros header segment rest decoded before after q -> Hh Hs Hr Ha Hp Hb.
    rewrite (payloadSegment_second header segment rest Hh Hs Hr), Ha, Hp.
    rewrite (truthy_with_dot header (segment ++ rest)). cbn [negb get_exp].
    rewrite (lookup_first (str "exp") before _ after)
      by (intros k v Hin; apply (Hb k v), in_or_app; left; exact Hin).
    cbn [ToNumber].
    apply number_gt_finite.
  - intros header segment rest decoded payload -> Hh Hs Hr Ha Hp Hk.
    rewrite (payloadSegment_second header segment rest Hh Hs Hr), Ha, Hp.
    rewrite (truthy_with_dot header (segment ++ rest)). cbn [negb].
    destruct payload as [|b|n|s|elements|properties]; try reflexivity.
    cbn [get_exp]. rewrite (lookup_absent (str "exp") properties Hk).
    reflexivity.
  - intros header segment rest -> Hh Hs Hr Ha.
    rewrite (payloadSegment_second header segment rest Hh Hs Hr), Ha.
    destruct (truthy _); reflexivity.
  - intros token -> Ht Ha.
    rewrite (payloadSegment_missing token Ht), Ha.
    destruct (truthy token); reflexivity.
  - intros ->. reflexivity.
Qed.

End Authenticated.

End ApiServiceFacts.

(** ** Concrete runs *)

Module Runs.
Import JS Vocabulary.

(** The sample send: "Hello" typed into the new chat. *)
Lemma send_hello_run :
  trim (ChatPage.message (ChatPage.ui Samples.greeting)) <> []
  /\ ChatPage.activeChat (ChatPage.ui Samples.greeting) <> []
  /\ map (fun c => (ChatPage.Chat.title c, ChatPage.Chat.messageCount c,
                    map ChatPage.MessageData.text (ChatPage.Chat.messages c)))
       (ChatPage.chats (ChatPage.ui
          (ChatPage.sendMessage Samples.backend Samples.parseDate 7
             Samples.greeting)))
     = [(str "Hello", 2%Z, [str "Hello"; str "Hi there"]);
        (str "Headache", 2%Z, [])]
  /\ List.length
       (ChatPage.chats (ChatPage.ui
          (ChatPage.sendMessage Samples.backend Samples.parseDate 7
             Samples.greeting))) = 2%nat.
Proof.
  assert (H1 : trim (ChatPage.message (ChatPage.ui Samples.greeting)) <> [])
    by (vm_compute; discriminate).
  assert (H2 : ChatPage.activeChat (ChatPage.ui Samples.greeting) <> [])
    by (vm_compute; discriminate).
  split; [exact H1|]. split; [exact H2|]. split; [reflexivity|].
  exact (proj1 (ChatPageFacts.send_appends_pair_to_active_chat
                  Samples.backend Samples.parseDate 7 Samples.greeting _
                  H1 H2 eq_refl)).
Defined.

(** A blank input sends nothing. *)
Lemma blank_input_run :
  trim (ChatPage.message (ChatPage.ui Samples.blankInput)) = []
  /\ ChatPage.sendMessage Samples.backend Samples.parseDate 7
       Samples.blankInput = Samples.blankInput.
Proof.
  split; [reflexivity|].
  exact (proj1 (ChatPageFacts.blank_input_or_no_chat_sends_nothing
                  Samples.backend Samples.parseDate 7 Samples.blankInput
                  (or_introl eq_refl))).
Defined.

(** "Hello", then "Thanks": the chat just created, without messages, is
    titled "Hello" and stays so. *)
Lemma title_hello_run :
  trim (str "Hello") <> []
  /\ ChatPage.Chat.messageCount Samples.newChat = 0%Z
  /\ ChatPage.Chat.messages Samples.newChat = []
  /\ exists chat',
       nth_error
         (ChatPage.chats (ChatPage.ui
            (ChatPage.sendEach Samples.backend Samples.parseDate
               [(str "Hello", 7%Z); (str "Thanks", 9%Z)] Samples.emptyInput)))
         0 = Some chat'
       /\ ChatPage.Chat.id chat' = ChatPage.Chat.id Samples.newChat
       /\ ChatPage.Chat.title chat' = ChatPage.titleFrom (str "Hello")
       /\ ChatPage.Chat.messages chat' <> [].
Proof.
  assert (H1 : trim (str "Hello") <> []) by (vm_compute; discriminate).
  assert (H2 : ChatPage.activeChat (ChatPage.ui Samples.emptyInput) <> [])
    by (vm_compute; discriminate).
  split; [exact H1|]. split; [reflexivity|]. split; [reflexivity|].
  exact (proj1 (ChatPageFacts.title_comes_from_first_typed_text
                  Samples.backend Samples.parseDate (str "Hello") 7
                  [(str "Thanks", 9%Z)] Samples.emptyInput 0 Samples.newChat _
                  H1 H2 eq_refl eq_refl eq_refl eq_refl eq_refl)).
Defined.

(** C4 as stated fails: with "Hello " typed (a space at the end) the
    message sent is "Hello", five characters, and the chat is titled
    "Hello " with the space, not with the message sent. *)
Lemma title_is_not_the_message_sent :
  ChatPage.calls
    (ChatPage.sendMessage Samples.backend Samples.parseDate 7
       Samples.paddedGreeting)
  = [ChatPage.SendMessage
       {| Api.SendMessageRequest.chatId := str "c1";
          Api.SendMessageRequest.message := str "Hello" |}]
  /\ (List.length (str "Hello") <= 30)%nat
  /\ option_map ChatPage.Chat.title
       (nth_error
          (ChatPage.chats (ChatPage.ui
             (ChatPage.sendMessage Samples.backend Samples.parseDate 7
                Samples.paddedGreeting))) 0)
     = Some (str "Hello ")
  /\ option_map ChatPage.Chat.title
       (nth_error
          (ChatPage.chats (ChatPage.ui
             (ChatPage.sendMessage Samples.backend Samples.parseDate 7
                Samples.paddedGreeting))) 0)
     <> Some (str "Hello").
Proof.
  split; [reflexivity|]. split; [vm_compute; lia|].
  split; [reflexivity|]. vm_compute. discriminate.
Qed.

(** Selecting the older chat, whose messages are not loaded, fetches. *)
Lemma select_older_run :
  find (fun c => streq (ChatPage.Chat.id c) (str "c2"))
    (ChatPage.chats (ChatPage.ui Samples.greeting)) = Some Samples.olderChat
  /\ ChatPage.calls
       (ChatPage.handleChatSelect Samples.backend Samples.parseDate true
          (str "c2") Samples.greeting)
     = [ChatPage.GetMessages (str "c2")].
Proof.
  split; [reflexivity|].
  apply (proj1 (ChatPageFacts.select_fetches_iff_unloaded
                  Samples.backend Samples.parseDate true (str "c2")
                  Samples.greeting Samples.olderChat eq_refl)).
  split; [reflexivity | reflexivity].
Defined.

(** Deleting the active chat while another remains. *)
Lemma delete_active_run :
  ChatPage.chatToDelete (ChatPage.ui Samples.deletingActive)
  = Some (str "c1")
  /\ ChatPage.activeChat
       (ChatPage.ui
          (ChatPage.deleteChat Samples.backend Samples.parseDate
             Samples.deletingActive)) = str "c2"
  /\ ChatPage.activeChat
       (ChatPage.ui
          (ChatPageAlt.deleteChat Samples.backend Samples.parseDate
             Samples.deletingActive)) = str "c2".
Proof.
  assert (Hid : str "c1" <> []) by (vm_compute; discriminate).
  pose proof (proj1 (ChatPageFacts.delete_moves_the_selection
                       Samples.backend Samples.parseDate
                       Samples.deletingActive (str "c1") tt
                       eq_refl Hid eq_refl)
                Samples.olderChat [] eq_refl eq_refl) as H.
  split; [reflexivity|]. split.
  - exact (proj1 (H _ (or_introl eq_refl))).
  - exact (proj1 (H _ (or_intror eq_refl))).
Defined.

(** Everything is answered 401 and a refresh token is stored: followed to
    depth four, the request is pending and three refresh requests left. *)
Lemma refresh_chain_run :
  ApiService.getRefreshToken Samples.signedIn = Some (str "r1")
  /\ fst (ApiService.api always401 4 Samples.listChats Samples.signedIn)
     = ApiService.Pending
  /\ map ApiService.url
       (ApiService.sent
          (snd (ApiService.api always401 4 Samples.listChats Samples.signedIn)))
     = [str "/chats/list"; str "/auth/refresh-token";
        str "/auth/refresh-token"; str "/auth/refresh-token"].
Proof.
  assert (Hne : str "r1" <> []) by (vm_compute; discriminate).
  pose proof (ApiServiceFacts.refresh_of_a_refresh_never_ends
                (str "r1") 3 Samples.listChats Samples.signedIn
                eq_refl Hne eq_refl) as (Hp & Hs & _).
  split; [reflexivity|]. split; [exact Hp|]. rewrite Hs. reflexivity.
Defined.

(** The refresh succeeds and the retried request is answered 401 again:
    one refresh, one retry, and the 401 of the retry is handed on. *)
Example refresh_once_retry_once :
  map (fun q => (ApiService.url q, ApiService._retry q))
    (ApiService.sent
       (snd (ApiService.api Samples.renewsOnly 9 Samples.listChats
               Samples.signedIn)))
  = [(str "/chats/list", false); (str "/auth/refresh-token", false);
     (str "/chats/list", true)]
  /\ fst (ApiService.api Samples.renewsOnly 9 Samples.listChats
            Samples.signedIn)
     = ApiService.Failed
         {| ApiService.config :=
              ApiService.markRetried
                (ApiService.withAuthorization (ApiService.Bearer (str "t2"))
                   Samples.listChats);
            ApiService.response := Some Samples.unauthorized |}
  /\ ApiService.getToken
       (snd (ApiService.api Samples.renewsOnly 9 Samples.listChats
               Samples.signedIn)) = Some (str "t2").
Proof. repeat split; reflexivity. Qed.

(** C2 as stated fails: a 401 with no refresh token in the store is handed
    on, and the access token is still stored, the location is still the
    chat page and no logout was started. *)
Lemma no_refresh_token_no_logout :
  ApiService.getRefreshToken Samples.withoutRefreshToken = None
  /\ fst (ApiService.api always401 5 Samples.listChats
            Samples.withoutRefreshToken)
     = ApiService.Failed
         {| ApiService.config :=
              ApiService.markRetried
                (ApiService.withAuthorization (ApiService.Bearer (str "t1"))
                   Samples.listChats);
            ApiService.response := Some Samples.unauthorized |}
  /\ ApiService.getToken
       (snd (ApiService.api always401 5 Samples.listChats
               Samples.withoutRefreshToken)) = Some (str "t1")
  /\ ApiService.href
       (snd (ApiService.api always401 5 Samples.listChats
               Samples.withoutRefreshToken)) = str "/home"
  /\ ApiService.floating
       (snd (ApiService.api always401 5 Samples.listChats
               Samples.withoutRefreshToken)) = []
  /\ ~ (tokensCleared
          (snd (ApiService.api always401 5 Samples.listChats
                  Samples.withoutRefreshToken))
        /\ ApiService.href
             (snd (ApiService.api always401 5 Samples.listChats
                     Samples.withoutRefreshToken)) = str "/").
Proof.
  repeat split; try reflexivity.
  intros [H _]. vm_compute in H. discriminate.
Qed.

(** The refresh endpoint is down: the 401 is handed on, a logout is
    started and the location is the sign-in page; the tokens are still in
    the store until that logout has settled. *)
Lemma refresh_down_run :
  ApiService._retry Samples.listChats = false
  /\ ApiService.href
       (snd (ApiService.api Samples.refreshDown 2 Samples.listChats
               Samples.signedIn)) = str "/"
  /\ ApiService.floating
       (snd (ApiService.api Samples.refreshDown 2 Samples.listChats
               Samples.signedIn)) = [ApiService.Logout]
  /\ ApiService.getToken
       (snd (ApiService.api Samples.refreshDown 2 Samples.listChats
               Samples.signedIn)) = Some (str "t1").
Proof.
  assert (Hne : str "r1" <> []) by (vm_compute; discriminate).
  pose proof (proj1 (proj2
    (ApiServiceFacts.unauthorized_logs_out_only_after_failed_refresh
       Samples.refreshDown 1 Samples.listChats Samples.signedIn
       Samples.unauthorized eq_refl eq_refl eq_refl))
    (str "r1") _ eq_refl Hne (or_introl (ex_intro _ _ eq_refl)))
    as (_ & Hh & Hf & Hst & _).
  split; [reflexivity|]. split; [exact Hh|]. split; [exact Hf|].
  unfold ApiService.getToken. rewrite Hst. reflexivity.
Defined.

(** The logout started there, once it runs: its own request is answered
    401 and the refresh fails again, the request settles, and the store is
    empty. *)
Example logout_after_refresh_down :
  option_map ApiService.storage
    (ApiService.logout Samples.refreshDown 3
       (snd (ApiService.api Samples.refreshDown 2 Samples.listChats
               Samples.signedIn)))
  = Some {| ApiService.localStorage.accessToken := None;
            ApiService.localStorage.refreshToken := None;
            ApiService.localStorage.user := None |}.
Proof. reflexivity. Qed.

(** The stand-in platform: the token is live before second 2000 and not
    from then on; a token without a payload segment is not accepted. *)
Example isAuthenticated_runs :
  ApiService.isAuthenticated Samples.atob Samples.JSON_parse
    Samples.StringToNumber Samples.Array_toString 1999
    (Samples.browser (Some (str "head.live.sig")) None) = true
  /\ ApiService.isAuthenticated Samples.atob Samples.JSON_parse
       Samples.StringToNumber Samples.Array_toString 2000
       (Samples.browser (Some (str "head.live.sig")) None) = false
  /\ ApiService.isAuthenticated Samples.atob Samples.JSON_parse
       Samples.StringToNumber Samples.Array_toString 1999
       (Samples.browser (Some (str "live")) None) = false
  /\ ApiService.isAuthenticated Samples.atob Samples.JSON_parse
       Samples.StringToNumber Samples.Array_toString 1999
       (Samples.browser None None) = false.
Proof. repeat split; reflexivity. Qed.

(** The token "head.live.sig": its segment "live" decodes and parses to an
    object whose [exp] is 2000, so it is accepted at second 1999 and no
    longer at second 2000. *)
Lemma unexpired_token_run :
  ApiService.getToken MoreSamples.liveSession
  = Some (str "head" ++ 46%N :: str "live" ++ str ".sig")
  /\ Samples.atob (str "live") = ApiService.Normal (str "{exp:2000}")
  /\ Samples.JSON_parse (str "{exp:2000}")
     = ApiService.Normal
         (ApiService.Object
            ([] ++ (str "exp", ApiService.Number (ApiService.Finite 2000))
                :: []))
  /\ ApiService.isAuthenticated Samples.atob Samples.JSON_parse
       Samples.StringToNumber Samples.Array_toString 1999
       MoreSamples.liveSession = true
  /\ ApiService.isAuthenticated Samples.atob Samples.JSON_parse
       Samples.StringToNumber Samples.Array_toString 2000
       MoreSamples.liveSession = false.
Proof.
  assert (Hh : ~ In 46%N (str "head")).
  { intros H. cbv in H.
    repeat destruct H as [H|H]; try discriminate H; exact H. }
  assert (Hs : ~ In 46%N (str "live")).
  { intros H. cbv in H.
    repeat destruct H as [H|H]; try discriminate H; exact H. }
  assert (Hr : str ".sig" = []
               \/ exists signature, str ".sig" = 46%N :: signature).
  { right. exists (str "sig"). reflexivity. }
  assert (Hb : forall (k : jsstring) (v : ApiService.Value),
             In (k, v) ([] ++ []) -> k <> str "exp").
  { intros k v []. }
  split; [reflexivity|]. split; [reflexivity|]. split; [reflexivity|]. split.
  - destruct (ApiServiceFacts.isAuthenticated_iff_unexpired_token
                Samples.atob Samples.JSON_parse Samples.StringToNumber
                Samples.Array_toString 1999 MoreSamples.liveSession)
      as (_ & _ & _ & _ & _ & _ & Hlive & _).
    apply (Hlive (str "head") (str "live") (str ".sig") (str "{exp:2000}")
             [] [] 2000%Q eq_refl Hh Hs Hr eq_refl eq_refl Hb).
    reflexivity.
  - destruct (ApiServiceFacts.isAuthenticated_iff_unexpired_token
                Samples.atob Samples.JSON_parse Samples.StringToNumber
                Samples.Array_toString 2000 MoreSamples.liveSession)
      as (_ & _ & _ & _ & _ & _ & Hlive & _).
    pose proof (Hlive (str "head") (str "live") (str ".sig")
                  (str "{exp:2000}") [] [] 2000%Q eq_refl Hh Hs Hr
                  eq_refl eq_refl Hb) as Hiff.
    destruct (ApiService.isAuthenticated Samples.atob Samples.JSON_parse
                Samples.StringToNumber Samples.Array_toString 2000
                MoreSamples.liveSession); [|reflexivity].
    exfalso. discriminate (proj1 Hiff eq_refl).
Defined.

(** Outside the theorem of C4: the older chat is counted as having two
    messages, its list is empty because they are not loaded, and a send
    into it puts the typed text in the place of its title "Headache". *)
Example send_into_unloaded_chat_run :
  ChatPage.Chat.messageCount Samples.olderChat = 2%Z
  /\ ChatPage.Chat.messages Samples.olderChat = []
  /\ ChatPage.Chat.title Samples.olderChat = str "Headache"
  /\ option_map ChatPage.Chat.title
       (nth_error
          (ChatPage.chats (ChatPage.ui
             (ChatPage.sendMessage Samples.backend Samples.parseDate 7
                (Samples.view [Samples.newChat; Samples.olderChat]
                   (str "c2") (str "Hi") None)))) 1)
     = Some (str "Hi").
Proof. repeat split; reflexivity. Qed.

End Runs.

(** ** Regular expressions: reading by derivatives is matching *)

Module RegExpFacts.
Import JS RegExp.

Lemma nullable_matches (r : t) : nullable r = true <-> matches r [].
Proof.
  induction r; simpl.
  - split; [discriminate | intros H; inversion H].
  - split; [constructor | reflexivity].
  - split; [discriminate | intros H; inversion H].
  - rewrite andb_true_iff, IHr1, IHr2. split.
    + intros [H1 H2]. exact (M_seq _ _ [] [] H1 H2).
    + intros H. inversion H as [| |? ? s1 s2 H1 H2 E1 E2| | | |]; subst.
      apply app_eq_nil in E2. destruct E2; subst. auto.
  - rewrite orb_true_iff, IHr1, IHr2. split.
    + intros [H|H]; [apply M_alt_l | apply M_alt_r]; exact H.
    + intros H. inversion H; subst; auto.
  - split; [constructor | reflexivity].
Qed.

(** A repetition that starts with [c] starts with one round that does. *)
Lemma star_head (r : t) (c : char16) (s : jsstring) :
  matches (Star r) (c :: s) ->
  exists s1 s2, s = s1 ++ s2 /\ matches r (c :: s1) /\ matches (Star r) s2.
Proof.
  intros H. remember (Star r) as r0 eqn:Er. remember (c :: s) as s0 eqn:Es.
  revert s Es.
  induction H as [| | | | | |r' s1 s2 H1 _ H2 IH2]; intros s' Es;
    try discriminate.
  inversion Er; subst r'.
  destruct s1 as [|c1 s1].
  - simpl in Es. apply IH2; auto.
  - simpl in Es. inversion Es; subst. exists s1, s2. auto.
Qed.

Lemma after_matches (r : t) (c : char16) :
  forall s, matches (after c r) s <-> matches r (c :: s).
Proof.
  induction r; intros s; simpl.
  - split; intros H; inversion H.
  - split; intros H; inversion H.
  - destruct (p c) eqn:E; split; intros H.
    + inversion H; subst. constructor. exact E.
    + inversion H; subst. constructor.
    + inversion H.
    + inversion H; subst. congruence.
  - assert (Hseq : forall s0, matches (Seq (after c r1) r2) s0
                    -> matches (Seq r1 r2) (c :: s0)).
    { intros s0 H. inversion H as [| |? ? s1 s2 H1 H2| | | |]; subst.
      apply IHr1 in H1. exact (M_seq _ _ (c :: s1) s2 H1 H2). }
    assert (Hback : matches (Seq r1 r2) (c :: s) ->
                    matches (Seq (after c r1) r2) s
                    \/ (matches r1 [] /\ matches r2 (c :: s))).
    { intros H. inversion H as [| |? ? s1 s2 H1 H2 E1 E2| | | |]; subst.
      destruct s1 as [|c1 s1]; simpl in E2.
      - right. subst. auto.
      - inversion E2; subst. left. apply M_seq; [apply IHr1|]; assumption. }
    destruct (nullable r1) eqn:En; split; intros H.
    + inversion H; subst; [auto|].
      apply nullable_matches in En. apply IHr2 in H3.
      exact (M_seq _ _ [] _ En H3).
    + destruct (Hback H) as [H1|[_ H2]];
        [apply M_alt_l | apply M_alt_r; apply IHr2]; assumption.
    + auto.
    + destruct (Hback H) as [H1|[H1 _]]; [assumption|].
      apply nullable_matches in H1. congruence.
  - split; intros H; inversion H; subst.
    + apply M_alt_l, IHr1; assumption.
    + apply M_alt_r, IHr2; assumption.
    + apply M_alt_l, IHr1; assumption.
    + apply M_alt_r, IHr2; assumption.
  - split; intros H.
    + inversion H as [| |? ? s1 s2 H1 H2| | | |]; subst.
      apply IHr in H1. exact (M_star_more _ (c :: s1) s2 H1 H2).
    + destruct (star_head _ _ _ H) as (s1 & s2 & -> & H1 & H2).
      apply M_seq; [apply IHr|]; assumption.
Qed.

Lemma test_matches (s : jsstring) :
  forall r, test r s = true <-> matches r s.
Proof.
  unfold test. induction s as [|c s IH]; intros r; simpl.
  - apply nullable_matches.
  - rewrite IH. apply after_matches.
Qed.

(** [c+] for a class: a non-empty string of characters of the class. *)
Lemma plus_class (p : char16 -> bool) (s : jsstring) :
  matches (Plus (Class p)) s <-> s <> [] /\ Forall (fun c => p c = true) s.
Proof.
  assert (Hstar : forall s0, matches (Star (Class p)) s0
                   <-> Forall (fun c => p c = true) s0).
  { intros s0; split.
    - intros H. remember (Star (Class p)) as r eqn:Er.
      induction H; try discriminate; [constructor|].
      inversion Er; subst. inversion H; subst. simpl. constructor; auto.
    - intros H. induction H as [|c l Hc _ IH]; [constructor|].
      exact (M_star_more _ [c] l (M_class p c Hc) IH). }
  unfold Plus. split.
  - intros H. inversion H as [| |? ? s1 s2 H1 H2| | | |]; subst.
    inversion H1; subst. simpl. split; [discriminate|].
    constructor; [assumption | apply Hstar; assumption].
  - intros [Hne H]. destruct H as [|c l Hc Hl]; [congruence|].
    exact (M_seq _ _ [c] l (M_class p c Hc) (proj2 (Hstar l) Hl)).
Qed.

End RegExpFacts.

(** ** The auth form, beyond the OTP field *)

Module SignInUpFormFacts.
Import JS JSFacts Vocabulary FormVocabulary SignInUp SignInUpForm.
Import RegExp RegExpFacts.

Lemma notSpaceNorAt_spec (c : char16) :
  notSpaceNorAt c = true <-> isWhiteSpace c = false /\ c <> 64%N.
Proof.
  unfold notSpaceNorAt.
  rewrite negb_true_iff, orb_false_iff, N.eqb_neq. tauto.
Qed.

Lemma plus_notSpaceNorAt (s : jsstring) :
  matches (Plus (Class notSpaceNorAt)) s <-> addressPart s.
Proof.
  rewrite plus_class. unfold addressPart.
  rewrite !Forall_forall.
  split; intros [Hn H]; (split; [exact Hn|]); intros c Hc;
    apply notSpaceNorAt_spec; auto.
Qed.

Lemma class_char (k : char16) (s : jsstring) :
  matches (Class (fun c => (c =? k)%N)) s <-> s = [k].
Proof.
  split.
  - intros H. inversion H as [|p c Hc| | | | |]; subst.
    apply N.eqb_eq in Hc. subst. reflexivity.
  - intros ->. constructor. apply N.eqb_refl.
Qed.

Lemma emailRegex_matches (s : jsstring) :
  matches emailRegex s
  <-> exists a b c,
        s = a ++ [64%N] ++ b ++ [46%N] ++ c
        /\ addressPart a /\ addressPart b /\ addressPart c.
Proof.
  unfold emailRegex. split.
  - intros H.
    inversion H as [| |? ? a s1 Ha H1| | | |]; subst.
    inversion H1 as [| |? ? x s2 Hx H2| | | |]; subst.
    inversion H2 as [| |? ? b s3 Hb H3| | | |]; subst.
    inversion H3 as [| |? ? y c Hy Hc| | | |]; subst.
    apply class_char in Hx, Hy. subst.
    apply plus_notSpaceNorAt in Ha, Hb, Hc.
    exists a, b, c. auto.
  - intros (a & b & c & -> & Ha & Hb & Hc).
    apply plus_notSpaceNorAt in Ha, Hb, Hc.
    repeat (apply M_seq; try assumption); apply class_char; reflexivity.
Qed.

Lemma addressPart_no_at (s : jsstring) :
  addressPart s -> count_occ N.eq_dec s 64%N = 0%nat.
Proof.
  intros [_ H]. induction H as [|c l [_ Hc] _ IH]; simpl; [reflexivity|].
  destruct (N.eq_dec c 64); [contradiction | exact IH].
Qed.

Lemma addressPart_length (s : jsstring) :
  addressPart s -> (1 <= List.length s)%nat.
Proof. intros [H _]. destruct s; [congruence | simpl; lia]. Qed.

(** X1. [validators.email]. An address is accepted exactly when it reads
    [a@b.c] with [a], [b] and [c] not empty, free of white space and free
    of at signs ([b] and [c] may hold further dots). An accepted address
    therefore has exactly one at sign, no white space, and at least five
    characters. *)
Theorem email_is_local_at_domain_dot_rest :
  forall email : jsstring,
    (validators_email email = true
     <-> exists a b c,
           email = a ++ [64%N] ++ b ++ [46%N] ++ c
           /\ addressPart a /\ addressPart b /\ addressPart c)
    /\ (validators_email email = true ->
        count_occ N.eq_dec email 64%N = 1%nat
        /\ Forall (fun c => isWhiteSpace c = false) email
        /\ (5 <= List.length email)%nat).
Proof.
  intros email. unfold validators_email. rewrite test_matches.
  split; [apply emailRegex_matches|].
  intros H. apply emailRegex_matches in H.
  destruct H as (a & b & c & -> & Ha & Hb & Hc).
  split; [|split].
  - rewrite !count_occ_app. simpl.
    rewrite (addressPart_no_at a Ha), (addressPart_no_at b Hb),
      (addressPart_no_at c Hc). reflexivity.
  - destruct Ha as [_ Ha], Hb as [_ Hb], Hc as [_ Hc].
    rewrite Forall_forall in *. intros x Hx.
    rewrite !in_app_iff in Hx. simpl in Hx.
    destruct Hx as [Hx|[[<-|[]]|[Hx|[[<-|[]]|Hx]]]];
      try reflexivity; [apply Ha | apply Hb | apply Hc]; exact Hx.
  - apply addressPart_length in Ha, Hb, Hc.
    rewrite length_app. simpl. rewrite length_app. simpl.
    unfold char16 in *. lia.
Qed.

Section Submitting.

Variable api : apiService.

(** What one submit comes to: either nothing was sent and only an error
    message was put up, or exactly one request was sent, one the form
    allowed, and the form is no longer loading. *)
Lemma handleSubmit_outcome (p : Page) :
  (sent (handleSubmit api p) = sent p
   /\ timers (handleSubmit api p) = timers p
   /\ onlyErrorShown (form p) (form (handleSubmit api p)))
  \/ exists r,
       sent (handleSubmit api p) = sent p ++ [r]
       /\ allowed (form p) r
       /\ loading (form (handleSubmit api p)) = false
       /\ (loading (form p) = false ->
           getSubmitButtonText (form p) = labelOf (mode (form p)) r).
Proof.
  destruct p as [[e o pw np m os oi vt l er su sn] snt tm].
  unfold handleSubmit. cbn [form mode otpSent verificationToken].
  assert (Hmsg : forall s : string, s <> ""%string -> str s <> []).
  { intros [|a s] H; [congruence | discriminate]. }
  destruct m.
  - (* sign-in *)
    unfold handleSignIn. cbn [form email password].
    destruct (validators_email e) eqn:He; cbn [negb];
      [destruct (validators_password pw) eqn:Hp; cbn [negb]|].
    + right. eexists. split; [|split; [|split]].
      * destruct (login api _) as [r|err]; [destruct (success r)|];
          reflexivity.
      * cbn. repeat split; auto. apply Nat.leb_le. exact Hp.
      * destruct (login api _) as [r|err]; [destruct (success r)|];
          reflexivity.
      * cbn. intros ->. reflexivity.
    + left. cbn. unfold onlyErrorShown. cbn. repeat split; auto.
      discriminate.
    + left. cbn. unfold onlyErrorShown. cbn. repeat split; auto.
      discriminate.
  - (* sign-up *)
    destruct os; cbn [negb].
    + destruct (truthy vt) eqn:Hv; cbn [negb].
      * unfold handleSignUp. cbn [form email newPassword verificationToken].
        rewrite Hv. cbn [negb].
        destruct (validators_password np) eqn:Hp; cbn [negb].
        -- right. eexists. split; [|split; [|split]].
           ++ destruct (register api _) as [r|err]; [destruct (success r)|];
                reflexivity.
           ++ cbn. repeat split; auto; [apply truthy_spec; exact Hv|].
              apply Nat.leb_le. exact Hp.
           ++ destruct (register api _) as [r|err]; [destruct (success r)|];
                reflexivity.
           ++ intros Hl. cbn in Hl. subst. unfold getSubmitButtonText.
              cbn [loading mode otpSent verificationToken negb].
              rewrite Hv. reflexivity.
        -- left. cbn. unfold onlyErrorShown. cbn. repeat split; auto.
           discriminate.
      * unfold handleVerifyOtpOn, handleVerifyOtp. cbn [form otp email otpId].
        destruct (validators_otp o) eqn:Ho; cbn [negb].
        -- right. eexists. split; [|split; [|split]].
           ++ destruct (verifyOtp api _) as [r|err];
                [destruct (Api.VerifyOtpResponse.success r)|]; reflexivity.
           ++ apply truthy_false in Hv.
              apply SignInUpFacts.validators_otp_spec in Ho.
              cbn. repeat split; auto; try discriminate; tauto.
           ++ destruct (verifyOtp api _) as [r|err];
                [destruct (Api.VerifyOtpResponse.success r)|]; reflexivity.
           ++ intros Hl. cbn in Hl. subst. unfold getSubmitButtonText.
              cbn [loading mode otpSent verificationToken negb].
              rewrite Hv. reflexivity.
        -- left. cbn. rewrite app_nil_r. unfold onlyErrorShown. cbn.
           repeat split; auto. discriminate.
    + unfold handleSendOtp. cbn [form email].
      destruct (validators_email e) eqn:He; cbn [negb].
      * right. eexists. split; [|split; [|split]].
        -- destruct (sendOtp api _) as [r|err]; [destruct (otp_success r)|];
             reflexivity.
        -- cbn. repeat split; auto. discriminate.
        -- destruct (sendOtp api _) as [r|err]; [destruct (otp_success r)|];
             reflexivity.
        -- cbn. intros ->. reflexivity.
      * left. cbn. unfold onlyErrorShown. cbn. repeat split; auto.
        discriminate.
  - (* forgot *)
    destruct os; cbn [negb].
    + destruct (truthy vt) eqn:Hv; cbn [negb].
      * unfold handleForgotPasswordSubmit.
        cbn [form email newPassword verificationToken].
        rewrite Hv. cbn [negb].
        destruct (validators_password np) eqn:Hp; cbn [negb].
        -- right. eexists. split; [|split; [|split]].
           ++ destruct (forgotPassword api _) as [r|err];
                [destruct (success r)|]; reflexivity.
           ++ cbn. repeat split; auto; [apply truthy_spec; exact Hv|].
              apply Nat.leb_le. exact Hp.
           ++ destruct (forgotPassword api _) as [r|err];
                [destruct (success r)|]; reflexivity.
           ++ intros Hl. cbn in Hl. subst. unfold getSubmitButtonText.
              cbn [loading mode otpSent verificationToken negb].
              rewrite Hv. reflexivity.
        -- left. cbn. unfold onlyErrorShown. cbn. repeat split; auto.
           discriminate.
      * unfold handleVerifyOtpOn, handleVerifyOtp. cbn [form otp email otpId].
        destruct (validators_otp o) eqn:Ho; cbn [negb].
        -- right. eexists. split; [|split; [|split]].
           ++ destruct (verifyOtp api _) as [r|err];
                [destruct (Api.VerifyOtpResponse.success r)|]; reflexivity.
           ++ apply truthy_false in Hv.
              apply SignInUpFacts.validators_otp_spec in Ho.
              cbn. repeat split; auto; try discriminate; tauto.
           ++ destruct (verifyOtp api _) as [r|err];
                [destruct (Api.VerifyOtpResponse.success r)|]; reflexivity.
           ++ intros Hl. cbn in Hl. subst. unfold getSubmitButtonText.
              cbn [loading mode otpSent verificationToken negb].
              rewrite Hv. reflexivity.
        -- left. cbn. rewrite app_nil_r. unfold onlyErrorShown. cbn.
           repeat split; auto. discriminate.
    + unfold handleSendOtp. cbn [form email].
      destruct (validators_email e) eqn:He; cbn [negb].
      * right. eexists. split; [|split; [|split]].
        -- destruct (sendOtp api _) as [r|err]; [destruct (otp_success r)|];
             reflexivity.
        -- cbn. repeat split; auto. discriminate.
        -- destruct (sendOtp api _) as [r|err]; [destruct (otp_success r)|];
             reflexivity.
        -- cbn. intros ->. reflexivity.
      * left. cbn. unfold onlyErrorShown. cbn. repeat split; auto.
        discriminate.
Qed.

End Submitting.

Section SubmitProperties.

Variable api : apiService.

(** X2. One submit sends at most one request, and only a request the state of
    the form allows: a login only in sign-in mode with a valid address and
    a password of six characters or more; an OTP only before one was sent,
    to a valid address; a verification only of six digits; an account or a
    new password only with the verification token the form holds, which is
    not empty, and a password of six characters or more. *)
Theorem submit_sends_at_most_one_allowed_request :
  forall p : Page,
    exists l,
      sent (handleSubmit api p) = sent p ++ l
      /\ (List.length l <= 1)%nat
      /\ forall r, In r l -> allowed (form p) r.
Proof.
  intros p.
  destruct (handleSubmit_outcome api p) as [(Hs & _)|(r & Hs & Ha & _)].
  - exists []. rewrite app_nil_r. split; [exact Hs|]. split; [simpl; lia|].
    intros r [].
  - exists [r]. split; [exact Hs|]. split; [simpl; lia|].
    intros r' [<-|[]]. exact Ha.
Qed.

(** X3. The label of the submit button names the request a submit sends:
    whenever a submit of a form that is not loading sends a request, the
    button showed the label of that step. *)
Theorem submit_button_names_the_request :
  forall (p : Page) (r : Request),
    loading (form p) = false ->
    sent (handleSubmit api p) = sent p ++ [r] ->
    getSubmitButtonText (form p) = labelOf (mode (form p)) r.
Proof.
  intros p r Hl Hs.
  destruct (handleSubmit_outcome api p) as [(Hs' & _)|(r' & Hs' & _ & _ & H)].
  - rewrite Hs' in Hs. symmetry in Hs.
    exfalso. exact (ChatPageFacts.app_one_neq _ _ Hs).
  - rewrite Hs' in Hs. apply app_inv_head in Hs. inversion Hs; subst. auto.
Qed.

(** X4. No submit leaves the form loading: whatever the backend answers, a
    form that was not loading before the submit is not loading after. *)
Theorem submit_never_leaves_the_form_loading :
  forall p : Page,
    loading (form p) = false ->
    loading (form (handleSubmit api p)) = false.
Proof.
  intros p Hl.
  destruct (handleSubmit_outcome api p) as [(_ & _ & H)|(r & _ & _ & H & _)].
  - unfold onlyErrorShown in H. destruct H as (_&_&_&_&_&_&_&_&H&_). congruence.
  - exact H.
Qed.

(** X5. A submit that sends nothing was stopped by the validation of the
    client: it sets no timer and changes nothing in the form but the error
    message, which it shows. *)
Theorem submit_without_request_only_shows_an_error :
  forall p : Page,
    sent (handleSubmit api p) = sent p ->
    timers (handleSubmit api p) = timers p
    /\ onlyErrorShown (form p) (form (handleSubmit api p)).
Proof.
  intros p Hs.
  destruct (handleSubmit_outcome api p) as [(_ & Ht & H)|(r & Hs' & _)].
  - auto.
  - rewrite Hs' in Hs. exfalso. exact (ChatPageFacts.app_one_neq _ _ Hs).
Qed.

End SubmitProperties.

Section Flows.

Variable api : apiService.

Lemma six_digits_typed (typed : jsstring) :
  (6 <= List.length (replace_nondigits typed))%nat ->
  validators_otp (slice (replace_nondigits typed) 0 6) = true.
Proof.
  intros H. apply SignInUpFacts.validators_otp_spec.
  rewrite slice_from_start. split.
  - rewrite length_firstn. apply Nat.min_l. exact H.
  - apply Forall_firstn. apply replace_nondigits_digits.
Qed.

(** X7. The three steps of signing up, one after the other. From a sign-up
    form without OTP and without token, with a valid address: the submit
    sends the OTP request; once at least six digits are typed into the OTP
    field the next submit sends the verification of the first six, under
    the [otpId] the backend gave; once a password of six characters or more
    is typed the third submit sends the account request with the token the
    verification returned. When the backend accepts all three, exactly
    these three requests were sent, in this order, and the only timer set
    is the navigation to the profile page after 1500 ms. *)
Theorem sign_up_goes_through_otp_and_verification :
  forall (p : Page) (typed pw tok : jsstring)
         (r1 : SendOtpResponse) (r2 : Api.VerifyOtpResponse.t)
         (r3 : ApiResponse),
    mode (form p) = signup ->
    otpSent (form p) = false ->
    verificationToken (form p) = [] ->
    validators_email (email (form p)) = true ->
    sendOtp api (email (form p)) = Resolved r1 ->
    otp_success r1 = true ->
    (6 <= List.length (replace_nondigits typed))%nat ->
    verifyOtp api
      {| Api.VerifyOtpRequest.email := email (form p);
         Api.VerifyOtpRequest.otp := firstn 6 (replace_nondigits typed);
         Api.VerifyOtpRequest.otpId := or_else (otp_otpId r1) [] |}
    = Resolved r2 ->
    Api.VerifyOtpResponse.success r2 = true ->
    Api.VerifyOtpResponse.verificationToken r2 = Some tok ->
    tok <> [] ->
    (6 <= List.length pw)%nat ->
    register api
      {| signup_email := email (form p);
         signup_password := pw;
         signup_verificationToken := tok |}
    = Resolved r3 ->
    success r3 = true ->
    sent (handleSubmit api
            (setForm (newPassword_onChange pw)
               (handleSubmit api
                  (setForm (otp_onChange typed) (handleSubmit api p)))))
    = sent p
        ++ [SendOtp (email (form p));
            VerifyOtp
              {| Api.VerifyOtpRequest.email := email (form p);
                 Api.VerifyOtpRequest.otp := firstn 6 (replace_nondigits typed);
                 Api.VerifyOtpRequest.otpId := or_else (otp_otpId r1) [] |};
            Signup
              {| signup_email := email (form p);
                 signup_password := pw;
                 signup_verificationToken := tok |}]
    /\ timers (handleSubmit api
                 (setForm (newPassword_onChange pw)
                    (handleSubmit api
                       (setForm (otp_onChange typed) (handleSubmit api p)))))
       = timers p
           ++ [{| delay := 1500; callback := Navigate (str "/user-info") |}]
    /\ SignInUp.error
         (form (handleSubmit api
                  (setForm (newPassword_onChange pw)
                     (handleSubmit api
                        (setForm (otp_onChange typed) (handleSubmit api p))))))
       = [].
Proof.
  intros p typed pw tok r1 r2 r3 Hm Hos Hvt He H1 S1 Hd H2 S2 T2 Htok Hpw H3 S3.
  destruct p as [[e o pw0 np m os oi vt l er su sn] snt tm].
  cbn [form mode otpSent verificationToken email otp otpId newPassword
       password] in Hm, Hos, Hvt, He, H1, H2, H3.
  subst m os vt.
  pose proof (six_digits_typed typed Hd) as Ho.
  rewrite slice_from_start in Ho.
  assert (Hp : validators_password pw = true) by (apply Nat.leb_le; exact Hpw).
  apply truthy_spec in Htok.
  (* first submit *)
  assert (E1 : handleSubmit api
                 {| form := Build_FormState e o pw0 np signup false oi [] l
                              er su sn;
                    sent := snt; timers := tm |}
               = {| form := Build_FormState e o pw0 np signup true
                              (or_else (otp_otpId r1) []) [] false []
                              (str "OTP sent successfully to your email") true;
                    sent := snt ++ [SendOtp e]; timers := tm |}).
  { unfold handleSubmit, handleSendOtp. cbn [form mode otpSent email negb].
    rewrite He. cbn [negb]. rewrite H1, S1. reflexivity. }
  rewrite E1. clear E1.
  (* the OTP is typed, second submit *)
  assert (E2 : handleSubmit api
                 (setForm (otp_onChange typed)
                    {| form := Build_FormState e o pw0 np signup true
                                 (or_else (otp_otpId r1) []) [] false []
                                 (str "OTP sent successfully to your email")
                                 true;
                       sent := snt ++ [SendOtp e]; timers := tm |})
               = {| form := Build_FormState e (firstn 6 (replace_nondigits typed))
                              pw0 np signup true (or_else (otp_otpId r1) [])
                              tok false [] (str "OTP verified successfully")
                              true;
                    sent := (snt ++ [SendOtp e])
                              ++ [VerifyOtp
                                    {| Api.VerifyOtpRequest.email := e;
                                       Api.VerifyOtpRequest.otp :=
                                         firstn 6 (replace_nondigits typed);
                                       Api.VerifyOtpRequest.otpId :=
                                         or_else (otp_otpId r1) [] |}];
                    timers := tm |}).
  { unfold setForm, otp_onChange, updateFormState, spread.
    cbn [form sent timers fold_left assign]. rewrite slice_from_start.
    unfold handleSubmit, handleVerifyOtpOn, handleVerifyOtp.
    cbn [form mode otpSent verificationToken truthy negb otp email otpId].
    rewrite Ho. cbn [negb]. rewrite H2, S2, T2. cbn [or_else]. rewrite Htok.
    reflexivity. }
  rewrite E2. clear E2.
  (* the password is typed, third submit *)
  unfold setForm, newPassword_onChange, updateFormState, spread.
  cbn [form sent timers fold_left assign].
  unfold handleSubmit, handleSignUp.
  cbn [form mode otpSent verificationToken negb newPassword email].
  rewrite Htok, Hp. cbn [negb]. rewrite H3, S3.
  cbn. rewrite <- !app_assoc. auto.
Qed.

(** X8. After a password reset the backend accepted, a timer of 2000 ms is
    set, and when it fires the form is the blank sign-in form, whatever
    was typed in the meantime. *)
Theorem password_reset_returns_to_blank_sign_in :
  forall (p : Page) (r : ApiResponse),
    mode (form p) = forgot ->
    otpSent (form p) = true ->
    verificationToken (form p) <> [] ->
    (6 <= List.length (newPassword (form p)))%nat ->
    forgotPassword api
      {| forgot_email := email (form p);
         forgot_newPassword := newPassword (form p);
         forgot_verificationToken := verificationToken (form p) |}
    = Resolved r ->
    success r = true ->
    exists cb,
      timers (handleSubmit api p)
      = timers p ++ [{| delay := 2000; callback := cb |}]
      /\ forall current : FormState, fire cb current = initialFormState.
Proof.
  intros p r Hm Hos Hvt Hpw Hr Hs.
  destruct p as [[e o pw0 np m os oi vt l er su sn] snt tm].
  cbn [form mode otpSent verificationToken email otp otpId newPassword
       password] in Hm, Hos, Hvt, Hpw, Hr.
  subst m os.
  apply truthy_spec in Hvt.
  assert (Hp : validators_password np = true) by (apply Nat.leb_le; exact Hpw).
  unfold handleSubmit, handleForgotPasswordSubmit.
  cbn [form mode otpSent verificationToken negb newPassword email].
  rewrite Hvt, Hp. cbn [negb]. rewrite Hr, Hs.
  eexists. split; [reflexivity|]. intros current. reflexivity.
Qed.

(** X9. A verification the backend accepts without handing out a token does
    not advance the form: the success message is shown, the token of the
    form stays empty, the button still reads "Verify OTP", and the next
    submit sends the same verification again. *)
Theorem verification_without_token_does_not_advance :
  forall (p : Page) (r : Api.VerifyOtpResponse.t),
    mode (form p) <> signin ->
    otpSent (form p) = true ->
    verificationToken (form p) = [] ->
    validators_otp (otp (form p)) = true ->
    verifyOtp api
      {| Api.VerifyOtpRequest.email := email (form p);
         Api.VerifyOtpRequest.otp := otp (form p);
         Api.VerifyOtpRequest.otpId := otpId (form p) |}
    = Resolved r ->
    Api.VerifyOtpResponse.success r = true ->
    or_else (Api.VerifyOtpResponse.verificationToken r) [] = [] ->
    SignInUp.success (form (handleSubmit api p))
    = str "OTP verified successfully"
    /\ verificationToken (form (handleSubmit api p)) = []
    /\ getSubmitButtonText (form (handleSubmit api p)) = str "Verify OTP"
    /\ sent (handleSubmit api (handleSubmit api p))
       = sent p
           ++ [VerifyOtp
                 {| Api.VerifyOtpRequest.email := email (form p);
                    Api.VerifyOtpRequest.otp := otp (form p);
                    Api.VerifyOtpRequest.otpId := otpId (form p) |};
               VerifyOtp
                 {| Api.VerifyOtpRequest.email := email (form p);
                    Api.VerifyOtpRequest.otp := otp (form p);
                    Api.VerifyOtpRequest.otpId := otpId (form p) |}].
Proof.
  intros p r Hm Hos Hvt Ho Hr Hs Ht.
  destruct p as [[e o pw0 np m os oi vt l er su sn] snt tm].
  cbn [form mode otpSent verificationToken email otp otpId newPassword
       password] in Hm, Hos, Hvt, Ho, Hr.
  subst os vt.
  assert (E : handleSubmit api
                {| form := Build_FormState e o pw0 np m true oi [] l er su sn;
                   sent := snt; timers := tm |}
              = {| form := Build_FormState e o pw0 np m true oi [] false []
                             (str "OTP verified successfully") true;
                   sent := snt
                             ++ [VerifyOtp
                                   {| Api.VerifyOtpRequest.email := e;
                                      Api.VerifyOtpRequest.otp := o;
                                      Api.VerifyOtpRequest.otpId := oi |}];
                   timers := tm |}).
  { unfold handleSubmit, handleVerifyOtpOn, handleVerifyOtp.
    cbn [form mode otpSent verificationToken truthy negb otp email otpId].
    rewrite Ho. cbn [negb]. rewrite Hr, Hs, Ht.
    destruct m; [congruence | reflexivity | reflexivity]. }
  rewrite E. cbn [form sent SignInUp.success verificationToken].
  split; [reflexivity|]. split; [reflexivity|]. split.
  - destruct m; [congruence | reflexivity | reflexivity].
  - unfold handleSubmit, handleVerifyOtpOn, handleVerifyOtp.
    cbn [form mode otpSent verificationToken truthy negb otp email otpId].
    rewrite Ho. cbn [negb]. rewrite Hr, Hs.
    destruct m; [congruence | |]; cbn; rewrite <- app_assoc; reflexivity.
Qed.

(** X10. A sign-in the backend refuses, by [success: false] or by rejecting
    the request, sets no timer, leaves address and password as typed,
    stops the loading and shows an error: the message of the backend when
    it sent one, a fixed text otherwise. *)
Theorem refused_sign_in_keeps_the_input :
  forall p : Page,
    mode (form p) = signin ->
    validators_email (email (form p)) = true ->
    (6 <= List.length (password (form p)))%nat ->
    (forall r,
        login api {| login_email := email (form p);
                     login_password := password (form p) |} = Resolved r ->
        success r = true -> False) ->
    timers (handleSubmit api p) = timers p
    /\ email (form (handleSubmit api p)) = email (form p)
    /\ password (form (handleSubmit api p)) = password (form p)
    /\ loading (form (handleSubmit api p)) = false
    /\ showSnackbar (form (handleSubmit api p)) = true
    /\ SignInUp.error (form (handleSubmit api p)) <> []
    /\ (forall r msg,
          login api {| login_email := email (form p);
                       login_password := password (form p) |} = Resolved r ->
          message r = Some msg -> msg <> [] ->
          SignInUp.error (form (handleSubmit api p)) = msg)
    /\ (forall e msg,
          login api {| login_email := email (form p);
                       login_password := password (form p) |} = Rejected e ->
          response_message e = Some msg -> msg <> [] ->
          SignInUp.error (form (handleSubmit api p)) = msg).
Proof.
  intros p Hm He Hpw Hrefused.
  destruct p as [[e o pw0 np m os oi vt l er su sn] snt tm].
  cbn [form mode otpSent verificationToken email otp otpId newPassword
       password] in Hm, He, Hpw, Hrefused |- *.
  subst m.
  assert (Hp : validators_password pw0 = true) by (apply Nat.leb_le; exact Hpw).
  assert (Hor : forall a d, d <> [] -> or_else a d <> []).
  { intros [s|] d Hd; simpl; [|exact Hd].
    destruct (truthy s) eqn:E; [apply truthy_spec; exact E | exact Hd]. }
  assert (Hgot : forall msg d, msg <> [] -> or_else (Some msg) d = msg).
  { intros msg d H. apply truthy_spec in H. simpl. rewrite H. reflexivity. }
  unfold handleSubmit, handleSignIn. cbn [form mode email password].
  rewrite He, Hp. cbn [negb].
  destruct (login api _) as [r|err] eqn:Hr.
  - destruct (success r) eqn:Hs; [exfalso; exact (Hrefused r eq_refl Hs)|].
    cbn. repeat split; auto.
    + apply Hor. discriminate.
    + intros r' msg Hr' Hmsg Hne. inversion Hr'; subst r'.
      rewrite Hmsg. apply Hgot. exact Hne.
    + intros ? ? Hr'. discriminate.
  - cbn. repeat split; auto.
    + apply Hor. apply Hor. discriminate.
    + intros ? ? Hr'. discriminate.
    + intros e' msg Hr' Hmsg Hne. inversion Hr'; subst e'.
      rewrite Hmsg. apply Hgot. exact Hne.
Qed.

End Flows.

Section Disabled.

Variable api : apiService.

Lemma validators_email_empty : validators_email [] = false.
Proof. reflexivity. Qed.

(** X6. The submit button is disabled only where a submit would send
    nothing: for a form that is not loading, whenever [isSubmitDisabled]
    holds, [handleSubmit] sends no request and sets no timer. *)
Theorem disabled_button_has_nothing_to_send :
  forall p : Page,
    loading (form p) = false ->
    isSubmitDisabled (form p) = true ->
    sent (handleSubmit api p) = sent p
    /\ timers (handleSubmit api p) = timers p.
Proof.
  intros p Hl Hd.
  destruct (handleSubmit_outcome api p) as [(Hs & Ht & _)|(r & _ & Ha & _)];
    [auto|exfalso].
  destruct p as [[e o pw np m os oi vt l er su sn] snt tm].
  cbn [form loading] in Hl. subst l.
  unfold isSubmitDisabled in Hd.
  cbn [form loading mode otpSent verificationToken email password otp
       newPassword] in Hd.
  destruct r as [e'|q|q|q|q]; cbn [allowed form mode otpSent verificationToken
    email password otp newPassword otpId] in Ha.
  - destruct Ha as (Hm & Hos & -> & He). subst os.
    destruct m; [congruence| |]; cbn [negb] in Hd;
      apply negb_true_iff, truthy_false in Hd; subst e;
      rewrite validators_email_empty in He; discriminate.
  - destruct Ha as (Hm & Hos & Hvt & _ & Hlen & _). subst os vt.
    destruct m; [congruence| |]; cbn [negb truthy] in Hd;
      apply negb_true_iff, truthy_false in Hd; subst o; discriminate.
  - destruct Ha as (Hm & _ & He & Hp). subst m.
    apply orb_true_iff in Hd.
    destruct Hd as [Hd|Hd]; apply negb_true_iff, truthy_false in Hd.
    + subst e. rewrite validators_email_empty in He. discriminate.
    + subst pw. simpl in Hp. lia.
  - destruct Ha as (Hm & Hos & Hvt & _ & Hp). subst m os.
    apply truthy_spec in Hvt. cbn [negb] in Hd. rewrite Hvt in Hd.
    cbn [negb] in Hd. apply negb_true_iff, truthy_false in Hd. subst np.
    simpl in Hp. lia.
  - destruct Ha as (Hm & Hos & Hvt & _ & Hp). subst m os.
    apply truthy_spec in Hvt. cbn [negb] in Hd. rewrite Hvt in Hd.
    cbn [negb] in Hd. apply negb_true_iff, truthy_false in Hd. subst np.
    simpl in Hp. lia.
Qed.

End Disabled.

End SignInUpFormFacts.

(** ** The chat view, beyond the claims *)

Module ChatPageMoreFacts.
Import JS JSFacts Vocabulary ChatPage ChatPageLoad.
Import ChatPageFacts.

Lemma find_map_same {A} (p : A -> bool) (f : A -> A) (l : list A) :
  (forall x, p (f x) = p x) ->
  find p (map f l) = option_map f (find p l).
Proof.
  intros H. induction l as [|x l IH]; simpl; [reflexivity|].
  rewrite H. destruct (p x); [reflexivity | exact IH].
Qed.

Section Threads.

Variable api : apiService.t.
Variable parseDate : jsstring -> Z.

(** The function [loadMessages] maps over the chats. *)
Lemma loadMessages_outcome (chatId : jsstring) (w : World) :
  (exists r,
      apiService.getMessages api chatId = Resolved r
      /\ chats (ui (loadMessages api parseDate chatId w))
         = map (fun chat =>
                  if streq (Chat.id chat) chatId
                  then {| Chat.id := Chat.id chat;
                          Chat.title := Chat.title chat;
                          Chat.messages := map (formatMessage parseDate) r;
                          Chat.lastMessage := Chat.lastMessage chat;
                          Chat.messageCount := Chat.messageCount chat |}
                  else chat) (chats (ui w)))
  \/ (exists e,
        apiService.getMessages api chatId = Rejected e
        /\ chats (ui (loadMessages api parseDate chatId w)) = chats (ui w)).
Proof.
  destruct (apiService.getMessages api chatId) as [r|e] eqn:E.
  - left. exists r. split; [reflexivity|].
    unfold loadMessages. rewrite E.
    destruct w as [[mo sc cs ac m ty er dd cd nu] cl tm]. reflexivity.
  - right. exists e. split; [reflexivity|]. unfold loadMessages. rewrite E.
    destruct w as [[mo sc cs ac m ty er dd cd nu] cl tm]. reflexivity.
Qed.

(** X11. Loading the messages of a chat touches the messages of the chats of
    that id and nothing else: the chats keep their number, order, ids,
    titles, dates and counts, a chat of another id is the same, and the
    selection stays. Of two loads of the same chat, one after the other,
    each a request of its own that the backend may answer differently,
    the second decides the messages alone when it is resolved, and leaves
    the chats as the first left them when it is rejected. *)
Theorem loading_messages_touches_only_messages :
  forall (chatId : jsstring) (w : World),
    map Chat.id (chats (ui (loadMessages api parseDate chatId w)))
    = map Chat.id (chats (ui w))
    /\ map Chat.title (chats (ui (loadMessages api parseDate chatId w)))
       = map Chat.title (chats (ui w))
    /\ map Chat.messageCount (chats (ui (loadMessages api parseDate chatId w)))
       = map Chat.messageCount (chats (ui w))
    /\ map Chat.lastMessage (chats (ui (loadMessages api parseDate chatId w)))
       = map Chat.lastMessage (chats (ui w))
    /\ (forall i chat,
          nth_error (chats (ui w)) i = Some chat ->
          Chat.id chat <> chatId ->
          nth_error (chats (ui (loadMessages api parseDate chatId w))) i
          = Some chat)
    /\ activeChat (ui (loadMessages api parseDate chatId w))
       = activeChat (ui w)
    /\ (forall (later : apiService.t) response,
          apiService.getMessages later chatId = Resolved response ->
          chats (ui (loadMessages later parseDate chatId
                       (loadMessages api parseDate chatId w)))
          = chats (ui (loadMessages later parseDate chatId w)))
    /\ (forall (later : apiService.t) error,
          apiService.getMessages later chatId = Rejected error ->
          chats (ui (loadMessages later parseDate chatId
                       (loadMessages api parseDate chatId w)))
          = chats (ui (loadMessages api parseDate chatId w))).
Proof.
  intros chatId w.
  assert (Hmap : forall (B : Type) (g : Chat.t -> B) ms,
             (forall chat, g {| Chat.id := Chat.id chat;
                                Chat.title := Chat.title chat;
                                Chat.messages := ms;
                                Chat.lastMessage := Chat.lastMessage chat;
                                Chat.messageCount := Chat.messageCount chat |}
                           = g chat) ->
             forall l,
               map g (map (fun chat =>
                        if streq (Chat.id chat) chatId
                        then {| Chat.id := Chat.id chat;
                                Chat.title := Chat.title chat;
                                Chat.messages := ms;
                                Chat.lastMessage := Chat.lastMessage chat;
                                Chat.messageCount := Chat.messageCount chat |}
                        else chat) l) = map g l).
  { intros B g ms Hg l. rewrite map_map. apply map_ext. intros chat.
    destruct (streq _ _); [apply Hg | reflexivity]. }
  split; [|split; [|split; [|split; [|split; [|split; [|split]]]]]].
  1-4: destruct (loadMessages_outcome chatId w) as [(r & _ & E)|(e & _ & E)];
       rewrite E; [apply Hmap; reflexivity | reflexivity].
  - intros i chat Hi Hne.
    destruct (loadMessages_outcome chatId w) as [(r & _ & E)|(e & _ & E)];
      rewrite E; [|exact Hi].
    rewrite nth_error_map, Hi. simpl.
    apply streq_neq in Hne. rewrite Hne. reflexivity.
  - apply loadMessages_activeChat.
  - intros later response Hr. unfold loadMessages. rewrite Hr.
    destruct (apiService.getMessages api chatId) as [r|e];
      destruct w as [[mo sc cs ac m ty er dd cd nu] cl tm]; simpl;
      [|reflexivity].
    rewrite map_map. apply map_ext. intros chat.
    destruct (streq (Chat.id chat) chatId) eqn:Hid; simpl; rewrite ?Hid;
      reflexivity.
  - intros later error Hr. unfold loadMessages at 1. rewrite Hr.
    destruct (loadMessages api parseDate chatId w)
      as [[mo sc cs ac m ty er dd cd nu] cl tm].
    reflexivity.
Qed.

(** X12. The thread on screen after a send the backend resolved is the thread
    before it followed by the user message and the assistant message. *)
Theorem thread_grows_by_the_pair :
  forall (now : Z) (w : World) (chat : Chat.t) (data : Api.SendMessageData.t),
    trim (message (ui w)) <> [] ->
    activeChat (ui w) <> [] ->
    getCurrentChat w = Some chat ->
    apiService.sendMessage api (requestOf w) = Resolved data ->
    currentMessages (sendMessage api parseDate now w)
    = currentMessages w
        ++ [userMessageOf parseDate data; aiMessageOf parseDate data].
Proof.
  intros now w chat data Ht Ha Hc Hr.
  unfold currentMessages, getCurrentChat in *.
  rewrite sendMessage_activeChat.
  rewrite (sendMessage_resolved api parseDate now w data Ht Ha Hr).
  destruct w as [[mo sc cs ac m ty er dd cd nu] cl tm]. cbn in *.
  rewrite find_map_same by (intros x; rewrite withSent_id; reflexivity).
  rewrite Hc. simpl.
  apply find_some in Hc. destruct Hc as [_ Hid]. apply streq_spec in Hid.
  rewrite (withSent_active _ _ _ _ _ _ Hid). reflexivity.
Qed.

(** X13. A send the backend rejects keeps the typed text in the input, leaves
    every chat and the selection as they were, ends the typing indicator
    and shows an error: the message of the backend when it sent one, a
    fixed text otherwise. One request was sent. *)
Theorem rejected_send_keeps_the_text :
  forall (now : Z) (w : World) (e : ApiError),
    trim (message (ui w)) <> [] ->
    activeChat (ui w) <> [] ->
    apiService.sendMessage api (requestOf w) = Rejected e ->
    message (ui (sendMessage api parseDate now w)) = message (ui w)
    /\ chats (ui (sendMessage api parseDate now w)) = chats (ui w)
    /\ activeChat (ui (sendMessage api parseDate now w)) = activeChat (ui w)
    /\ isTyping (ui (sendMessage api parseDate now w)) = false
    /\ error (ui (sendMessage api parseDate now w))
       = Some (or_else (response_message e) (str "Failed to send message"))
    /\ calls (sendMessage api parseDate now w)
       = calls w ++ [SendMessage (requestOf w)].
Proof.
  intros now w e Ht Ha Hr.
  rewrite (sendMessage_rejected api parseDate now w e Ht Ha Hr).
  destruct w as [[mo sc cs ac m ty er dd cd nu] cl tm]. cbn. auto 10.
Qed.

End Threads.

Section Chats.

Variable api : apiService.t.
Variable parseDate : jsstring -> Z.

(** X14. A chat just created is the first of the list and the active one, with
    no message and a count of zero; the chats there were follow it
    unchanged. Selecting it sends no request. The first send into it that
    the backend resolves titles it from the text typed and leaves it with
    the two messages and a count of two. *)
Theorem created_chat_is_first_selected_and_empty :
  forall (isLargeScreen : bool) (w : World) (data : Api.CreateChatData.t),
    apiService.createChat api (str "New Chat") = Resolved data ->
    chats (ui (createNewChat api parseDate isLargeScreen w))
    = {| Chat.id := Api.CreateChatData.id data;
         Chat.title := Api.CreateChatData.title data;
         Chat.messages := [];
         Chat.lastMessage := parseDate (Api.CreateChatData.createdAt data);
         Chat.messageCount := 0 |} :: chats (ui w)
    /\ activeChat (ui (createNewChat api parseDate isLargeScreen w))
       = Api.CreateChatData.id data
    /\ calls (createNewChat api parseDate isLargeScreen w)
       = calls w ++ [CreateChat (str "New Chat")]
    /\ calls (handleChatSelect api parseDate isLargeScreen
                (Api.CreateChatData.id data)
                (createNewChat api parseDate isLargeScreen w))
       = calls (createNewChat api parseDate isLargeScreen w)
    /\ (forall (text : jsstring) (now : Z) (reply : Api.SendMessageData.t),
          trim text <> [] ->
          Api.CreateChatData.id data <> [] ->
          apiService.sendMessage api
            {| Api.SendMessageRequest.chatId := Api.CreateChatData.id data;
               Api.SendMessageRequest.message := trim text |}
          = Resolved reply ->
          exists chat',
            nth_error
              (chats (ui (sendMessage api parseDate now
                            (setMessage text
                               (createNewChat api parseDate isLargeScreen w)))))
              0 = Some chat'
            /\ Chat.title chat' = titleFrom text
            /\ Chat.messages chat'
               = [userMessageOf parseDate reply; aiMessageOf parseDate reply]
            /\ Chat.messageCount chat' = 2%Z).
Proof.
  intros isLargeScreen w data Hc.
  assert (E : exists w1,
             createNewChat api parseDate isLargeScreen w = w1
             /\ chats (ui w1)
                = {| Chat.id := Api.CreateChatData.id data;
                     Chat.title := Api.CreateChatData.title data;
                     Chat.messages := [];
                     Chat.lastMessage :=
                       parseDate (Api.CreateChatData.createdAt data);
                     Chat.messageCount := 0 |} :: chats (ui w)
             /\ activeChat (ui w1) = Api.CreateChatData.id data
             /\ calls w1 = calls w ++ [CreateChat (str "New Chat")]).
  { eexists. split; [reflexivity|]. unfold createNewChat. rewrite Hc.
    destruct w as [[mo sc cs ac m ty er dd cd nu] cl tm].
    destruct isLargeScreen; cbn; auto. }
  destruct E as (w1 & -> & Hchats & Hactive & Hcalls).
  split; [exact Hchats|]. split; [exact Hactive|]. split; [exact Hcalls|].
  split.
  - assert (Hf : find (fun c => streq (Chat.id c) (Api.CreateChatData.id data))
                   (chats (ui w1))
                 = Some {| Chat.id := Api.CreateChatData.id data;
                           Chat.title := Api.CreateChatData.title data;
                           Chat.messages := [];
                           Chat.lastMessage :=
                             parseDate (Api.CreateChatData.createdAt data);
                           Chat.messageCount := 0 |}).
    { rewrite Hchats. simpl. rewrite streq_refl. reflexivity. }
    destruct (handleChatSelect_cases api parseDate isLargeScreen _ w1 _ Hf)
      as (w0 & Hk & _ & _ & ->).
    simpl. exact Hk.
  - intros text now reply Ht Hid Hr.
    destruct (setMessage_frame text w1) as (Ec & Ea & Em).
    rewrite (sendMessage_resolved api parseDate now (setMessage text w1) reply).
    + rewrite Ea, Em, Hactive.
      assert (Ec' : chats (ui (setIsTyping false (setMessage []
                      (setChats
                         (map (withSent (Api.CreateChatData.id data) text
                                 (userMessageOf parseDate reply)
                                 (aiMessageOf parseDate reply) now))
                         (call (SendMessage (requestOf (setMessage text w1)))
                            (setIsTyping true (setMessage text w1)))))))
                    = map (withSent (Api.CreateChatData.id data) text
                             (userMessageOf parseDate reply)
                             (aiMessageOf parseDate reply) now)
                        (chats (ui w1))).
      { rewrite <- Ec.
        destruct (setMessage text w1) as [[mo sc cs ac m ty er dd cd nu] cl tm].
        reflexivity. }
      rewrite Ec', Hchats. simpl.
      eexists. split; [reflexivity|].
      rewrite withSent_active by reflexivity. simpl. auto.
    + rewrite Em. exact Ht.
    + rewrite Ea, Hactive. exact Hid.
    + unfold requestOf. rewrite Ea, Em, Hactive. exact Hr.
Qed.

Lemma loadMessages_ids (chatId : jsstring) (w : World) :
  map Chat.id (chats (ui (loadMessages api parseDate chatId w)))
  = map Chat.id (chats (ui w)).
Proof.
  destruct (loadMessages_outcome api parseDate chatId w)
    as [(r & _ & E)|(e & _ & E)]; rewrite E; [|reflexivity].
  rewrite map_map. apply map_ext. intros chat.
  destruct (streq _ _); reflexivity.
Qed.

Lemma remaining_ids (id : jsstring) (l : list Chat.t) :
  map Chat.id (remaining id l)
  = filter (fun i => negb (streq i id)) (map Chat.id l).
Proof.
  unfold remaining. induction l as [|c l IH]; simpl; [reflexivity|].
  destruct (streq (Chat.id c) id); simpl; rewrite IH; reflexivity.
Qed.

Lemma deleted_ids_both (w w1 : World) (id : jsstring) :
  chats (ui w1) = remaining id (chats (ui w)) ->
  forall w',
    w' = setChatToDelete None (setDeleteDialogOpen false
           (if streq (activeChat (ui w)) id
            then match remaining id (chats (ui w)) with
                 | first :: _ =>
                     loadMessages api parseDate (Chat.id first)
                       (setActiveChat (Chat.id first) w1)
                 | [] => setActiveChat [] w1
                 end
            else w1))
    \/ w' = setChatToDelete None (setDeleteDialogOpen false
              (if streq (activeChat (ui w)) id
               then match remaining id (chats (ui w)) with
                    | first :: _ =>
                        loadMessages api parseDate (Chat.id first)
                          (setActiveChat (Chat.id first) w1)
                    | [] => setTimeout CreateNewChat 500 (setActiveChat [] w1)
                    end
               else w1)) ->
    map Chat.id (chats (ui w')) = map Chat.id (remaining id (chats (ui w))).
Proof.
  intros Hc w' Hw'.
  assert (Hset : forall v, chats (ui (setActiveChat v w1)) = chats (ui w1)).
  { intros v. apply setActiveChat_frame. }
  destruct Hw' as [-> | ->];
    match goal with
    | |- context [setChatToDelete None (setDeleteDialogOpen false ?x)] =>
        destruct (closeDialog_frame x) as (Ec & _); rewrite Ec
    end;
    destruct (streq (activeChat (ui w)) id);
    try (rewrite Hc; reflexivity);
    destruct (remaining id (chats (ui w))) as [|first rest] eqn:Hrem;
    rewrite ?loadMessages_ids, ?Hset, ?Hc; try reflexivity.
  destruct (setTimeout_frame CreateNewChat 500 (setActiveChat [] w1))
    as (Et & _). rewrite Et, Hset, Hc. reflexivity.
Qed.

(** X15. After a delete the backend resolved, in both chat views, no chat of
    the list has the deleted id, and the ids of the list are the ids there
    were, in their order, without it. *)
Theorem deleted_chat_is_gone_from_the_list :
  forall (w : World) (id : jsstring) (u : unit),
    chatToDelete (ui w) = Some id ->
    id <> [] ->
    apiService.deleteChat api id = Resolved u ->
    forall w',
      w' = ChatPage.deleteChat api parseDate w
      \/ w' = ChatPageAlt.deleteChat api parseDate w ->
      map Chat.id (chats (ui w'))
      = filter (fun i => negb (streq i id)) (map Chat.id (chats (ui w)))
      /\ ~ In id (map Chat.id (chats (ui w'))).
Proof.
  intros w id u Hd Hid Hr w' Hw'.
  assert (E : map Chat.id (chats (ui w'))
              = map Chat.id (remaining id (chats (ui w)))).
  { destruct Hw' as [-> | ->].
    - rewrite (deleteChat_resolved api parseDate w id u Hd Hid Hr).
      apply (deleted_ids_both w
               (setChats (fun _ => remaining id (chats (ui w)))
                  (call (DeleteChat id) w)) id).
      + apply (removed_frame w id (fun _ => remaining id (chats (ui w)))
                 eq_refl).
      + right. reflexivity.
    - rewrite (deleteChat_alt_resolved api parseDate w id u Hd Hid Hr).
      apply (deleted_ids_both w
               (setChats (remaining id) (call (DeleteChat id) w)) id).
      + apply (removed_frame w id (remaining id) eq_refl).
      + left. reflexivity. }
  rewrite E, remaining_ids. split; [reflexivity|].
  intros Hin. apply filter_In in Hin. destruct Hin as [_ Hin].
  rewrite streq_refl in Hin. discriminate.
Qed.

(** X16. A delete the backend rejects, in both chat views, leaves the chats and
    the selection as they were and sets no timer; the error is shown, the
    dialog is closed and no chat awaits deletion any more. *)
Theorem rejected_delete_changes_no_chat :
  forall (w : World) (id : jsstring) (e : ApiError),
    chatToDelete (ui w) = Some id ->
    id <> [] ->
    apiService.deleteChat api id = Rejected e ->
    forall w',
      w' = ChatPage.deleteChat api parseDate w
      \/ w' = ChatPageAlt.deleteChat api parseDate w ->
      chats (ui w') = chats (ui w)
      /\ activeChat (ui w') = activeChat (ui w)
      /\ timers w' = timers w
      /\ calls w' = calls w ++ [DeleteChat id]
      /\ error (ui w')
         = Some (or_else (response_message e) (str "Failed to delete chat"))
      /\ deleteDialogOpen (ui w') = false
      /\ chatToDelete (ui w') = None.
Proof.
  intros w id e Hd Hid Hr w' Hw'.
  apply truthy_spec in Hid.
  destruct Hw' as [-> | ->];
    [unfold ChatPage.deleteChat | unfold ChatPageAlt.deleteChat];
    rewrite Hd, Hid; simpl negb; cbv iota; rewrite Hr;
    destruct w as [[mo sc cs ac m ty er dd cd nu] cl tm]; cbn; auto 10.
Qed.

(** X17. The sidebar toggle: toggling twice gives the state back; on a large
    screen it never opens or closes the mobile drawer, on a small one it
    never collapses the sidebar; chats, selection and input are left
    alone. *)
Theorem sidebar_toggle_is_its_own_inverse :
  forall (isLargeScreen : bool) (w : World),
    handleSidebarToggle isLargeScreen (handleSidebarToggle isLargeScreen w) = w
    /\ (isLargeScreen = true ->
        isMobileSidebarOpen (ui (handleSidebarToggle isLargeScreen w))
        = isMobileSidebarOpen (ui w)
        /\ isSidebarCollapsed (ui (handleSidebarToggle isLargeScreen w))
           = negb (isSidebarCollapsed (ui w)))
    /\ (isLargeScreen = false ->
        isSidebarCollapsed (ui (handleSidebarToggle isLargeScreen w))
        = isSidebarCollapsed (ui w)
        /\ isMobileSidebarOpen (ui (handleSidebarToggle isLargeScreen w))
           = negb (isMobileSidebarOpen (ui w)))
    /\ chats (ui (handleSidebarToggle isLargeScreen w)) = chats (ui w)
    /\ activeChat (ui (handleSidebarToggle isLargeScreen w))
       = activeChat (ui w)
    /\ message (ui (handleSidebarToggle isLargeScreen w)) = message (ui w).
Proof.
  intros isLargeScreen w.
  destruct w as [[mo sc cs ac m ty er dd cd nu] cl tm].
  destruct isLargeScreen; cbn; rewrite ?negb_involutive;
    repeat split; auto; discriminate.
Qed.

End Chats.

Section Creating.

Variable api : apiService.t.
Variable parseDate : jsstring -> Z.

Lemma createNewChat_resolved (isLargeScreen : bool) (w : World)
  (data : Api.CreateChatData.t) :
  apiService.createChat api (str "New Chat") = Resolved data ->
  chats (ui (createNewChat api parseDate isLargeScreen w))
  = {| Chat.id := Api.CreateChatData.id data;
       Chat.title := Api.CreateChatData.title data;
       Chat.messages := [];
       Chat.lastMessage := parseDate (Api.CreateChatData.createdAt data);
       Chat.messageCount := 0 |} :: chats (ui w)
  /\ activeChat (ui (createNewChat api parseDate isLargeScreen w))
     = Api.CreateChatData.id data
  /\ calls (createNewChat api parseDate isLargeScreen w)
     = calls w ++ [CreateChat (str "New Chat")].
Proof.
  intros Hc. unfold createNewChat. rewrite Hc.
  destruct w as [[mo sc cs ac m ty er dd cd nu] cl tm].
  destruct isLargeScreen; cbn; auto.
Qed.

End Creating.

Section InitialLoad.

Variable services : Services.
Variable api : apiService.t.
Variable parseDate : jsstring -> Z.
Variable isLargeScreen : bool.

Lemma onPage_silent (f : World -> World) (l : Loader) :
  calls (f (page l)) = calls (page l) ->
  events (onPage f l) = events l.
Proof.
  intros H. unfold onPage. simpl. rewrite H, skipn_all. simpl.
  apply app_nil_r.
Qed.

Lemma onPage_one (f : World -> World) (l : Loader) (c : ApiCall) :
  calls (f (page l)) = calls (page l) ++ [c] ->
  events (onPage f l) = events l ++ [ViewRequested c].
Proof.
  intros H. unfold onPage. simpl. rewrite H, skipn_app, skipn_all.
  rewrite Nat.sub_diag. reflexivity.
Qed.

Lemma setter_calls (f : State -> State) (w : World) :
  calls (update f w) = calls w.
Proof. reflexivity. Qed.

(** What [loadChats] asks of the backend: the list, and then the messages
    of the first chat when no chat was active and the list is not empty. *)
Lemma loadChats_events (l : Loader) :
  loading (snd (loadChats services api parseDate l)) = loading l
  /\ href (snd (loadChats services api parseDate l)) = href l
  /\ ((events (snd (loadChats services api parseDate l))
       = events l ++ [ChatsRequested]
       /\ (activeChat (ui (page l)) <> []
           \/ fst (loadChats services api parseDate l) = []))
      \/ exists first rest,
           getChats services = Resolved (first :: rest)
           /\ activeChat (ui (page l)) = []
           /\ fst (loadChats services api parseDate l)
              = map (formatChat parseDate) (first :: rest)
           /\ events (snd (loadChats services api parseDate l))
              = events l
                  ++ [ChatsRequested; ViewRequested (GetMessages (id first))]
           /\ activeChat (ui (page (snd (loadChats services api parseDate l))))
              = id first).
Proof.
  unfold loadChats.
  destruct (getChats services) as [response|e]; cbn [fst snd].
  - destruct (truthy (activeChat (ui (page l)))) eqn:Ha; cbn [negb].
    + split; [reflexivity|]. split; [reflexivity|]. left. split.
      * rewrite onPage_silent by reflexivity. reflexivity.
      * left. apply truthy_spec. exact Ha.
    + destruct response as [|first rest]; cbn [map].
      * split; [reflexivity|]. split; [reflexivity|]. left. split.
        -- rewrite onPage_silent by reflexivity. reflexivity.
        -- right. reflexivity.
      * split; [reflexivity|]. split; [reflexivity|]. right.
        exists first, rest. apply truthy_false in Ha.
        split; [reflexivity|]. split; [exact Ha|]. split; [reflexivity|].
        split.
        -- rewrite (onPage_one _ _ (GetMessages (id first)))
             by apply loadMessages_calls.
           rewrite onPage_silent by reflexivity.
           rewrite onPage_silent by reflexivity.
           cbn. rewrite <- app_assoc. reflexivity.
        -- cbn [onPage page]. rewrite loadMessages_activeChat.
           destruct l as [[[mo sc cs ac m ty er dd cd nu] cl tm] ld us hr ev].
           reflexivity.
  - split; [reflexivity|]. split; [reflexivity|]. left. split.
    + rewrite onPage_silent by reflexivity. reflexivity.
    + right. reflexivity.
Qed.

(** X18. The initial load. It always ends with [loading] off. Without an
    authenticated session it asks nothing of the backend and goes to "/".
    With a profile that misses a name, an age, a profession or an address
    it asks for the profile only and goes to "/user-info". In all cases
    its requests are, in this order and each only after the one before:
    the profile, the list of chats, the messages of the first chat; the
    last one only when no chat was active, and that chat is then the
    active one. *)
Theorem initial_load_asks_in_order :
  forall l : Loader,
    loading (loadInitialData services api parseDate l) = false
    /\ (isAuthenticated services = false ->
        events (loadInitialData services api parseDate l) = events l
        /\ href (loadInitialData services api parseDate l) = Some (str "/")
        /\ page (loadInitialData services api parseDate l) = page l)
    /\ (forall data,
          isAuthenticated services = true ->
          getUserProfile services = Resolved data ->
          incomplete data = true ->
          events (loadInitialData services api parseDate l)
          = events l ++ [ProfileRequested]
          /\ href (loadInitialData services api parseDate l)
             = Some (str "/user-info")
          /\ page (loadInitialData services api parseDate l) = page l)
    /\ (events (loadInitialData services api parseDate l) = events l
        \/ events (loadInitialData services api parseDate l)
           = events l ++ [ProfileRequested]
        \/ events (loadInitialData services api parseDate l)
           = events l ++ [ProfileRequested; ChatsRequested]
        \/ exists first rest,
             getChats services = Resolved (first :: rest)
             /\ activeChat (ui (page l)) = []
             /\ events (loadInitialData services api parseDate l)
                = events l
                    ++ [ProfileRequested; ChatsRequested;
                        ViewRequested (GetMessages (id first))]
             /\ activeChat
                  (ui (page (loadInitialData services api parseDate l)))
                = id first).
Proof.
  intros l. unfold loadInitialData.
  split; [reflexivity|].
  destruct (isAuthenticated services) eqn:Hauth; cbn [negb].
  - split; [discriminate|]. split.
    + intros data _ Hp Hi. rewrite Hp, Hi. auto.
    + destruct (getUserProfile services) as [data|e].
      * destruct (incomplete data); [right; left; reflexivity|].
        pose proof (loadChats_events
                      (setUser data (request ProfileRequested
                                       (setLoading true l)))) as H.
        destruct (loadChats services api parseDate
                    (setUser data (request ProfileRequested
                                     (setLoading true l))))
          as [chatsData l1].
        cbn [fst snd] in H. destruct H as (_ & _ & H).
        assert (Hn : events (if (List.length chatsData =? 0)%nat
                             then onPage (setIsNewUser true) l1 else l1)
                     = events l1).
        { destruct (List.length chatsData =? 0)%nat; [|reflexivity].
          apply onPage_silent. reflexivity. }
        assert (Ha : activeChat (ui (page
                       (if (List.length chatsData =? 0)%nat
                        then onPage (setIsNewUser true) l1 else l1)))
                     = activeChat (ui (page l1))).
        { destruct (List.length chatsData =? 0)%nat; [|reflexivity].
          destruct l1 as [[[mo sc cs ac m ty er dd cd nu] cl tm] ld us hr ev].
          reflexivity. }
        cbn [events page setLoading]. rewrite Hn, Ha.
        destruct H as [(He & _)|(first & rest & Hg & Hact & _ & He & Hsel)].
        -- right. right. left. rewrite He. cbn. rewrite <- app_assoc.
           reflexivity.
        -- right. right. right. exists first, rest.
           split; [exact Hg|]. split; [exact Hact|]. split; [|exact Hsel].
           rewrite He. cbn. rewrite <- app_assoc. reflexivity.
      * right. left. cbn [events setLoading].
        rewrite onPage_silent by reflexivity. reflexivity.
  - split; [intros _; auto|]. split; [discriminate|]. left. reflexivity.
Qed.

(** X19. A new user gets a first chat. When the session is authenticated, the
    profile is complete and the list of chats comes back empty, the effect
    that runs after the load creates a chat, which is then the only chat
    and the active one; the requests are the profile, the list and the
    creation, in this order; and the effect does nothing when it runs
    again. *)
Theorem new_user_gets_a_first_chat :
  forall (l : Loader) (data : option User) (created : Api.CreateChatData.t),
    isAuthenticated services = true ->
    getUserProfile services = Resolved data ->
    incomplete data = false ->
    getChats services = Resolved [] ->
    apiService.createChat api (str "New Chat") = Resolved created ->
    chats (ui (page (newUserEffect api parseDate isLargeScreen
                       (loadInitialData services api parseDate l))))
    = [{| Chat.id := Api.CreateChatData.id created;
          Chat.title := Api.CreateChatData.title created;
          Chat.messages := [];
          Chat.lastMessage := parseDate (Api.CreateChatData.createdAt created);
          Chat.messageCount := 0 |}]
    /\ activeChat
         (ui (page (newUserEffect api parseDate isLargeScreen
                      (loadInitialData services api parseDate l))))
       = Api.CreateChatData.id created
    /\ events (newUserEffect api parseDate isLargeScreen
                 (loadInitialData services api parseDate l))
       = events l
           ++ [ProfileRequested; ChatsRequested;
               ViewRequested (CreateChat (str "New Chat"))]
    /\ newUserEffect api parseDate isLargeScreen
         (newUserEffect api parseDate isLargeScreen
            (loadInitialData services api parseDate l))
       = newUserEffect api parseDate isLargeScreen
           (loadInitialData services api parseDate l).
Proof.
  intros l data created Hauth Hp Hi Hg Hc.
  assert (E1 : loadInitialData services api parseDate l
               = setLoading false
                   (onPage (setIsNewUser true)
                      (onPage (setChats (fun _ => []))
                         (request ChatsRequested
                            (setUser data
                               (request ProfileRequested
                                  (setLoading true l))))))).
  { unfold loadInitialData, loadChats. rewrite Hauth, Hp, Hi, Hg.
    cbn [negb map]. destruct (negb (truthy _)); reflexivity. }
  rewrite E1. clear E1.
  set (l1 := setLoading false _).
  assert (Hpage : page l1 = setIsNewUser true (setChats (fun _ => []) (page l)))
    by reflexivity.
  assert (Hev : events l1 = events l ++ [ProfileRequested; ChatsRequested]).
  { unfold l1. cbn [events setLoading].
    rewrite onPage_silent by reflexivity.
    rewrite onPage_silent by reflexivity.
    cbn. rewrite <- app_assoc. reflexivity. }
  assert (E2 : newUserEffect api parseDate isLargeScreen l1
               = onPage (setIsNewUser false)
                   (onPage (createNewChat api parseDate isLargeScreen) l1)).
  { unfold newUserEffect. rewrite Hpage.
    destruct l as [[[mo sc cs ac m ty er dd cd nu] cl tm] ld us hr ev].
    reflexivity. }
  rewrite E2. clear E2.
  destruct (createNewChat_resolved api parseDate isLargeScreen (page l1)
              created Hc)
    as (Hchats & Hactive & Hcalls).
  assert (Hnew : forall v w, isNewUser (ui (setIsNewUser v w)) = v
                             /\ chats (ui (setIsNewUser v w)) = chats (ui w)
                             /\ activeChat (ui (setIsNewUser v w))
                                = activeChat (ui w)).
  { intros v [[mo sc cs ac m ty er dd cd nu] cl tm]. auto. }
  cbn [page onPage].
  destruct (Hnew false (createNewChat api parseDate isLargeScreen (page l1)))
    as (Hn & Hc' & Ha').
  split; [|split; [|split]].
  - rewrite Hc', Hchats, Hpage.
    destruct (page l) as [[mo sc cs ac m ty er dd cd nu] cl tm]. reflexivity.
  - rewrite Ha'. exact Hactive.
  - rewrite onPage_silent by reflexivity.
    rewrite (onPage_one _ _ _ Hcalls), Hev, <- app_assoc. reflexivity.
  - unfold newUserEffect at 1. cbn [page onPage]. rewrite Hn. reflexivity.
Qed.

End InitialLoad.

End ChatPageMoreFacts.

(** ** The API client, beyond the claims *)

Module ApiServiceMoreFacts.
Import JS JSFacts Vocabulary ApiService ApiServiceSession.
Import ApiServiceFacts.

Lemma onRequest_url (c : Config) (w : World) : url (onRequest c w) = url c.
Proof.
  unfold onRequest. destruct (getToken w) as [t|]; [|reflexivity].
  destruct (truthy t); reflexivity.
Qed.

Section Exchanges.

Variable server : Server.

(** A request the backend answers by anything but a 401: the response
    interceptor hands the outcome on. *)
Lemma api_not_401 (depth : nat) (c : Config) (w : World) (r : Response) :
  server (sent w) (onRequest c w) = Answer r ->
  status r <> 401%Z ->
  api server (S depth) c w
  = (if validateStatus (status r) then Fulfilled r
     else Failed {| config := onRequest c w; response := Some r |},
     transmit (onRequest c w) w).
Proof.
  intros Hs Hn. destruct (validateStatus (status r)) eqn:Hv.
  - apply api_resolved; assumption.
  - rewrite (api_rejected server depth c w r Hs Hv).
    unfold onResponseError, is401. cbn [response config].
    apply Z.eqb_neq in Hn. rewrite Hn. reflexivity.
Qed.

Lemma api_no_answer (depth : nat) (c : Config) (w : World) :
  server (sent w) (onRequest c w) = NoAnswer ->
  api server (S depth) c w
  = (Failed {| config := onRequest c w; response := None |},
     transmit (onRequest c w) w).
Proof. intros Hs. simpl. rewrite Hs. reflexivity. Qed.

(** X20. Only a 401 is intercepted. Any other answer is handed on as it came,
    a 2xx as the response and any other status as the failure, and so is
    the lack of an answer; the request left once, without the marker being
    set, and the token store, the location and the started calls are what
    they were. *)
Theorem only_a_401_is_intercepted :
  forall (depth : nat) (c : Config) (w : World),
    (forall r,
        server (sent w) (onRequest c w) = Answer r ->
        status r <> 401%Z ->
        api server (S depth) c w
        = (if validateStatus (status r) then Fulfilled r
           else Failed {| config := onRequest c w; response := Some r |},
           transmit (onRequest c w) w))
    /\ (server (sent w) (onRequest c w) = NoAnswer ->
        api server (S depth) c w
        = (Failed {| config := onRequest c w; response := None |},
           transmit (onRequest c w) w))
    /\ storage (transmit (onRequest c w) w) = storage w
    /\ href (transmit (onRequest c w) w) = href w
    /\ floating (transmit (onRequest c w) w) = floating w
    /\ sent (transmit (onRequest c w) w) = sent w ++ [onRequest c w]
    /\ _retry (onRequest c w) = _retry c.
Proof.
  intros depth c w. split; [|split].
  - intros r. apply api_not_401.
  - apply api_no_answer.
  - repeat split; auto. apply onRequest_retry.
Qed.

(** X21. Refresh and replay. A request without the marker is answered 401, a
    refresh token is stored, and the backend answers the refresh request
    by a 2xx with new tokens. Then both new tokens are stored, the request
    is sent again once, with the marker and with the new access token as
    its bearer, and what the backend answers to it is the outcome: the
    response when it is a 2xx, the failure otherwise, a second 401
    included. Three requests left: the request, the refresh, the retry. *)
Theorem refresh_then_replay_once :
  forall (depth : nat) (c : Config) (w : World) (rt : jsstring)
         (r1 r2 r3 : Response) (d : AuthData),
    _retry c = false ->
    server (sent w) (onRequest c w) = Answer r1 ->
    status r1 = 401%Z ->
    getRefreshToken w = Some rt ->
    rt <> [] ->
    server (sent w ++ [onRequest c w]) (refreshRequest rt w) = Answer r2 ->
    validateStatus (status r2) = true ->
    auth r2 = Some d ->
    server (sent w ++ [onRequest c w; refreshRequest rt w])
      (withAuthorization (Bearer (token d)) (markRetried (onRequest c w)))
    = Answer r3 ->
    fst (api server (S (S depth)) c w)
    = (if validateStatus (status r3) then Fulfilled r3
       else Failed
              {| config := withAuthorization (Bearer (token d))
                             (markRetried (onRequest c w));
                 response := Some r3 |})
    /\ sent (snd (api server (S (S depth)) c w))
       = sent w
           ++ [onRequest c w; refreshRequest rt w;
               withAuthorization (Bearer (token d))
                 (markRetried (onRequest c w))]
    /\ getToken (snd (api server (S (S depth)) c w)) = Some (token d)
    /\ getRefreshToken (snd (api server (S (S depth)) c w))
       = Some (newRefreshToken d)
    /\ href (snd (api server (S (S depth)) c w)) = href w
    /\ floating (snd (api server (S (S depth)) c w)) = floating w.
Proof.
  intros depth c w rt r1 r2 r3 d Hm H1 S1 Hrt Hne H2 V2 A2 H3.
  assert (V1 : validateStatus (status r1) = false) by (rewrite S1; reflexivity).
  rewrite (api_rejected server (S depth) c w r1 H1 V1).
  unfold onResponseError, is401. simpl config. simpl response.
  rewrite onRequest_retry, Hm, S1.
  change ((401 =? 401)%Z) with true. cbn [andb negb].
  change (getRefreshToken (transmit (onRequest c w) w))
    with (getRefreshToken w).
  rewrite Hrt. apply truthy_spec in Hne. rewrite Hne.
  unfold refreshToken, post.
  assert (Hrq : onRequest
                  {| url := str "/auth/refresh-token";
                     data := RefreshTokenRequest rt;
                     Authorization := None; _retry := false |}
                  (transmit (onRequest c w) w) = refreshRequest rt w)
    by reflexivity.
  rewrite (api_resolved server depth _ (transmit (onRequest c w) w) r2).
  2: { rewrite Hrq. exact H2. }
  2: { exact V2. }
  rewrite A2, Hrq.
  set (c3 := withAuthorization (Bearer (token d)) (markRetried (onRequest c w))).
  set (w2 := setRefreshToken _ _).
  assert (Hc3 : onRequest c3 w2 = c3).
  { unfold onRequest, getToken, w2. simpl.
    destruct (truthy (token d)); reflexivity. }
  assert (Hs2 : sent w2 = sent w ++ [onRequest c w; refreshRequest rt w]).
  { unfold w2. simpl. rewrite <- app_assoc. reflexivity. }
  assert (H3' : server (sent w2) (onRequest c3 w2) = Answer r3).
  { rewrite Hc3, Hs2. exact H3. }
  destruct (validateStatus (status r3)) eqn:V3.
  - rewrite (api_resolved server depth c3 w2 r3 H3' V3).
    cbn [fst snd]. rewrite Hc3. split; [reflexivity|]. split.
    + cbn [sent transmit]. rewrite Hs2, <- app_assoc. reflexivity.
    + repeat split; reflexivity.
  - rewrite (retried_request_is_handed_on server depth c3 w2 r3
               eq_refl H3' V3).
    cbn [fst snd]. rewrite Hc3. split; [reflexivity|]. split.
    + cbn [sent transmit]. rewrite Hs2, <- app_assoc. reflexivity.
    + repeat split; reflexivity.
Qed.

End Exchanges.

Section Sessions.

Variable atob : jsstring -> Completion jsstring.
Variable JSON_parse : jsstring -> Completion Value.
Variable StringToNumber : jsstring -> number.
Variable Array_toString : list Value -> jsstring.
Variable server : Server.

(** X22. After the logout of the chat view has settled the session is over:
    the token store is empty and the location is "/", [isAuthenticated]
    answers [false] and [getCurrentUser] answers [null] whatever the time
    and the platform, and the request interceptor adds no header to the
    requests that follow. *)
Theorem after_logout_the_session_is_over :
  forall (depth : nat) (w w' : World),
    handleLogout server depth w = Some w' ->
    tokensCleared w'
    /\ href w' = str "/"
    /\ (forall currentTime,
          isAuthenticated atob JSON_parse StringToNumber Array_toString
            currentTime w' = false)
    /\ getCurrentUser atob JSON_parse w' = Null
    /\ (forall c, onRequest c w' = c).
Proof.
  intros depth w w' H. unfold handleLogout in H.
  destruct (logout server depth w) as [w1|] eqn:E; [|discriminate].
  inversion H; subst w'. clear H.
  apply logout_clears in E. unfold tokensCleared in *.
  assert (Hg : forall x, getToken (redirect x w1) = None).
  { intros x. unfold getToken. simpl. rewrite E. reflexivity. }
  split; [exact E|]. split; [reflexivity|]. split; [|split].
  - intros t. unfold isAuthenticated. rewrite Hg. reflexivity.
  - unfold getCurrentUser. rewrite Hg. reflexivity.
  - intros c. unfold onRequest. rewrite Hg. reflexivity.
Qed.

(** X23. Whenever [isAuthenticated] answers [true], [getCurrentUser] returns
    the payload of the stored token, which is not [null] and whose [exp]
    is in the future. *)
Theorem authenticated_session_has_a_user :
  forall (currentTime : Q) (w : World),
    isAuthenticated atob JSON_parse StringToNumber Array_toString
      currentTime w = true ->
    getCurrentUser atob JSON_parse w <> Null
    /\ exists exp,
         get_exp (getCurrentUser atob JSON_parse w) = Normal exp
         /\ number_gt (ToNumber StringToNumber Array_toString exp)
              currentTime = true.
Proof.
  intros t w. unfold isAuthenticated, getCurrentUser.
  destruct (getToken w) as [token|]; [|discriminate].
  destruct (negb (truthy token)); [discriminate|].
  destruct (atob (payloadSegment token)) as [decoded|]; [|discriminate].
  destruct (JSON_parse decoded) as [payload|]; [|discriminate].
  destruct (get_exp payload) as [exp|] eqn:He; [|discriminate].
  intros H. split; [|exists exp; auto].
  intros ->. discriminate.
Qed.

End Sessions.

Section Bounds.

Variable server : Server.

(** The requests that have left never come back: an exchange only adds
    to them. *)
Lemma onResponseError_extends
  (self : Config -> World -> Promise Response * World) :
  (forall c w, exists l, sent (snd (self c w)) = sent w ++ l) ->
  forall err w, exists l, sent (snd (onResponseError self err w)) = sent w ++ l.
Proof.
  intros Hself err w. unfold onResponseError.
  assert (Hnil : exists l, sent w = sent w ++ l)
    by (exists []; rewrite app_nil_r; reflexivity).
  destruct (is401 err && negb (_retry (config err))); [|exact Hnil].
  destruct (getRefreshToken w) as [rt|]; [|exact Hnil].
  destruct (truthy rt); [|exact Hnil].
  unfold refreshToken, post.
  destruct (Hself {| url := str "/auth/refresh-token";
                     data := RefreshTokenRequest rt;
                     Authorization := None; _retry := false |} w)
    as [l1 H1].
  destruct (self _ w) as [[r| e |] w2]; simpl in H1.
  - destruct (auth r) as [d|].
    + destruct (Hself (withAuthorization (Bearer (token d))
                         (markRetried (config err)))
                  (setRefreshToken (newRefreshToken d)
                     (setToken (token d) w2))) as [l2 H2].
      exists (l1 ++ l2). rewrite H2. simpl. rewrite H1, app_assoc.
      reflexivity.
    + exists l1. exact H1.
  - exists l1. exact H1.
  - exists l1. exact H1.
Qed.

Lemma api_extends (depth : nat) :
  forall c w, exists l, sent (snd (api server depth c w)) = sent w ++ l.
Proof.
  induction depth as [|depth IH]; intros c w.
  - exists []. simpl. rewrite app_nil_r. reflexivity.
  - simpl.
    assert (Hone : forall err,
               exists l,
                 sent (snd (onResponseError (api server depth) err
                              (transmit (onRequest c w) w)))
                 = sent w ++ l).
    { intros err.
      destruct (onResponseError_extends (api server depth) IH err
                  (transmit (onRequest c w) w)) as [l H].
      exists (onRequest c w :: l). rewrite H. simpl.
      rewrite <- app_assoc. reflexivity. }
    destruct (server (sent w) (onRequest c w)) as [r|]; [|apply Hone].
    destruct (validateStatus (status r)); [|apply Hone].
    exists [onRequest c w]. reflexivity.
Qed.

Lemma api_sends_first (depth : nat) (c : Config) (w : World) :
  exists l,
    sent (snd (api server (S depth) c w)) = sent w ++ onRequest c w :: l.
Proof.
  simpl.
  assert (Hone : forall err,
             exists l,
               sent (snd (onResponseError (api server depth) err
                            (transmit (onRequest c w) w)))
               = sent w ++ onRequest c w :: l).
  { intros err.
    destruct (onResponseError_extends (api server depth) (api_extends depth)
                err (transmit (onRequest c w) w)) as [l H].
    exists l. rewrite H. simpl. rewrite <- app_assoc. reflexivity. }
  destruct (server (sent w) (onRequest c w)) as [r|]; [|apply Hone].
  destruct (validateStatus (status r)); [|apply Hone].
  exists []. reflexivity.
Qed.

Lemma sentSince_app (w w' : World) (l : list Config) :
  sent w' = sent w ++ l -> sentSince w w' = l.
Proof.
  intros H. unfold sentSince. rewrite H, skipn_app, skipn_all, Nat.sub_diag.
  reflexivity.
Qed.

(** X24. The client touches the token store, the location and the started
    calls only on the way of a refresh: an exchange in which no request
    left for the refresh endpoint leaves all three as they were. *)
Theorem store_changes_only_with_a_refresh :
  forall (depth : nat) (c : Config) (w : World),
    (forall q,
        In q (sentSince w (snd (api server depth c w))) ->
        url q <> refreshUrl) ->
    storage (snd (api server depth c w)) = storage w
    /\ href (snd (api server depth c w)) = href w
    /\ floating (snd (api server depth c w)) = floating w.
Proof.
  intros depth c w Hno.
  destruct depth as [|depth]; [simpl; auto|].
  revert Hno. simpl.
  set (c1 := onRequest c w). set (w1 := transmit c1 w).
  assert (Hkey : forall err,
             (forall q,
                 In q (sentSince w
                         (snd (onResponseError (api server depth) err w1))) ->
                 url q <> refreshUrl) ->
             storage (snd (onResponseError (api server depth) err w1))
             = storage w
             /\ href (snd (onResponseError (api server depth) err w1)) = href w
             /\ floating (snd (onResponseError (api server depth) err w1))
                = floating w).
  { intros err. unfold onResponseError.
    destruct (is401 err && negb (_retry (config err))); [|simpl; auto].
    destruct (getRefreshToken w1) as [rt|]; [|simpl; auto].
    destruct (truthy rt); [|simpl; auto].
    unfold refreshToken, post.
    set (rc := {| url := str "/auth/refresh-token";
                  data := RefreshTokenRequest rt;
                  Authorization := None; _retry := false |}).
    destruct depth as [|depth]; [simpl; auto|].
    intros Hno. exfalso.
    destruct (api_sends_first depth rc w1) as [l1 H1].
    assert (Hin : exists l,
               sent (snd (let (p, w0) := api server (S depth) rc w1 in
                          match p with
                          | Fulfilled r =>
                              match auth r with
                              | Some d =>
                                  api server (S depth)
                                    (withAuthorization (Bearer (token d))
                                       (markRetried (config err)))
                                    (setRefreshToken (newRefreshToken d)
                                       (setToken (token d) w0))
                              | None =>
                                  (Failed
                                     {| config := markRetried (config err);
                                        response := response err |},
                                   redirect (str "/") (start Logout w0))
                              end
                          | Failed _ =>
                              (Failed
                                 {| config := markRetried (config err);
                                    response := response err |},
                               redirect (str "/") (start Logout w0))
                          | Pending => (Pending, w0)
                          end))
               = sent w ++ c1 :: onRequest rc w1 :: l).
    { destruct (api server (S depth) rc w1) as [[r|e|] w2];
        cbn [snd] in H1.
      - destruct (auth r) as [d|].
        + destruct (api_extends (S depth)
                      (withAuthorization (Bearer (token d))
                         (markRetried (config err)))
                      (setRefreshToken (newRefreshToken d)
                         (setToken (token d) w2))) as [l2 H2].
          exists (l1 ++ l2). rewrite H2.
          cbn [sent setRefreshToken setToken]. rewrite H1.
          unfold w1. cbn [sent transmit].
          rewrite <- !app_assoc. reflexivity.
        + exists l1. cbn [snd sent redirect start]. rewrite H1.
          unfold w1. cbn [sent transmit]. rewrite <- app_assoc. reflexivity.
      - exists l1. cbn [snd sent redirect start]. rewrite H1.
        unfold w1. cbn [sent transmit]. rewrite <- app_assoc. reflexivity.
      - exists l1. cbn [snd]. rewrite H1.
        unfold w1. cbn [sent transmit]. rewrite <- app_assoc. reflexivity. }
    destruct Hin as [l Hl].
    apply (Hno (onRequest rc w1)).
    - rewrite (sentSince_app _ _ _ Hl). right. left. reflexivity.
    - rewrite onRequest_url. reflexivity. }
  destruct (server (sent w) c1) as [r|]; [|apply Hkey].
  destruct (validateStatus (status r)); [|apply Hkey].
  intros _. simpl. auto.
Qed.

End Bounds.

Section Termination.

Variable server : Server.

(** The backend never answers a request to the refresh endpoint by a
    401. *)
Hypothesis refresh_is_never_unauthorized :
  forall (seen : list Config) (q : Config) (r : Response),
    url q = refreshUrl ->
    server seen q = Answer r ->
    status r <> 401%Z.

Lemma refresh_request_settles_at_once (c : Config) (w : World) :
  url c = refreshUrl -> settlesAtOnce server c w.
Proof.
  intros Hu. unfold settlesAtOnce.
  destruct (server (sent w) (onRequest c w)) as [r|] eqn:Hs.
  - assert (Hn : status r <> 401%Z).
    { apply (refresh_is_never_unauthorized (sent w) (onRequest c w)).
      - rewrite onRequest_url. exact Hu.
      - exact Hs. }
    split; [intros depth; rewrite !(api_not_401 server _ c w r Hs Hn);
            reflexivity|].
    rewrite (api_not_401 server 0 c w r Hs Hn).
    destruct (validateStatus (status r)); simpl; repeat split; discriminate.
  - split; [intros depth; rewrite !(api_no_answer server _ c w Hs);
            reflexivity|].
    rewrite (api_no_answer server 0 c w Hs).
    simpl; repeat split; discriminate.
Qed.

Lemma marked_request_settles_at_once (c : Config) (w : World) :
  _retry c = true -> settlesAtOnce server c w.
Proof.
  intros Hm. unfold settlesAtOnce.
  destruct (server (sent w) (onRequest c w)) as [r|] eqn:Hs.
  - destruct (validateStatus (status r)) eqn:Hv.
    + split; [intros depth; rewrite !(api_resolved server _ c w r Hs Hv);
              reflexivity|].
      rewrite (api_resolved server 0 c w r Hs Hv).
      simpl; repeat split; discriminate.
    + split; [intros depth;
              rewrite !(retried_request_is_handed_on server _ c w r Hm Hs Hv);
              reflexivity|].
      rewrite (retried_request_is_handed_on server 0 c w r Hm Hs Hv).
      simpl; repeat split; discriminate.
  - split; [intros depth; rewrite !(api_no_answer server _ c w Hs);
            reflexivity|].
    rewrite (api_no_answer server 0 c w Hs).
    simpl; repeat split; discriminate.
Qed.

(** What the response interceptor comes to when it calls a client of
    depth two or more. *)
Lemma onResponseError_settles (depth : nat) (err : AxiosError) (w : World) :
  onResponseError (api server (S (S depth))) err w
  = onResponseError (api server 2) err w
  /\ fst (onResponseError (api server 2) err w) <> Pending
  /\ exists l,
       sent (snd (onResponseError (api server 2) err w)) = sent w ++ l
       /\ (List.length l <= 2)%nat.
Proof.
  unfold onResponseError.
  assert (Hnil : exists l, sent w = sent w ++ l /\ (List.length l <= 2)%nat).
  { exists []. rewrite app_nil_r. simpl. split; [reflexivity | lia]. }
  destruct (is401 err && negb (_retry (config err)));
    [|split; [reflexivity|split; [discriminate|exact Hnil]]].
  destruct (getRefreshToken w) as [rt|];
    [|split; [reflexivity|split; [discriminate|exact Hnil]]].
  destruct (truthy rt);
    [|split; [reflexivity|split; [discriminate|exact Hnil]]].
  unfold refreshToken, post.
  set (rc := {| url := str "/auth/refresh-token";
                data := RefreshTokenRequest rt;
                Authorization := None; _retry := false |}).
  destruct (refresh_request_settles_at_once rc w eq_refl)
    as (Hd & Hp & Hs & _).
  rewrite (Hd (S depth)), (Hd 1%nat).
  destruct (api server 1 rc w) as [[r|e|] w2]; cbn [fst snd] in Hp, Hs.
  - destruct (auth r) as [d|].
    + set (c3 := withAuthorization (Bearer (token d))
                   (markRetried (config err))).
      set (w3 := setRefreshToken (newRefreshToken d) (setToken (token d) w2)).
      destruct (marked_request_settles_at_once c3 w3 eq_refl)
        as (Hd3 & Hp3 & Hs3 & _).
      rewrite (Hd3 (S depth)), (Hd3 1%nat).
      split; [reflexivity|]. split; [exact Hp3|].
      exists [onRequest rc w; onRequest c3 w3]. rewrite Hs3.
      unfold w3. cbn [sent setRefreshToken setToken]. rewrite Hs.
      rewrite <- app_assoc. simpl. split; [reflexivity | lia].
    + split; [reflexivity|]. split; [discriminate|].
      exists [onRequest rc w]. cbn [snd sent redirect start].
      rewrite Hs. simpl. split; [reflexivity | lia].
  - split; [reflexivity|]. split; [discriminate|].
    exists [onRequest rc w]. cbn [snd sent redirect start].
    rewrite Hs. simpl. split; [reflexivity | lia].
  - congruence.
Qed.

(** X25. Provided the backend never answers the refresh endpoint by a 401,
    every request settles, and with at most three requests on the wire:
    the request, one refresh, one retry. Following the exchange deeper
    than three levels changes nothing. *)
Theorem every_request_settles_within_three :
  forall (depth : nat) (c : Config) (w : World),
    api server (3 + depth) c w = api server 3 c w
    /\ fst (api server 3 c w) <> Pending
    /\ exists l,
         sent (snd (api server 3 c w)) = sent w ++ l
         /\ (1 <= List.length l <= 3)%nat.
Proof.
  intros depth c w.
  change (3 + depth)%nat with (S (S (S depth))).
  assert (Hone : forall err,
             onResponseError (api server (S (S depth))) err
               (transmit (onRequest c w) w)
             = onResponseError (api server 2) err (transmit (onRequest c w) w)
             /\ fst (onResponseError (api server 2) err
                       (transmit (onRequest c w) w)) <> Pending
             /\ exists l,
                  sent (snd (onResponseError (api server 2) err
                               (transmit (onRequest c w) w)))
                  = sent w ++ l
                  /\ (1 <= List.length l <= 3)%nat).
  { intros err.
    destruct (onResponseError_settles depth err (transmit (onRequest c w) w))
      as (E & Hp & l & Hs & Hl).
    split; [exact E|]. split; [exact Hp|].
    exists (onRequest c w :: l). rewrite Hs. cbn [sent transmit].
    rewrite <- app_assoc. simpl. split; [reflexivity | lia]. }
  cbn [api].
  destruct (server (sent w) (onRequest c w)) as [r|]; [|apply Hone].
  destruct (validateStatus (status r)); [|apply Hone].
  split; [reflexivity|]. split; [discriminate|].
  exists [onRequest c w]. simpl. split; [reflexivity | lia].
Qed.

End Termination.

End ApiServiceMoreFacts.

(** ** Concrete runs of the further properties *)

Module MoreRuns.
Import JS Vocabulary FormVocabulary.

(** Sign-in with a valid address and password: the button reads "Sign In"
    and the submit sends the login. *)
Lemma button_names_run :
  SignInUp.loading (SignInUpForm.form MoreSamples.signingIn) = false
  /\ SignInUpForm.getSubmitButtonText
       (SignInUpForm.form MoreSamples.signingIn) = str "Sign In".
Proof.
  split; [reflexivity|].
  exact (SignInUpFormFacts.submit_button_names_the_request
           MoreSamples.accepting MoreSamples.signingIn
           (SignInUpForm.Login
              {| SignInUpForm.login_email := str "ann@example.org";
                 SignInUpForm.login_password := str "secret1" |})
           eq_refl eq_refl).
Defined.

Lemma loading_ends_run :
  SignInUp.loading (SignInUpForm.form MoreSamples.signingIn) = false
  /\ SignInUp.loading
       (SignInUpForm.form
          (SignInUpForm.handleSubmit MoreSamples.grudging
             MoreSamples.signingIn)) = false.
Proof.
  split; [reflexivity|].
  exact (SignInUpFormFacts.submit_never_leaves_the_form_loading
           MoreSamples.grudging MoreSamples.signingIn eq_refl).
Defined.

(** An address without an at sign: nothing is sent. *)
Lemma bad_address_run :
  SignInUpForm.validators_email (str "ann.example.org") = false
  /\ SignInUpForm.timers
       (SignInUpForm.handleSubmit MoreSamples.accepting MoreSamples.badAddress)
     = []
  /\ onlyErrorShown (SignInUpForm.form MoreSamples.badAddress)
       (SignInUpForm.form
          (SignInUpForm.handleSubmit MoreSamples.accepting
             MoreSamples.badAddress)).
Proof.
  split; [reflexivity|].
  exact (SignInUpFormFacts.submit_without_request_only_shows_an_error
           MoreSamples.accepting MoreSamples.badAddress eq_refl).
Defined.

(** Signing up: the three requests, in order. *)
Lemma sign_up_run :
  SignInUpForm.sent
    (SignInUpForm.handleSubmit MoreSamples.accepting
       (SignInUpForm.setForm (SignInUpForm.newPassword_onChange (str "secret1"))
          (SignInUpForm.handleSubmit MoreSamples.accepting
             (SignInUpForm.setForm (SignInUp.otp_onChange (str "12-34-56 7"))
                (SignInUpForm.handleSubmit MoreSamples.accepting
                   MoreSamples.signingUp)))))
  = [SignInUpForm.SendOtp (str "ann@example.org");
     SignInUpForm.VerifyOtp
       {| Api.VerifyOtpRequest.email := str "ann@example.org";
          Api.VerifyOtpRequest.otp := str "123456";
          Api.VerifyOtpRequest.otpId := str "otp-1" |};
     SignInUpForm.Signup
       {| SignInUpForm.signup_email := str "ann@example.org";
          SignInUpForm.signup_password := str "secret1";
          SignInUpForm.signup_verificationToken := str "vt-1" |}].
Proof.
  assert (Htok : str "vt-1" <> []) by (vm_compute; discriminate).
  assert (Hd : (6 <= List.length (replace_nondigits (str "12-34-56 7")))%nat)
    by (apply Nat.leb_le; reflexivity).
  assert (Hpw : (6 <= List.length (str "secret1"))%nat)
    by (apply Nat.leb_le; reflexivity).
  exact (proj1 (SignInUpFormFacts.sign_up_goes_through_otp_and_verification
                  MoreSamples.accepting MoreSamples.signingUp
                  (str "12-34-56 7") (str "secret1") (str "vt-1") _ _ _
                  eq_refl eq_refl eq_refl eq_refl eq_refl eq_refl Hd
                  eq_refl eq_refl eq_refl Htok Hpw eq_refl eq_refl)).
Defined.

(** The password reset: the timer of two seconds, and the blank form. *)
Lemma password_reset_run :
  SignInUp.mode (SignInUpForm.form MoreSamples.resetting) = SignInUp.forgot
  /\ exists cb,
       SignInUpForm.timers
         (SignInUpForm.handleSubmit MoreSamples.accepting MoreSamples.resetting)
       = SignInUpForm.timers MoreSamples.resetting
           ++ [{| SignInUpForm.delay := 2000; SignInUpForm.callback := cb |}]
       /\ forall current,
            SignInUpForm.fire cb current = SignInUp.initialFormState.
Proof.
  assert (Htok : SignInUp.verificationToken
                   (SignInUpForm.form MoreSamples.resetting) <> [])
    by (vm_compute; discriminate).
  split; [reflexivity|].
  assert (Hpw : (6 <= List.length
                        (SignInUp.newPassword
                           (SignInUpForm.form MoreSamples.resetting)))%nat)
    by (apply Nat.leb_le; reflexivity).
  exact (SignInUpFormFacts.password_reset_returns_to_blank_sign_in
           MoreSamples.accepting MoreSamples.resetting _
           eq_refl eq_refl Htok Hpw eq_refl eq_refl).
Defined.

(** A verification without a token: the button still reads "Verify OTP". *)
Lemma tokenless_verification_run :
  SignInUp.otpSent (SignInUpForm.form MoreSamples.verifying) = true
  /\ SignInUpForm.getSubmitButtonText
       (SignInUpForm.form
          (SignInUpForm.handleSubmit MoreSamples.grudging MoreSamples.verifying))
     = str "Verify OTP".
Proof.
  assert (Hm : SignInUp.mode (SignInUpForm.form MoreSamples.verifying)
               <> SignInUp.signin) by (vm_compute; discriminate).
  split; [reflexivity|].
  exact (proj1 (proj2 (proj2
           (SignInUpFormFacts.verification_without_token_does_not_advance
              MoreSamples.grudging MoreSamples.verifying _
              Hm eq_refl eq_refl eq_refl eq_refl eq_refl eq_refl)))).
Defined.

(** A refused sign-in: the message of the backend is shown. *)
Lemma refused_sign_in_run :
  SignInUp.mode (SignInUpForm.form MoreSamples.signingIn) = SignInUp.signin
  /\ SignInUpForm.timers
       (SignInUpForm.handleSubmit MoreSamples.grudging MoreSamples.signingIn)
     = SignInUpForm.timers MoreSamples.signingIn
  /\ SignInUp.error
       (SignInUpForm.form
          (SignInUpForm.handleSubmit MoreSamples.grudging MoreSamples.signingIn))
     = str "Invalid credentials".
Proof.
  assert (Hrefused : forall r,
             SignInUpForm.login MoreSamples.grudging
               {| SignInUpForm.login_email :=
                    SignInUp.email (SignInUpForm.form MoreSamples.signingIn);
                  SignInUpForm.login_password :=
                    SignInUp.password
                      (SignInUpForm.form MoreSamples.signingIn) |}
             = Resolved r ->
             SignInUpForm.success r = true -> False).
  { intros r Hr Hs. inversion Hr; subst r. discriminate. }
  assert (Hmsg : str "Invalid credentials" <> [])
    by (vm_compute; discriminate).
  assert (Hpw : (6 <= List.length
                        (SignInUp.password
                           (SignInUpForm.form MoreSamples.signingIn)))%nat)
    by (apply Nat.leb_le; reflexivity).
  pose proof (SignInUpFormFacts.refused_sign_in_keeps_the_input
                MoreSamples.grudging MoreSamples.signingIn
                eq_refl eq_refl Hpw Hrefused)
    as (Ht & _ & _ & _ & _ & _ & Hm & _).
  split; [reflexivity|]. split; [exact Ht|].
  exact (Hm _ _ eq_refl eq_refl Hmsg).
Defined.

(** The thread after the sample greeting. *)
Lemma thread_run :
  ChatPageLoad.getCurrentChat Samples.greeting = Some Samples.newChat
  /\ map ChatPage.MessageData.text
       (ChatPageLoad.currentMessages
          (ChatPage.sendMessage Samples.backend Samples.parseDate 7
             Samples.greeting))
     = [str "Hello"; str "Hi there"].
Proof.
  assert (H1 : trim (ChatPage.message (ChatPage.ui Samples.greeting)) <> [])
    by (vm_compute; discriminate).
  assert (H2 : ChatPage.activeChat (ChatPage.ui Samples.greeting) <> [])
    by (vm_compute; discriminate).
  split; [reflexivity|].
  rewrite (ChatPageMoreFacts.thread_grows_by_the_pair
             Samples.backend Samples.parseDate 7 Samples.greeting
             Samples.newChat _ H1 H2 eq_refl eq_refl).
  reflexivity.
Defined.

(** The backend is busy: the greeting stays in the input. *)
Lemma rejected_send_run :
  ChatPage.apiService.sendMessage MoreSamples.failing
    (requestOf Samples.greeting)
  = Rejected {| response_message := Some (str "Server busy");
                error_message := None |}
  /\ ChatPage.message
       (ChatPage.ui
          (ChatPage.sendMessage MoreSamples.failing Samples.parseDate 7
             Samples.greeting)) = str "Hello"
  /\ ChatPage.error
       (ChatPage.ui
          (ChatPage.sendMessage MoreSamples.failing Samples.parseDate 7
             Samples.greeting)) = Some (str "Server busy").
Proof.
  assert (H1 : trim (ChatPage.message (ChatPage.ui Samples.greeting)) <> [])
    by (vm_compute; discriminate).
  assert (H2 : ChatPage.activeChat (ChatPage.ui Samples.greeting) <> [])
    by (vm_compute; discriminate).
  pose proof (ChatPageMoreFacts.rejected_send_keeps_the_text
                MoreSamples.failing Samples.parseDate 7 Samples.greeting _
                H1 H2 eq_refl) as (Hm & _ & _ & _ & He & _).
  split; [reflexivity|]. split; [exact Hm | exact He].
Defined.

(** A chat is created next to the two sample chats. *)
Lemma created_chat_run :
  map ChatPage.Chat.id
    (ChatPage.chats
       (ChatPage.ui
          (ChatPage.createNewChat Samples.backend Samples.parseDate true
             Samples.greeting)))
  = [str "c9"; str "c1"; str "c2"]
  /\ ChatPage.activeChat
       (ChatPage.ui
          (ChatPage.createNewChat Samples.backend Samples.parseDate true
             Samples.greeting)) = str "c9".
Proof.
  pose proof (ChatPageMoreFacts.created_chat_is_first_selected_and_empty
                Samples.backend Samples.parseDate true Samples.greeting _
                eq_refl) as (Hc & Ha & _).
  split; [rewrite Hc; reflexivity | exact Ha].
Defined.

(** The active chat is deleted: its id is gone, in both views. *)
Lemma deleted_chat_run :
  ChatPage.chatToDelete (ChatPage.ui Samples.deletingActive)
  = Some (str "c1")
  /\ map ChatPage.Chat.id
       (ChatPage.chats
          (ChatPage.ui
             (ChatPage.deleteChat Samples.backend Samples.parseDate
                Samples.deletingActive))) = [str "c2"]
  /\ map ChatPage.Chat.id
       (ChatPage.chats
          (ChatPage.ui
             (ChatPageAlt.deleteChat Samples.backend Samples.parseDate
                Samples.deletingActive))) = [str "c2"].
Proof.
  assert (Hid : str "c1" <> []) by (vm_compute; discriminate).
  pose proof (ChatPageMoreFacts.deleted_chat_is_gone_from_the_list
                Samples.backend Samples.parseDate Samples.deletingActive
                (str "c1") tt eq_refl Hid eq_refl) as H.
  split; [reflexivity|]. split.
  - exact (proj1 (H _ (or_introl eq_refl))).
  - exact (proj1 (H _ (or_intror eq_refl))).
Defined.

(** The delete is rejected: both chats are still there. *)
Lemma rejected_delete_run :
  ChatPage.apiService.deleteChat MoreSamples.failing (str "c1")
  = Rejected {| response_message := None; error_message := None |}
  /\ ChatPage.chats
       (ChatPage.ui
          (ChatPage.deleteChat MoreSamples.failing Samples.parseDate
             Samples.deletingActive))
     = [Samples.newChat; Samples.olderChat]
  /\ ChatPage.chatToDelete
       (ChatPage.ui
          (ChatPageAlt.deleteChat MoreSamples.failing Samples.parseDate
             Samples.deletingActive)) = None.
Proof.
  assert (Hid : str "c1" <> []) by (vm_compute; discriminate).
  pose proof (ChatPageMoreFacts.rejected_delete_changes_no_chat
                MoreSamples.failing Samples.parseDate Samples.deletingActive
                (str "c1") _ eq_refl Hid eq_refl) as H.
  split; [reflexivity|]. split.
  - exact (proj1 (H _ (or_introl eq_refl))).
  - destruct (H _ (or_intror eq_refl)) as (_ & _ & _ & _ & _ & _ & Hd).
    exact Hd.
Defined.

(** A newcomer opens the chat page: one chat, created for them. *)
Lemma newcomer_run :
  ChatPageLoad.getChats MoreSamples.newcomer = Resolved []
  /\ map ChatPage.Chat.id
       (ChatPage.chats
          (ChatPage.ui
             (ChatPageLoad.page
                (ChatPageLoad.newUserEffect Samples.backend Samples.parseDate
                   true
                   (ChatPageLoad.loadInitialData MoreSamples.newcomer
                      Samples.backend Samples.parseDate
                      ChatPageLoad.mounted))))) = [str "c9"]
  /\ ChatPageLoad.events
       (ChatPageLoad.newUserEffect Samples.backend Samples.parseDate true
          (ChatPageLoad.loadInitialData MoreSamples.newcomer
             Samples.backend Samples.parseDate ChatPageLoad.mounted))
     = [ChatPageLoad.ProfileRequested; ChatPageLoad.ChatsRequested;
        ChatPageLoad.ViewRequested (ChatPage.CreateChat (str "New Chat"))].
Proof.
  pose proof (ChatPageMoreFacts.new_user_gets_a_first_chat
                MoreSamples.newcomer Samples.backend Samples.parseDate true
                ChatPageLoad.mounted _ _ eq_refl eq_refl eq_refl eq_refl
                eq_refl) as (Hc & _ & He & _).
  split; [reflexivity|]. split; [rewrite Hc; reflexivity | exact He].
Defined.

(** The tokens are renewed and the retry is answered 401 again. *)
Lemma refresh_then_replay_run :
  ApiService.getRefreshToken Samples.signedIn = Some (str "r1")
  /\ map ApiService.url
       (ApiService.sent
          (snd (ApiService.api Samples.renewsOnly 2 Samples.listChats
                  Samples.signedIn)))
     = [str "/chats/list"; str "/auth/refresh-token"; str "/chats/list"]
  /\ ApiService.getToken
       (snd (ApiService.api Samples.renewsOnly 2 Samples.listChats
               Samples.signedIn)) = Some (str "t2").
Proof.
  assert (Hne : str "r1" <> []) by (vm_compute; discriminate).
  pose proof (ApiServiceMoreFacts.refresh_then_replay_once
                Samples.renewsOnly 0 Samples.listChats Samples.signedIn
                (str "r1") Samples.unauthorized _ Samples.unauthorized _
                eq_refl eq_refl eq_refl eq_refl Hne eq_refl eq_refl eq_refl
                eq_refl) as (_ & Hs & Ht & _).
  split; [reflexivity|]. split; [rewrite Hs; reflexivity | exact Ht].
Defined.

(** Logging out of a live session. *)
Lemma after_logout_run :
  ApiService.isAuthenticated Samples.atob Samples.JSON_parse
    Samples.StringToNumber Samples.Array_toString 1999 MoreSamples.liveSession
  = true
  /\ exists w',
       ApiServiceSession.handleLogout Samples.refreshDown 3
         MoreSamples.liveSession = Some w'
       /\ tokensCleared w'
       /\ ApiService.isAuthenticated Samples.atob Samples.JSON_parse
            Samples.StringToNumber Samples.Array_toString 1999 w' = false.
Proof.
  split; [reflexivity|].
  eexists. split; [reflexivity|].
  pose proof (ApiServiceMoreFacts.after_logout_the_session_is_over
                Samples.atob Samples.JSON_parse Samples.StringToNumber
                Samples.Array_toString Samples.refreshDown 3
                MoreSamples.liveSession _ eq_refl) as (Hc & _ & Ha & _).
  split; [exact Hc | exact (Ha 1999)].
Defined.

(** The live session has a user. *)
Lemma authenticated_user_run :
  ApiService.isAuthenticated Samples.atob Samples.JSON_parse
    Samples.StringToNumber Samples.Array_toString 1999 MoreSamples.liveSession
  = true
  /\ ApiServiceSession.getCurrentUser Samples.atob Samples.JSON_parse
       MoreSamples.liveSession <> ApiService.Null.
Proof.
  split; [reflexivity|].
  exact (proj1 (ApiServiceMoreFacts.authenticated_session_has_a_user
                  Samples.atob Samples.JSON_parse Samples.StringToNumber
                  Samples.Array_toString 1999 MoreSamples.liveSession
                  eq_refl)).
Defined.

(** A 401 without a refresh token: no refresh request leaves, and the
    store is what it was. *)
Lemma store_untouched_run :
  map ApiService.url
    (ApiServiceSession.sentSince Samples.withoutRefreshToken
       (snd (ApiService.api always401 3 Samples.listChats
               Samples.withoutRefreshToken))) = [str "/chats/list"]
  /\ ApiService.storage
       (snd (ApiService.api always401 3 Samples.listChats
               Samples.withoutRefreshToken))
     = ApiService.storage Samples.withoutRefreshToken.
Proof.
  split; [reflexivity|].
  refine (proj1 (ApiServiceMoreFacts.store_changes_only_with_a_refresh
                   always401 3 Samples.listChats Samples.withoutRefreshToken
                   _)).
  intros q Hq. vm_compute in Hq. destruct Hq as [<-|[]].
  vm_compute. discriminate.
Defined.

(** A backend that renews the tokens never answers the refresh endpoint
    by a 401: the exchange settles with three requests. *)
Lemma settles_within_three_run :
  fst (ApiService.api Samples.renewsOnly 3 Samples.listChats Samples.signedIn)
  <> ApiService.Pending
  /\ ApiService.api Samples.renewsOnly 10 Samples.listChats Samples.signedIn
     = ApiService.api Samples.renewsOnly 3 Samples.listChats Samples.signedIn.
Proof.
  assert (Hnever : forall (seen : list ApiService.Config)
                          (q : ApiService.Config) (r : ApiService.Response),
             ApiService.url q = ApiServiceSession.refreshUrl ->
             Samples.renewsOnly seen q = ApiService.Answer r ->
             ApiService.status r <> 401%Z).
  { intros seen q r Hu Ha. unfold Samples.renewsOnly in Ha.
    rewrite Hu in Ha. vm_compute in Ha. inversion Ha; subst r.
    vm_compute. discriminate. }
  pose proof (ApiServiceMoreFacts.every_request_settles_within_three
                Samples.renewsOnly Hnever 7 Samples.listChats Samples.signedIn)
    as (He & Hp & _).
  split; [exact Hp | exact He].
Defined.

(** Addresses the form accepts and addresses it turns down. *)
Example email_runs :
  SignInUpForm.validators_email (str "ann@example.org") = true
  /\ SignInUpForm.validators_email (str "a@b.c.d") = true
  /\ SignInUpForm.validators_email (str "ann@example") = false
  /\ SignInUpForm.validators_email (str "ann@@example.org") = false
  /\ SignInUpForm.validators_email (str "ann smith@example.org") = false
  /\ SignInUpForm.validators_email (str "@example.org") = false
  /\ SignInUpForm.validators_email (str "ann@example.") = false.
Proof. repeat split; reflexivity. Qed.

(** The form as it is mounted: the button is disabled and a submit sends
    nothing. *)
Lemma disabled_button_run :
  SignInUpForm.isSubmitDisabled
    (SignInUpForm.form
       (MoreSamples.formWith SignInUp.signin "" "" "" "" false "")) = true
  /\ SignInUpForm.sent
       (SignInUpForm.handleSubmit MoreSamples.accepting
          (MoreSamples.formWith SignInUp.signin "" "" "" "" false "")) = [].
Proof.
  split; [reflexivity|].
  exact (proj1 (SignInUpFormFacts.disabled_button_has_nothing_to_send
                  MoreSamples.accepting
                  (MoreSamples.formWith SignInUp.signin "" "" "" "" false "")
                  eq_refl eq_refl)).
Defined.

(** The initial load of a newcomer, and of a visitor without a session. *)
Example initial_load_runs :
  ChatPageLoad.events
    (ChatPageLoad.loadInitialData MoreSamples.newcomer Samples.backend
       Samples.parseDate ChatPageLoad.mounted)
  = [ChatPageLoad.ProfileRequested; ChatPageLoad.ChatsRequested]
  /\ ChatPageLoad.href
       (ChatPageLoad.loadInitialData
          {| ChatPageLoad.isAuthenticated := false;
             ChatPageLoad.getUserProfile :=
               ChatPageLoad.getUserProfile MoreSamples.newcomer;
             ChatPageLoad.getChats := ChatPageLoad.getChats MoreSamples.newcomer
          |} Samples.backend Samples.parseDate ChatPageLoad.mounted)
     = Some (str "/").
Proof. split; reflexivity. Qed.

End MoreRuns.
